(** * TwitchIO payload models ([twitchio/models.py])

    A shallow embedding of the record classes of [twitchio/models.py]: every
    class constructor is a function from the raw payload (a JSON-like value)
    to either the constructed instance or the exception the Python code
    raises.  Instances are attribute stores guarded by the class's
    [__slots__]; the statements of a constructor are executed in source
    order, the first exception wins. *)

From Stdlib Require Import ZArith List String Ascii Bool Lia.
From Stdlib Require Import Numbers.DecimalString Numbers.DecimalZ Numbers.DecimalPos.
Import ListNotations.

Open Scope string_scope.
Open Scope Z_scope.

(** ** Exceptions and results *)

(** The exception classes the constructors can raise.  [KeyError] carries the
    missing key and [AttributeError] the attribute that could not be read or
    assigned. *)
Inductive exn : Type :=
| KeyError (key : string)
| TypeError
| ValueError
| AttributeError (attr : string)
| OverflowError.

Inductive result (A : Type) : Type :=
| Ok (a : A)
| Raise (e : exn).

Arguments Ok {A} a.
Arguments Raise {A} e.

Definition bind {A B : Type} (r : result A) (k : A -> result B) : result B :=
  match r with
  | Ok a => k a
  | Raise e => Raise e
  end.

Notation "x <- r ;; k" := (bind r (fun x => k))
  (at level 61, r at next level, right associativity).

Fixpoint mapM {A B : Type} (f : A -> result B) (l : list A) : result (list B) :=
  match l with
  | [] => Ok []
  | x :: xs => y <- f x ;; ys <- mapM f xs ;; Ok (y :: ys)
  end.

Definition is_ok {A : Type} (r : result A) : bool :=
  match r with Ok _ => true | Raise _ => false end.

(** ** Values *)

(** [datetime.datetime]: calendar fields and, for an aware value, the UTC
    offset in microseconds ([None] for a naive one). *)
Record datetime : Type := mkdatetime {
  year : Z; month : Z; day : Z;
  hour : Z; minute : Z; second : Z; microsecond : Z;
  tzinfo : option Z
}.

Local Set Warnings "-register-all".

(** Python values: the JSON fragment a payload is made of (numbers are the
    integers), [datetime] values, and instances of classes as a class name with
    the attributes assigned so far, in assignment order. *)
Inductive value : Type :=
| VNone
| VBool (b : bool)
| VInt (n : Z)
| VStr (s : string)
| VList (l : list value)
| VDict (d : list (string * value))
| VDatetime (t : datetime)
| VObj (cls : string) (attrs : list (string * value)).

(** A mapping with string keys, in insertion order. *)
Definition dict : Type := list (string * value).

Fixpoint lookup (k : string) (d : dict) : option value :=
  match d with
  | [] => None
  | (k', v) :: rest => if String.eqb k k' then Some v else lookup k rest
  end.

Definition has_key (k : string) (d : dict) : bool :=
  match lookup k d with Some _ => true | None => false end.

(** The mapping without key [k]. *)
Fixpoint remove_key (k : string) (d : dict) : dict :=
  match d with
  | [] => []
  | (k', v) :: rest =>
      if String.eqb k k' then remove_key k rest else (k', v) :: remove_key k rest
  end.

(** [d[k] = v] on a mapping: an existing key keeps its position, a new key is
    appended. *)
Fixpoint store (k : string) (v : value) (d : dict) : dict :=
  match d with
  | [] => [(k, v)]
  | (k', v') :: rest =>
      if String.eqb k k' then (k', v) :: rest else (k', v') :: store k v rest
  end.

Definition keys (d : dict) : list string := map fst d.

(** ** Python built-ins *)

(** Truth value of an object ([if x], [x or y]). *)
Definition truthy (v : value) : bool :=
  match v with
  | VNone => false
  | VBool b => b
  | VInt n => negb (n =? 0)
  | VStr s => negb (String.eqb s "")
  | VList l => match l with [] => false | _ => true end
  | VDict d => match d with [] => false | _ => true end
  | VDatetime _ => true
  | VObj _ _ => true
  end.

Definition is_none (v : value) : bool :=
  match v with VNone => true | _ => false end.

(** [v[k]] with a string key: only a mapping can be subscripted by a string;
    a missing key raises [KeyError(k)]. *)
Definition getitem (v : value) (k : string) : result value :=
  match v with
  | VDict d => match lookup k d with
               | Some x => Ok x
               | None => Raise (KeyError k)
               end
  | _ => Raise TypeError
  end.

(** Subscription of an expression that may itself raise: [e[k]]. *)
Definition item (e : result value) (k : string) : result value :=
  v <- e ;; getitem v k.

Coercion evaluated (v : value) : result value := Ok v.

Notation "e .[ k ]" := (item e k) (at level 1, left associativity, format "e .[ k ]").

(** [d.get(k)] *)
Definition dict_get (v : value) (k : string) : result value :=
  match v with
  | VDict d => match lookup k d with
               | Some x => Ok x
               | None => Ok VNone
               end
  | _ => Raise (AttributeError "get")
  end.

(** The conditional expression [a if c else b]: the condition is evaluated
    first, then one of the two branches. *)
Definition if_else (a c b : result value) : result value :=
  v <- c ;; if truthy v then a else b.

(** [x or e]: [e] is only evaluated when [x] is false. *)
Definition py_or (x : value) (e : result value) : result value :=
  if truthy x then Ok x else e.

(** [for x in v]: the elements of a list, the keys of a mapping, the
    characters of a string. *)
Definition chars (s : string) : list value :=
  map (fun c => VStr (String c "")) (list_ascii_of_string s).

Definition iter (v : value) : result (list value) :=
  match v with
  | VList l => Ok l
  | VDict d => Ok (map (fun kv => VStr (fst kv)) d)
  | VStr s => Ok (chars s)
  | _ => Raise TypeError
  end.

(** The list comprehension [[f(x) for x in e]]. *)
Definition comprehension (f : value -> result value) (e : result value) : result value :=
  v <- e ;; xs <- iter v ;; ys <- mapM f xs ;; Ok (VList ys).

(** [str(n)] for an integer. *)
Definition str_of_Z (n : Z) : string := NilEmpty.string_of_int (Z.to_int n).

(** [s.split(sep)] for a one-character separator. *)
Fixpoint split_on (sep : ascii) (s : string) : list string :=
  match s with
  | EmptyString => [""]
  | String c rest =>
      if Ascii.eqb c sep then "" :: split_on sep rest
      else match split_on sep rest with
           | [] => [String c ""]
           | w :: ws => String c w :: ws
           end
  end.

(** [e.split(sep)[0]]: only [str] has [split] among the payload values. *)
Definition split_first (sep : ascii) (e : result value) : result value :=
  v <- e ;;
  match v with
  | VStr s => Ok (VStr (hd "" (split_on sep s)))
  | _ => Raise (AttributeError "split")
  end.

(** *** [int(x)] *)

Definition is_digit (c : ascii) : bool :=
  let n := nat_of_ascii c in (Nat.leb 48 n && Nat.leb n 57)%bool.

Definition digit_value (c : ascii) : Z := Z.of_nat (nat_of_ascii c) - 48.

(** The white space [int] skips around a number in ASCII text: the space and
    the characters 9 to 13. *)
Definition is_space (c : ascii) : bool :=
  let n := nat_of_ascii c in (Nat.eqb n 32 || (Nat.leb 9 n && Nat.leb n 13))%bool.

Fixpoint lstrip (s : string) : string :=
  match s with
  | String c rest => if is_space c then lstrip rest else s
  | EmptyString => EmptyString
  end.

Fixpoint rstrip (s : string) : string :=
  match s with
  | EmptyString => EmptyString
  | String c rest =>
      match rstrip rest with
      | EmptyString => if is_space c then EmptyString else String c EmptyString
      | r => String c r
      end
  end.

(** Decimal digits, single underscores allowed between two digits. *)
Fixpoint digits_from (s : string) (acc : Z) (after_digit : bool) : option Z :=
  match s with
  | EmptyString => if after_digit then Some acc else None
  | String c rest =>
      if is_digit c then digits_from rest (10 * acc + digit_value c) true
      else if (Ascii.eqb c "_" && after_digit)%bool then digits_from rest acc false
      else None
  end.

(** The number of digits [int] reads from a text at most: the default of
    CPython from 3.11 on, and of the later releases of 3.7 to 3.10. *)
Definition max_str_digits : nat := 4300.

Definition digit_count (s : string) : nat :=
  List.length (filter is_digit (list_ascii_of_string s)).

(** Text of ASCII characters only. *)
Definition ascii_text (s : string) : bool :=
  forallb (fun c => Nat.ltb (nat_of_ascii c) 128) (list_ascii_of_string s).

(** [int(s)] for an ASCII text in base ten: surrounding white space, an
    optional sign, then digits, no more than [max_str_digits] of them.  (In a
    text that is not ASCII, [int] also reads the decimal digits and skips the
    white space of other scripts; such a text is refused here.) *)
Definition int_of_str (s : string) : option Z :=
  if Nat.ltb max_str_digits (digit_count s) then None
  else
    match rstrip (lstrip s) with
    | String "-" rest => option_map Z.opp (digits_from rest 0 false)
    | String "+" rest => digits_from rest 0 false
    | body => digits_from body 0 false
    end.

Definition py_int (v : value) : result value :=
  match v with
  | VInt n => Ok (VInt n)
  | VBool b => Ok (VInt (if b then 1 else 0))
  | VStr s => match int_of_str s with
              | Some n => Ok (VInt n)
              | None => Raise ValueError
              end
  | _ => Raise TypeError
  end.

(** *** [round(n / d)]

    [n / d] is Python's true division of two integers: the float (binary64)
    nearest to the quotient, the one with the even significand of two that
    are equally near, and [OverflowError] when that is beyond the range of a
    float.  [round] then gives the integer nearest to the float, the even one
    of two that are equally near. *)

(** The integer nearest to the fraction [n / d], the even one of two that
    are equally near ([0 < d]). *)
Definition round_div (n d : Z) : Z :=
  let q := n / d in
  let r := n mod d in
  if 2 * r <? d then q
  else if d <? 2 * r then q + 1
  else if Z.even q then q else q + 1.

(** [a / d < 2 ^ l] *)
Definition below (a d l : Z) : bool :=
  if 0 <=? l then a <? d * 2 ^ l else a * 2 ^ (- l) <? d.

(** The exponent [e] of the floats around [a / d], whose significands are
    the integers from 2^52 to 2^53: [2^52 <= a / (d * 2^e) < 2^53], for
    positive [a] and [d]. *)
Definition binade (a d : Z) : Z :=
  let l := Z.log2 a - Z.log2 d in
  (if below a d l then l - 1 else l) - 52.

(** [round(n / d)] for [0 < d]: the significand [m] of the float nearest to
    [|n| / d], the float [m * 2^e], then its rounding. *)
Definition round_quotient (n d : Z) : result Z :=
  if n =? 0 then Ok 0
  else
    let a := Z.abs n in
    let e := binade a d in
    if 0 <=? e then
      let m := round_div a (d * 2 ^ e) in
      if 2 ^ 1024 <=? m * 2 ^ e then Raise OverflowError
      else Ok (Z.sgn n * (m * 2 ^ e))
    else
      let m := round_div (a * 2 ^ (- e)) d in
      Ok (Z.sgn n * round_div m (2 ^ (- e))).

(** *** [datetime.datetime.fromisoformat]

    After [Lib/datetime.py] of CPython 3.7 to 3.10, the versions the library
    was written for: [YYYY-MM-DD[*HH[:MM[:SS[.fff[fff]]]][+HH:MM[:SS[.ffffff]]]]].
    With [zulu] set, a final "Z" is read as UTC, as CPython does from 3.11 on
    (the other formats 3.11 added are not modelled).  A string too short to
    hold a date is refused with [ValueError], as the C implementation does.
    The numbers are read with [int], as [Lib/datetime.py] reads them; the C
    implementation takes digits only and refuses a separator that no time
    follows, so the two differ on malformed text and agree on the timestamps
    an API sends. *)

Definition int_at (s : string) (pos len : nat) : option Z :=
  int_of_str (substring pos len s).

Definition char_is (s : string) (pos : nat) (c : ascii) : bool :=
  match String.get pos s with
  | Some c' => Ascii.eqb c' c
  | None => false
  end.

(** Position of the first [c] in [s], counted from [from]. *)
Fixpoint find_from (c : ascii) (s : string) (from : nat) : option nat :=
  match s with
  | EmptyString => None
  | String c' rest => if Ascii.eqb c' c then Some from else find_from c rest (S from)
  end.

Definition find (c : ascii) (s : string) : option nat := find_from c s 0.

Definition is_leap (y : Z) : bool :=
  ((y mod 4 =? 0) && (negb (y mod 100 =? 0) || (y mod 400 =? 0)))%bool.

Definition days_in_month (y m : Z) : Z :=
  if m =? 2 then (if is_leap y then 29 else 28)
  else if (m =? 4) || (m =? 6) || (m =? 9) || (m =? 11) then 30
  else 31.

(** [_parse_isoformat_date], on the first ten characters. *)
Definition parse_isoformat_date (dstr : string) : option (Z * Z * Z) :=
  if negb (Nat.eqb (String.length dstr) 10) then None
  else
    match int_at dstr 0 4 with
    | None => None
    | Some y =>
        if negb (char_is dstr 4 "-") then None
        else match int_at dstr 5 2 with
             | None => None
             | Some m =>
                 if negb (char_is dstr 7 "-") then None
                 else match int_at dstr 8 2 with
                      | None => None
                      | Some d => Some (y, m, d)
                      end
             end
    end.

(** The loop of [_parse_hh_mm_ss_ff] over hour, minute and second: [comp]
    components are still allowed; the result is the components read and the
    position reached. *)
Fixpoint parse_hh_mm_ss (tstr : string) (pos comp : nat) : option (list Z * nat) :=
  match comp with
  | O => Some ([], pos)
  | S comp' =>
      if Nat.ltb (String.length tstr - pos) 2 then None
      else
        match int_at tstr pos 2 with
        | None => None
        | Some v =>
            let pos := (pos + 2)%nat in
            match String.get pos tstr, comp' with
            | None, _ => Some ([v], pos)
            | Some _, O => Some ([v], pos)
            | Some next_char, _ =>
                if negb (Ascii.eqb next_char ":") then None
                else match parse_hh_mm_ss tstr (S pos) comp' with
                     | Some (vs, p) => Some (v :: vs, p)
                     | None => None
                     end
            end
        end
  end.

(** [_parse_hh_mm_ss_ff]: hour, minute, second, microsecond. *)
Definition parse_hh_mm_ss_ff (tstr : string) : option (Z * Z * Z * Z) :=
  match parse_hh_mm_ss tstr 0 3 with
  | None => None
  | Some (comps, pos) =>
      let hh := nth 0 comps 0 in
      let mm := nth 1 comps 0 in
      let ss := nth 2 comps 0 in
      if Nat.ltb pos (String.length tstr) then
        if negb (char_is tstr pos ".") then None
        else
          let pos := S pos in
          let len_remainder := (String.length tstr - pos)%nat in
          if negb (Nat.eqb len_remainder 3 || Nat.eqb len_remainder 6) then None
          else match int_at tstr pos len_remainder with
               | None => None
               | Some f => Some (hh, mm, ss, if Nat.eqb len_remainder 3 then f * 1000 else f)
               end
      else Some (hh, mm, ss, 0)
  end.

Definition first_some (a b : option nat) : option nat :=
  match a with Some _ => a | None => b end.

Definition microseconds (hh mm ss us : Z) : Z :=
  ((hh * 60 + mm) * 60 + ss) * 1000000 + us.

(** [_parse_isoformat_time]: the time of day and the optional UTC offset. *)
Definition parse_isoformat_time (zulu : bool) (tstr : string)
  : option (Z * Z * Z * Z * option Z) :=
  let len_str := String.length tstr in
  if Nat.ltb len_str 2 then None
  else
    let tz_pos :=
      first_some (find "-" tstr)
        (first_some (find "+" tstr) (if zulu then find "Z" tstr else None)) in
    let timestr := match tz_pos with
                   | Some p => substring 0 p tstr
                   | None => tstr
                   end in
    match parse_hh_mm_ss_ff timestr with
    | None => None
    | Some (hh, mm, ss, us) =>
        match tz_pos with
        | None => Some (hh, mm, ss, us, None)
        | Some p =>
            if (zulu && Nat.eqb (S p) len_str && char_is tstr p "Z")%bool
            then Some (hh, mm, ss, us, Some 0)
            else
              let tzstr := substring (S p) (len_str - S p) tstr in
              let n := String.length tzstr in
              if negb (Nat.eqb n 5 || Nat.eqb n 8 || Nat.eqb n 15) then None
              else match parse_hh_mm_ss_ff tzstr with
                   | None => None
                   | Some (th, tm, ts, tus) =>
                       let off := microseconds th tm ts tus in
                       let off := if char_is tstr p "-" then - off else off in
                       if (Z.abs off <? 86400000000)
                       then Some (hh, mm, ss, us, Some off)
                       else None
                   end
        end
    end.

(** The range checks of the [datetime] constructor. *)
Definition valid_datetime (t : datetime) : bool :=
  ((1 <=? year t) && (year t <=? 9999) &&
   (1 <=? month t) && (month t <=? 12) &&
   (1 <=? day t) && (day t <=? days_in_month (year t) (month t)) &&
   (0 <=? hour t) && (hour t <=? 23) &&
   (0 <=? minute t) && (minute t <=? 59) &&
   (0 <=? second t) && (second t <=? 59) &&
   (0 <=? microsecond t) && (microsecond t <=? 999999))%bool.

Definition fromisoformat_str (zulu : bool) (date_string : string) : result value :=
  let dstr := substring 0 10 date_string in
  let tstr := substring 11 (String.length date_string - 11) date_string in
  match parse_isoformat_date dstr with
  | None => Raise ValueError
  | Some (y, m, d) =>
      match (if Nat.eqb (String.length tstr) 0 then Some (0, 0, 0, 0, None)
             else parse_isoformat_time zulu tstr) with
      | None => Raise ValueError
      | Some (hh, mm, ss, us, tz) =>
          let t := mkdatetime y m d hh mm ss us tz in
          if valid_datetime t then Ok (VDatetime t) else Raise ValueError
      end
  end.

(** [fromisoformat] accepts a [str] only. *)
Definition fromisoformat (zulu : bool) (e : result value) : result value :=
  v <- e ;;
  match v with
  | VStr s => fromisoformat_str zulu s
  | _ => Raise TypeError
  end.

(** ** Instances and [__slots__] *)

(** An assignment [self.a = e] of a constructor body. *)
Definition stmt : Type := (string * result value)%type.

Notation "a ::= e" := (a, (e : result value)) (at level 70, only parsing).

(** The assignments run in order.  The right-hand side is evaluated first;
    the attribute must then be one of the class's slots, since a class
    with [__slots__] has no instance dictionary. *)
Fixpoint exec (slots : list string) (body : list stmt) (self : dict) : result dict :=
  match body with
  | [] => Ok self
  | (a, e) :: rest =>
      v <- e ;;
      if existsb (String.eqb a) slots then exec slots rest (store a v self)
      else Raise (AttributeError a)
  end.

Definition construct (cls : string) (slots : list string) (body : list stmt) : result value :=
  self <- exec slots body [] ;; Ok (VObj cls self).

(** [o.a] *)
Definition getattr (o : value) (a : string) : result value :=
  match o with
  | VObj _ attrs => match lookup a attrs with
                    | Some v => Ok v
                    | None => Raise (AttributeError a)
                    end
  | _ => Raise (AttributeError a)
  end.

Definition call1 (f : value -> result value) (a : result value) : result value :=
  x <- a ;; f x.

Definition call2 (f : value -> value -> result value) (a b : result value) : result value :=
  x <- a ;; y <- b ;; f x y.

(** ** What the module imports

    [models.py] imports [parse_timestamp] from [.utils], the user classes
    from [.user] and the enumerations from [.enums]; their sources are not
    part of this development, so the constructors are stated over any
    implementation of them. *)
Class Imports : Type := {
  (** [utils.parse_timestamp(timestamp)] *)
  parse_timestamp : value -> result value;
  (** [user.PartialUser(http, id, name)] *)
  PartialUser : value -> value -> value -> result value;
  (** [user.BitLeaderboardUser(http, data)] *)
  BitLeaderboardUser : value -> value -> result value;
  (** [enums.ModEventEnum(value=...)] *)
  ModEventEnum : value -> result value;
  (** [float(x)] *)
  py_float : value -> result value;
  (** the names of [PartialUser] and of its subclasses *)
  user_classes : list string;
  (** [str(x)] of a value that is neither an integer, a string, a Boolean
      nor [None] *)
  py_repr : value -> string;
  (** whether [fromisoformat] reads a final "Z" (CPython 3.11 and later) *)
  zulu : bool
}.

Section Models.

Context {imports : Imports}.


(** [str(v)] *)
Definition py_str (v : value) : string :=
  match v with
  | VInt n => str_of_Z n
  | VStr s => s
  | VNone => "None"
  | VBool true => "True"
  | VBool false => "False"
  | _ => py_repr v
  end.

(** *** BitsLeaderboard *)

Definition BitsLeaderboard_slots : list string :=
  ["_http"; "leaders"; "started_at"; "ended_at"].

Definition BitsLeaderboard (http data : value) : result value :=
  construct "BitsLeaderboard" BitsLeaderboard_slots
    [ "_http" ::= http;
      "started_at" ::= fromisoformat zulu data.["date_range"].["started_at"];
      "ended_at" ::= fromisoformat zulu data.["date_range"].["ended_at"];
      "leaders" ::= comprehension (BitLeaderboardUser http) data.["data"] ].

(** *** CheerEmoteTier *)

Definition CheerEmoteTier_slots : list string :=
  ["min_bits"; "id"; "colour"; "images"; "can_cheer"; "show_in_bits_card"].

Definition CheerEmoteTier (data : value) : result value :=
  construct "CheerEmoteTier" CheerEmoteTier_slots
    [ "min_bits" ::= data.["min_bits"];
      "id" ::= data.["id"];
      "colour" ::= data.["colour"];
      "images" ::= data.["images"];
      "can_cheer" ::= data.["can_cheer"];
      "show_in_bits_card" ::= data.["show_in_bits_card"] ].

(** *** CheerEmote *)

Definition CheerEmote_slots : list string :=
  ["_http"; "prefix"; "tiers"; "type"; "order"; "last_updated"; "charitable"].

Definition CheerEmote (http data : value) : result value :=
  construct "CheerEmote" CheerEmote_slots
    [ "_http" ::= http;
      "prefix" ::= data.["prefix"];
      "tiers" ::= comprehension CheerEmoteTier data.["tiers"];
      "type" ::= data.["type"];
      "order" ::= data.["order"];
      "last_updated" ::= call1 parse_timestamp data.["last_updated"];
      "charitable" ::= data.["is_charitable"] ].

(** *** Clip *)

Definition Clip_slots : list string :=
  ["id"; "url"; "embed_url"; "broadcaster"; "creator"; "video_id"; "game_id";
   "language"; "title"; "views"; "created_at"; "thumbnail_url"].

Definition Clip (http data : value) : result value :=
  construct "Clip" Clip_slots
    [ "id" ::= data.["id"];
      "url" ::= data.["url"];
      "embed_url" ::= data.["embed_url"];
      "broadcaster" ::= call2 (PartialUser http) data.["broadcaster_id"] data.["broadcaster_name"];
      "creator" ::= call2 (PartialUser http) data.["creator_id"] data.["creator_name"];
      "video_id" ::= data.["video_id"];
      "game_id" ::= data.["game_id"];
      "language" ::= data.["language"];
      "title" ::= data.["title"];
      "views" ::= data.["view_count"];
      "created_at" ::= call1 parse_timestamp data.["created_at"];
      "thumbnail_url" ::= data.["thumbnail_url"] ].

(** *** HypeTrainContribution *)

Definition HypeTrainContribution_slots : list string := ["total"; "type"; "user"].

Definition HypeTrainContribution (http data : value) : result value :=
  construct "HypeTrainContribution" HypeTrainContribution_slots
    [ "total" ::= data.["total"];
      "type" ::= data.["type"];
      "user" ::= call2 (PartialUser http) data.["user"] VNone ].

(** *** HypeTrainEvent *)

Definition HypeTrainEvent_slots : list string :=
  ["id"; "type"; "timestamp"; "version"; "broadcaster"; "expiry"; "event_id";
   "goal"; "level"; "started_at"; "top_contributions"; "contributions_total";
   "cooldown_end_time"; "last_contribution"].

Definition HypeTrainEvent (http data : value) : result value :=
  construct "HypeTrainEvent" HypeTrainEvent_slots
    [ "id" ::= data.["id"];
      "event_id" ::= data.["event_data"].["id"];
      "type" ::= data.["event_type"];
      "version" ::= data.["version"];
      "broadcaster" ::= call2 (PartialUser http) data.["event_data"].["broadcaster_id"] VNone;
      "timestamp" ::= call1 parse_timestamp data.["event_timestamp"];
      "cooldown_end_time" ::= call1 parse_timestamp data.["event_data"].["cooldown_end_time"];
      "expiry" ::= call1 parse_timestamp data.["expires_at"];
      "started_at" ::= call1 parse_timestamp data.["event_data"].["started_at"];
      "last_contribution" ::=
        call1 (HypeTrainContribution http) data.["event_data"].["last_contribution"];
      "level" ::= data.["event_data"].["level"];
      "top_contributions" ::=
        comprehension (HypeTrainContribution http) data.["event_data"].["top_contributions"];
      "contributions_total" ::= data.["event_data"].["total"];
      "goal" ::= data.["event_data"].["goal"] ].

(** *** BanEvent *)

Definition BanEvent_slots : list string :=
  ["id"; "type"; "timestamp"; "version"; "broadcaster"; "user"; "expires_at";
   "moderator"; "reason"].

Definition BanEvent (http data broadcaster : value) : result value :=
  construct "BanEvent" BanEvent_slots
    [ "id" ::= data.["id"];
      "type" ::= data.["event_type"];
      "timestamp" ::= call1 parse_timestamp data.["event_timestamp"];
      "version" ::= call1 py_float data.["version"];
      "reason" ::= data.["event_data"].["reason"];
      "broadcaster" ::=
        py_or broadcaster
          (call2 (PartialUser http)
             data.["event_data"].["broadcaster_id"] data.["event_data"].["broadcaster_name"]);
      "user" ::=
        call2 (PartialUser http) data.["event_data"].["user_id"] data.["event_data"].["user_name"];
      "moderator" ::=
        call2 (PartialUser http)
          data.["event_data"].["moderator_id"] data.["event_data"].["moderator_name"];
      "expires_at" ::=
        if_else (call1 parse_timestamp data.["event_data"].["expires_at"])
          data.["event_data"].["expires_at"]
          VNone ].

(** *** FollowEvent *)

Definition FollowEvent_slots : list string := ["from_user"; "to_user"; "followed_at"].

Definition FollowEvent (http data from_ to : value) : result value :=
  construct "FollowEvent" FollowEvent_slots
    [ "from_user" ::= py_or from_ (call2 (PartialUser http) data.["from_id"] data.["from_name"]);
      "to_user" ::= py_or to (call2 (PartialUser http) data.["to_id"] data.["to_name"]);
      "followed_at" ::= call1 parse_timestamp data.["followed_at"] ].

(** *** SubscriptionEvent *)

Definition SubscriptionEvent_slots : list string :=
  ["broadcaster"; "gift"; "tier"; "plan_name"; "user"].

(** [round(int(x) / 1000)] *)
Definition decode_tier (e : result value) : result value :=
  v <- call1 py_int e ;;
  match v with
  | VInt n => t <- round_quotient n 1000 ;; Ok (VInt t)
  | _ => Raise TypeError
  end.

Definition SubscriptionEvent (http data broadcaster user : value) : result value :=
  construct "SubscriptionEvent" SubscriptionEvent_slots
    [ "broadcaster" ::=
        py_or broadcaster
          (call2 (PartialUser http) data.["broadcaster_id"] data.["broadcaster_name"]);
      "user" ::= py_or user (call2 (PartialUser http) data.["user_id"] data.["user_name"]);
      "tier" ::= decode_tier data.["tier"];
      "plan_name" ::= data.["plan_name"];
      "gift" ::= data.["is_gift"] ].

(** *** Marker *)

Definition Marker_slots : list string :=
  ["id"; "created_at"; "description"; "position"; "url"].

Definition Marker (data : value) : result value :=
  construct "Marker" Marker_slots
    [ "id" ::= data.["id"];
      "created_at" ::= call1 parse_timestamp data.["created_at"];
      "description" ::= data.["description"];
      "position" ::= data.["position_seconds"];
      "url" ::= dict_get data "URL" ].

(** *** VideoMarkers *)

Definition VideoMarkers_slots : list string := ["id"; "markers"].

Definition VideoMarkers (data : value) : result value :=
  construct "VideoMarkers" VideoMarkers_slots
    [ "id" ::= data.["video_id"];
      "markers" ::= comprehension Marker data.["markers"] ].

(** *** Game *)

Definition Game_slots : list string := ["id"; "name"; "box_art_url"].

Definition Game (data : value) : result value :=
  construct "Game" Game_slots
    [ "id" ::= call1 py_int data.["id"];
      "name" ::= data.["name"];
      "box_art_url" ::= data.["box_art_url"] ].

(** *** ModEvent *)

Definition ModEvent_slots : list string :=
  ["id"; "type"; "timestamp"; "version"; "broadcaster"; "user"].

Definition ModEvent (http data broadcaster : value) : result value :=
  construct "ModEvent" ModEvent_slots
    [ "id" ::= data.["id"];
      "type" ::= call1 ModEventEnum data.["event_type"];
      "timestamp" ::= call1 parse_timestamp data.["event_timestamp"];
      "version" ::= data.["version"];
      "broadcaster" ::= broadcaster;
      "user" ::=
        call2 (PartialUser http)
          data.["event_data"].["user_id"] data.["event_data"].["user_name"] ].

(** *** AutomodCheckMessage *)



Definition AutomodCheckMessage_to_dict (self : value) : result value :=
  msg_id <- getattr self "id" ;;
  msg_text <- getattr self "text" ;;
  user_id <- getattr self "user_id" ;;
  Ok (VDict [("msg_id", msg_id); ("msg_text", msg_text); ("user_id", VStr (py_str user_id))]).

(** *** AutomodCheckResponse *)

Definition AutomodCheckResponse_slots : list string := ["id"; "permitted"].

Definition AutomodCheckResponse (data : value) : result value :=
  construct "AutomodCheckResponse" AutomodCheckResponse_slots
    [ "id" ::= data.["msg_id"];
      "permitted" ::= data.["is_permitted"] ].

(** *** Extension *)

Definition Extension_slots : list string := ["id"; "active"; "version"; "_x"; "_y"].

Definition Extension (data : value) : result value :=
  construct "Extension" Extension_slots
    [ "id" ::= data.["id"];
      "version" ::= data.["version"];
      "active" ::= data.["active"];
      "_x" ::= VNone;
      "_y" ::= VNone ].

(** The class method [Extension.new(active, version, id, x=None, y=None)]. *)
Definition Extension_new (active version id x y : value) : result value :=
  construct "Extension" Extension_slots
    [ "active" ::= active;
      "version" ::= version;
      "id" ::= id;
      "_x" ::= x;
      "_y" ::= y ].

Definition Extension_to_dict (self : value) : result value :=
  active <- getattr self "active" ;;
  id <- getattr self "id" ;;
  version <- getattr self "version" ;;
  let v := [("active", active); ("id", id); ("version", version)] in
  x <- getattr self "_x" ;;
  let v := if negb (is_none x) then store "x" x v else v in
  y <- getattr self "_y" ;;
  let v := if negb (is_none y) then store "y" y v else v in
  Ok (VDict v).

(** *** MaybeActiveExtension, a subclass of [Extension] *)

Definition MaybeActiveExtension_slots : list string :=
  ["id"; "version"; "name"; "can_activate"; "types"] ++ Extension_slots.

Definition MaybeActiveExtension (data : value) : result value :=
  construct "MaybeActiveExtension" MaybeActiveExtension_slots
    [ "id" ::= data.["id"];
      "version" ::= data.["version"];
      "name" ::= data.["name"];
      "can_activate" ::= data.["can_activate"];
      "types" ::= data.["type"] ].

(** *** ActiveExtension, a subclass of [Extension] *)

Definition ActiveExtension_slots : list string :=
  ["id"; "active"; "name"; "version"; "x"; "y"] ++ Extension_slots.

Definition ActiveExtension (data : value) : result value :=
  construct "ActiveExtension" ActiveExtension_slots
    [ "active" ::= data.["active"];
      "id" ::= dict_get data "id";
      "version" ::= dict_get data "version";
      "name" ::= dict_get data "name";
      "x" ::= dict_get data "x";
      "y" ::= dict_get data "y" ].

(** *** ExtensionBuilder *)

Definition ExtensionBuilder_slots : list string := ["panels"; "overlays"; "components"].

Definition ExtensionBuilder (panels overlays components : value) : result value :=
  construct "ExtensionBuilder" ExtensionBuilder_slots
    [ "panels" ::= py_or panels (VList []);
      "overlays" ::= py_or overlays (VList []);
      "components" ::= py_or components (VList []) ].

(** [y._to_dict()]: the method is defined by [Extension], inherited by its
    two subclasses, and by [AutomodCheckMessage]. *)
Definition method_to_dict (y : value) : result value :=
  match y with
  | VObj cls _ =>
      if existsb (String.eqb cls) ["Extension"; "MaybeActiveExtension"; "ActiveExtension"]
      then Extension_to_dict y
      else if String.eqb cls "AutomodCheckMessage" then AutomodCheckMessage_to_dict y
      else Raise (AttributeError "_to_dict")
  | _ => Raise (AttributeError "_to_dict")
  end.

(** [{str(x): y._to_dict() for x, y in enumerate(ys)}], from index [x]. *)
Fixpoint keyed_by_index (x : Z) (ys : list value) (acc : dict) : result dict :=
  match ys with
  | [] => Ok acc
  | y :: rest =>
      d <- method_to_dict y ;;
      keyed_by_index (x + 1) rest (store (py_str (VInt x)) d acc)
  end.

Definition enumerate_to_dict (e : result value) : result value :=
  v <- e ;; ys <- iter v ;; d <- keyed_by_index 0 ys [] ;; Ok (VDict d).

Definition ExtensionBuilder_to_dict (self : value) : result value :=
  panel <- enumerate_to_dict (getattr self "panels") ;;
  overlay <- enumerate_to_dict (getattr self "overlays") ;;
  component <- enumerate_to_dict (getattr self "components") ;;
  Ok (VDict [("panel", panel); ("overlay", overlay); ("component", component)]).

(** *** Video *)

Definition Video_slots : list string :=
  ["_http"; "id"; "user"; "title"; "description"; "created_at"; "published_at";
   "url"; "thumbnail_url"; "viewable"; "view_count"; "language"; "type"; "duration"].

Definition Video (http data user : value) : result value :=
  construct "Video" Video_slots
    [ "_http" ::= http;
      "id" ::= call1 py_int data.["id"];
      "user" ::= py_or user (call2 (PartialUser http) data.["user_id"] data.["user_name"]);
      "title" ::= data.["title"];
      "description" ::= data.["description"];
      "created_at" ::= call1 parse_timestamp data.["created_at"];
      "published_at" ::= call1 parse_timestamp data.["published_at"];
      "url" ::= data.["url"];
      "thumbnail_url" ::= data.["thumbnail_url"];
      "viewable" ::= data.["viewable"];
      "view_count" ::= data.["view_count"];
      "language" ::= data.["language"];
      "type" ::= data.["type"];
      "duration" ::= data.["duration"] ].

(** *** Tag *)

Definition Tag_slots : list string :=
  ["id"; "auto"; "localization_names"; "localization_descriptions"].

Definition Tag (data : value) : result value :=
  construct "Tag" Tag_slots
    [ "id" ::= data.["tag_id"];
      "auto" ::= data.["is_auto"];
      "localization_names" ::= data.["localization_names"];
      "localization_descriptions" ::= data.["localization_descriptions"] ].

(** *** WebhookSubscription *)

Definition WebhookSubscription_slots : list string := ["callback"; "expires_at"; "topic"].

Definition WebhookSubscription (data : value) : result value :=
  construct "WebhookSubscription" WebhookSubscription_slots
    [ "callback" ::= data.["callback"];
      "expires_at" ::= call1 parse_timestamp data.["expired_at"];
      "topic" ::= data.["topic"] ].

(** *** Stream *)

Definition Stream_slots : list string :=
  ["id"; "user"; "game_id"; "game_name"; "type"; "title"; "viewer_count";
   "started_at"; "language"; "thumbnail_url"; "tag_ids"; "is_mature"].

Definition Stream (http data : value) : result value :=
  construct "Stream" Stream_slots
    [ "id" ::= data.["id"];
      "user" ::= call2 (PartialUser http) data.["user_id"] data.["user_name"];
      "game_id" ::= data.["game_id"];
      "game_name" ::= data.["game_name"];
      "type" ::= data.["type"];
      "title" ::= data.["title"];
      "viewer_count" ::= data.["viewer_count"];
      "started_at" ::= call1 parse_timestamp data.["started_at"];
      "language" ::= data.["language"];
      "thumbnail_url" ::= data.["thumbnail_url"];
      "tag_ids" ::= data.["tag_ids"];
      "is_mature" ::= data.["is_mature"] ].

(** *** ChannelInfo *)

Definition ChannelInfo_slots : list string :=
  ["user"; "game_id"; "game_name"; "title"; "language"; "delay"].

Definition ChannelInfo (http data : value) : result value :=
  construct "ChannelInfo" ChannelInfo_slots
    [ "user" ::= call2 (PartialUser http) data.["broadcaster_id"] data.["broadcaster_name"];
      "game_id" ::= data.["game_id"];
      "game_name" ::= data.["game_name"];
      "title" ::= data.["title"];
      "language" ::= data.["broadcaster_language"];
      "delay" ::= data.["delay"] ].

(** *** Predictor

    The slots are those of the source,
    [("outcome_id", "title", "channel_points", "color")]; the constructor
    assigns [channel_points_used], [channel_points_won] and [user]. *)

Definition Predictor_slots : list string :=
  ["outcome_id"; "title"; "channel_points"; "color"].

Definition Predictor (http data : value) : result value :=
  construct "Predictor" Predictor_slots
    [ "channel_points_used" ::= data.["channel_points_used"];
      "channel_points_won" ::= data.["channel_points_won"];
      "user" ::= call2 (PartialUser http) data.["user"].["id"] data.["user"].["name"] ].

(** *** PredictionOutcome *)

Definition PredictionOutcome_slots : list string :=
  ["outcome_id"; "title"; "channel_points"; "color"; "users"; "top_predictors"].

(** The final [if data["top_predictors"]: ... else: ...] assigns
    [top_predictors] in both branches, so it is one assignment of a
    conditional value. *)
Definition PredictionOutcome (http data : value) : result value :=
  construct "PredictionOutcome" PredictionOutcome_slots
    [ "outcome_id" ::= data.["id"];
      "title" ::= data.["title"];
      "channel_points" ::= data.["channel_points"];
      "color" ::= data.["color"];
      "users" ::= data.["users"];
      "top_predictors" ::=
        if_else (comprehension (Predictor http) data.["top_predictors"])
          data.["top_predictors"]
          VNone ].

(** *** Prediction *)

Definition Prediction_slots : list string :=
  ["user"; "prediction_id"; "title"; "winning_outcome_id"; "outcomes";
   "prediction_window"; "prediction_status"; "created_at"; "ended_at"; "locked_at"].

(** [sub in s] for two strings *)
Fixpoint is_substring (sub s : string) : bool :=
  (String.prefix sub s
   || match s with
      | EmptyString => false
      | String _ rest => is_substring sub rest
      end)%bool.

(** [Prediction._parse_time(data, field)].  [data] is the mapping the
    constructor has subscripted before the first call.  On its own the
    method also takes a list or a string: [field not in data] is then a test
    for an element or for a part, [None] is returned when it holds, and
    [data[field]] raises [TypeError] when it does not. *)
Definition _parse_time (data : value) (field : string) : result value :=
  match data with
  | VDict d =>
      if (negb (has_key field d) || match lookup field d with
                                    | Some v => is_none v
                                    | None => false
                                    end)%bool
      then Ok VNone
      else
        time <- split_first "." data.[field] ;;
        fromisoformat zulu time
  | VList l =>
      if existsb (fun x => match x with
                           | VStr s => String.eqb field s
                           | _ => false
                           end) l
      then Raise TypeError
      else Ok VNone
  | VStr s => if is_substring field s then Raise TypeError else Ok VNone
  | _ => Raise TypeError
  end.

Definition Prediction (http data : value) : result value :=
  construct "Prediction" Prediction_slots
    [ "user" ::= call2 (PartialUser http) data.["broadcaster_id"] data.["broadcaster_name"];
      "prediction_id" ::= data.["id"];
      "title" ::= data.["title"];
      "winning_outcome_id" ::= data.["winning_outcome_id"];
      "outcomes" ::= comprehension (PredictionOutcome http) data.["outcomes"];
      "prediction_window" ::= data.["prediction_window"];
      "prediction_status" ::= data.["status"];
      "created_at" ::= _parse_time data "created_at";
      "ended_at" ::= _parse_time data "ended_at";
      "locked_at" ::= _parse_time data "locked_at" ].

(** *** ScheduleCategory *)

Definition ScheduleCategory_slots : list string := ["id"; "name"].

Definition ScheduleCategory (data : value) : result value :=
  construct "ScheduleCategory" ScheduleCategory_slots
    [ "id" ::= data.["id"];
      "name" ::= data.["name"] ].

(** *** ScheduleVacation *)

Definition ScheduleVacation_slots : list string := ["start_time"; "end_time"].

Definition ScheduleVacation (data : value) : result value :=
  construct "ScheduleVacation" ScheduleVacation_slots
    [ "start_time" ::= call1 parse_timestamp data.["start_time"];
      "end_time" ::= call1 parse_timestamp data.["end_time"] ].

(** *** ScheduleSegment *)

Definition ScheduleSegment_slots : list string :=
  ["id"; "start_time"; "end_time"; "title"; "canceled_until"; "category"; "is_recurring"].

Definition ScheduleSegment (data : value) : result value :=
  construct "ScheduleSegment" ScheduleSegment_slots
    [ "id" ::= data.["id"];
      "start_time" ::= call1 parse_timestamp data.["start_time"];
      "end_time" ::= call1 parse_timestamp data.["end_time"];
      "title" ::= data.["title"];
      "canceled_until" ::=
        if_else (call1 parse_timestamp data.["canceled_until"]) data.["canceled_until"] VNone;
      "category" ::=
        if_else (call1 ScheduleCategory data.["category"]) data.["category"] VNone;
      "is_recurring" ::= data.["is_recurring"] ].

(** *** Schedule *)

Definition Schedule_slots : list string := ["segments"; "user"; "vacation"].

Definition Schedule (http data : value) : result value :=
  construct "Schedule" Schedule_slots
    [ "segments" ::= comprehension ScheduleSegment data.["data"].["segments"];
      "user" ::=
        call2 (PartialUser http)
          data.["data"].["broadcaster_id"] data.["data"].["broadcaster_login"];
      "vacation" ::=
        if_else (call1 ScheduleVacation data.["data"].["vacation"])
          data.["data"].["vacation"]
          VNone ].

(** *** Team *)

Definition Team_slots : list string :=
  ["users"; "background_image_url"; "banner"; "created_at"; "updated_at"; "info";
   "thumbnail_url"; "team_name"; "team_display_name"; "id"].

Definition Team (http data : value) : result value :=
  construct "Team" Team_slots
    [ "users" ::=
        comprehension (fun x => call2 (PartialUser http) x.["user_id"] x.["user_login"])
          data.["users"];
      "background_image_url" ::= data.["background_image_url"];
      "banner" ::= data.["banner"];
      "created_at" ::= call1 parse_timestamp (split_first " " data.["created_at"]);
      "updated_at" ::= call1 parse_timestamp (split_first " " data.["updated_at"]);
      "info" ::= data.["info"];
      "thumbnail_url" ::= data.["thumbnail_url"];
      "team_name" ::= data.["team_name"];
      "team_display_name" ::= data.["team_display_name"];
      "id" ::= data.["id"] ].

(** *** ChannelTeams *)

Definition ChannelTeams_slots : list string :=
  ["broadcaster"; "background_image_url"; "banner"; "created_at"; "updated_at";
   "info"; "thumbnail_url"; "team_name"; "team_display_name"; "id"].

Definition ChannelTeams (http data : value) : result value :=
  construct "ChannelTeams" ChannelTeams_slots
    [ "broadcaster" ::=
        call2 (PartialUser http) data.["broadcaster_id"] data.["broadcaster_login"];
      "background_image_url" ::= data.["background_image_url"];
      "banner" ::= data.["banner"];
      "created_at" ::= call1 parse_timestamp (split_first " " data.["created_at"]);
      "updated_at" ::= call1 parse_timestamp (split_first " " data.["updated_at"]);
      "info" ::= data.["info"];
      "thumbnail_url" ::= data.["thumbnail_url"];
      "team_name" ::= data.["team_name"];
      "team_display_name" ::= data.["team_display_name"];
      "id" ::= data.["id"] ].

(** ** The record types as one family *)

Inductive record_type : Type :=
| RBitsLeaderboard | RCheerEmoteTier | RCheerEmote | RClip
| RHypeTrainContribution | RHypeTrainEvent | RBanEvent | RFollowEvent
| RSubscriptionEvent | RMarker | RVideoMarkers | RGame | RModEvent
| RAutomodCheckResponse | RExtension | RMaybeActiveExtension | RActiveExtension
| RVideo | RTag | RWebhookSubscription | RStream | RChannelInfo
| RPrediction | RPredictor | RPredictionOutcome
| RSchedule | RScheduleSegment | RScheduleCategory | RScheduleVacation
| RTeam | RChannelTeams.

(** The construction operation of a record type: the HTTP handle, the
    user entities the caller supplies ([None] when it supplies none; the
    types without such parameters ignore them) and the payload. *)
Definition build (rt : record_type) (http ref1 ref2 data : value) : result value :=
  match rt with
  | RBitsLeaderboard => BitsLeaderboard http data
  | RCheerEmoteTier => CheerEmoteTier data
  | RCheerEmote => CheerEmote http data
  | RClip => Clip http data
  | RHypeTrainContribution => HypeTrainContribution http data
  | RHypeTrainEvent => HypeTrainEvent http data
  | RBanEvent => BanEvent http data ref1
  | RFollowEvent => FollowEvent http data ref1 ref2
  | RSubscriptionEvent => SubscriptionEvent http data ref1 ref2
  | RMarker => Marker data
  | RVideoMarkers => VideoMarkers data
  | RGame => Game data
  | RModEvent => ModEvent http data ref1
  | RAutomodCheckResponse => AutomodCheckResponse data
  | RExtension => Extension data
  | RMaybeActiveExtension => MaybeActiveExtension data
  | RActiveExtension => ActiveExtension data
  | RVideo => Video http data ref1
  | RTag => Tag data
  | RWebhookSubscription => WebhookSubscription data
  | RStream => Stream http data
  | RChannelInfo => ChannelInfo http data
  | RPrediction => Prediction http data
  | RPredictor => Predictor http data
  | RPredictionOutcome => PredictionOutcome http data
  | RSchedule => Schedule http data
  | RScheduleSegment => ScheduleSegment data
  | RScheduleCategory => ScheduleCategory data
  | RScheduleVacation => ScheduleVacation data
  | RTeam => Team http data
  | RChannelTeams => ChannelTeams http data
  end.

(** ** Payload shapes

    For each record type, the payloads its constructor is written for: every
    key the constructor subscripts is there, and the values handed to a
    conversion or to a nested constructor are accepted by it. *)

(** [data[k]] exists. *)
Definition has (data : value) (k : string) : bool := is_ok data.[k].

(** [data[k1][k2]] exists. *)
Definition has2 (data : value) (k1 k2 : string) : bool := is_ok data.[k1].[k2].

(** [e] exists and satisfies [ok]. *)
Definition accepts (ok : value -> bool) (e : result value) : bool :=
  match e with
  | Ok v => ok v
  | Raise _ => false
  end.

(** [e] is a list whose elements all satisfy [ok]. *)
Definition each (ok : value -> bool) (e : result value) : bool :=
  match e with
  | Ok (VList l) => forallb ok l
  | _ => false
  end.

(** [e] exists, and is false or satisfies [ok]. *)
Definition nullable (ok : value -> bool) (e : result value) : bool :=
  match e with
  | Ok v => if truthy v then ok v else true
  | Raise _ => false
  end.

(** [e] exists and is false. *)
Definition vacant (e : result value) : bool :=
  match e with
  | Ok v => negb (truthy v)
  | Raise _ => false
  end.

(** The user reference [ref or PartialUser(http, data[k_id], data[k_name])]
    can be formed. *)
Definition user_ok (http ref : value) (id name : result value) : bool :=
  is_ok (py_or ref (call2 (PartialUser http) id name)).

Definition wf_BitsLeaderboard (http data : value) : bool :=
  is_ok (fromisoformat zulu data.["date_range"].["started_at"])
  && is_ok (fromisoformat zulu data.["date_range"].["ended_at"])
  && each (fun x => is_ok (BitLeaderboardUser http x)) data.["data"].

Definition wf_CheerEmoteTier (data : value) : bool :=
  has data "min_bits" && has data "id" && has data "colour" && has data "images"
  && has data "can_cheer" && has data "show_in_bits_card".

Definition wf_CheerEmote (data : value) : bool :=
  has data "prefix" && each wf_CheerEmoteTier data.["tiers"] && has data "type"
  && has data "order" && is_ok (call1 parse_timestamp data.["last_updated"])
  && has data "is_charitable".

Definition wf_Clip (http data : value) : bool :=
  has data "id" && has data "url" && has data "embed_url"
  && user_ok http VNone data.["broadcaster_id"] data.["broadcaster_name"]
  && user_ok http VNone data.["creator_id"] data.["creator_name"]
  && has data "video_id" && has data "game_id" && has data "language" && has data "title"
  && has data "view_count" && is_ok (call1 parse_timestamp data.["created_at"])
  && has data "thumbnail_url".

Definition wf_HypeTrainContribution (http data : value) : bool :=
  has data "total" && has data "type" && user_ok http VNone data.["user"] VNone.

Definition wf_HypeTrainEvent (http data : value) : bool :=
  has data "id" && has2 data "event_data" "id" && has data "event_type" && has data "version"
  && user_ok http VNone data.["event_data"].["broadcaster_id"] VNone
  && is_ok (call1 parse_timestamp data.["event_timestamp"])
  && is_ok (call1 parse_timestamp data.["event_data"].["cooldown_end_time"])
  && is_ok (call1 parse_timestamp data.["expires_at"])
  && is_ok (call1 parse_timestamp data.["event_data"].["started_at"])
  && accepts (wf_HypeTrainContribution http) data.["event_data"].["last_contribution"]
  && has2 data "event_data" "level"
  && each (wf_HypeTrainContribution http) data.["event_data"].["top_contributions"]
  && has2 data "event_data" "total" && has2 data "event_data" "goal".

Definition wf_BanEvent (http data broadcaster : value) : bool :=
  has data "id" && has data "event_type"
  && is_ok (call1 parse_timestamp data.["event_timestamp"])
  && is_ok (call1 py_float data.["version"])
  && has2 data "event_data" "reason"
  && user_ok http broadcaster
       data.["event_data"].["broadcaster_id"] data.["event_data"].["broadcaster_name"]
  && user_ok http VNone data.["event_data"].["user_id"] data.["event_data"].["user_name"]
  && user_ok http VNone data.["event_data"].["moderator_id"] data.["event_data"].["moderator_name"]
  && nullable (fun v => is_ok (parse_timestamp v)) data.["event_data"].["expires_at"].

Definition wf_FollowEvent (http data from_ to : value) : bool :=
  user_ok http from_ data.["from_id"] data.["from_name"]
  && user_ok http to data.["to_id"] data.["to_name"]
  && is_ok (call1 parse_timestamp data.["followed_at"]).

(** A tier that [int] reads as a number below 2^53 in magnitude: such a
    number is a float without loss, and its quotient by 1000 is a float that
    rounds as the exact quotient does. *)
Definition tier_ok (v : value) : bool :=
  match py_int v with
  | Ok (VInt n) => Z.abs n <? 2 ^ 53
  | _ => false
  end.

Definition wf_SubscriptionEvent (http data broadcaster user : value) : bool :=
  user_ok http broadcaster data.["broadcaster_id"] data.["broadcaster_name"]
  && user_ok http user data.["user_id"] data.["user_name"]
  && accepts tier_ok data.["tier"]
  && has data "plan_name" && has data "is_gift".

Definition wf_Marker (data : value) : bool :=
  has data "id" && is_ok (call1 parse_timestamp data.["created_at"])
  && has data "description" && has data "position_seconds".

Definition wf_VideoMarkers (data : value) : bool :=
  has data "video_id" && each wf_Marker data.["markers"].

Definition wf_Game (data : value) : bool :=
  is_ok (call1 py_int data.["id"]) && has data "name" && has data "box_art_url".

Definition wf_ModEvent (http data : value) : bool :=
  has data "id" && is_ok (call1 ModEventEnum data.["event_type"])
  && is_ok (call1 parse_timestamp data.["event_timestamp"])
  && has data "version"
  && user_ok http VNone data.["event_data"].["user_id"] data.["event_data"].["user_name"].

Definition wf_AutomodCheckResponse (data : value) : bool :=
  has data "msg_id" && has data "is_permitted".

Definition wf_Extension (data : value) : bool :=
  has data "id" && has data "version" && has data "active".

Definition wf_MaybeActiveExtension (data : value) : bool :=
  has data "id" && has data "version" && has data "name" && has data "can_activate"
  && has data "type".

Definition wf_ActiveExtension (data : value) : bool := has data "active".

Definition wf_Video (http data user : value) : bool :=
  is_ok (call1 py_int data.["id"])
  && user_ok http user data.["user_id"] data.["user_name"]
  && has data "title" && has data "description"
  && is_ok (call1 parse_timestamp data.["created_at"])
  && is_ok (call1 parse_timestamp data.["published_at"])
  && has data "url" && has data "thumbnail_url" && has data "viewable"
  && has data "view_count" && has data "language" && has data "type" && has data "duration".

Definition wf_Tag (data : value) : bool :=
  has data "tag_id" && has data "is_auto" && has data "localization_names"
  && has data "localization_descriptions".

Definition wf_WebhookSubscription (data : value) : bool :=
  has data "callback" && is_ok (call1 parse_timestamp data.["expired_at"])
  && has data "topic".

Definition wf_Stream (http data : value) : bool :=
  has data "id" && user_ok http VNone data.["user_id"] data.["user_name"]
  && has data "game_id" && has data "game_name" && has data "type" && has data "title"
  && has data "viewer_count" && is_ok (call1 parse_timestamp data.["started_at"])
  && has data "language" && has data "thumbnail_url" && has data "tag_ids"
  && has data "is_mature".

Definition wf_ChannelInfo (http data : value) : bool :=
  user_ok http VNone data.["broadcaster_id"] data.["broadcaster_name"]
  && has data "game_id" && has data "game_name" && has data "title"
  && has data "broadcaster_language" && has data "delay".

Definition wf_Predictor (http data : value) : bool :=
  has data "channel_points_used" && has data "channel_points_won"
  && user_ok http VNone data.["user"].["id"] data.["user"].["name"].

(** The list of top predictors is empty or null here: a non-empty one is
    handed to [Predictor]. *)
Definition wf_PredictionOutcome (data : value) : bool :=
  has data "id" && has data "title" && has data "channel_points" && has data "color"
  && has data "users" && vacant data.["top_predictors"].

Definition wf_Prediction (http data : value) : bool :=
  user_ok http VNone data.["broadcaster_id"] data.["broadcaster_name"]
  && has data "id" && has data "title" && has data "winning_outcome_id"
  && each wf_PredictionOutcome data.["outcomes"]
  && has data "prediction_window" && has data "status"
  && is_ok (_parse_time data "created_at")
  && is_ok (_parse_time data "ended_at")
  && is_ok (_parse_time data "locked_at").

Definition wf_ScheduleCategory (data : value) : bool := has data "id" && has data "name".

Definition wf_ScheduleVacation (data : value) : bool :=
  is_ok (call1 parse_timestamp data.["start_time"])
  && is_ok (call1 parse_timestamp data.["end_time"]).

Definition wf_ScheduleSegment (data : value) : bool :=
  has data "id" && is_ok (call1 parse_timestamp data.["start_time"])
  && is_ok (call1 parse_timestamp data.["end_time"]) && has data "title"
  && nullable (fun v => is_ok (parse_timestamp v)) data.["canceled_until"]
  && nullable wf_ScheduleCategory data.["category"]
  && has data "is_recurring".

Definition wf_Schedule (http data : value) : bool :=
  each wf_ScheduleSegment data.["data"].["segments"]
  && user_ok http VNone data.["data"].["broadcaster_id"] data.["data"].["broadcaster_login"]
  && nullable wf_ScheduleVacation data.["data"].["vacation"].

(** The date is the part of the string before the first space. *)
Definition wf_team_fields (data : value) : bool :=
  has data "background_image_url" && has data "banner"
  && is_ok (call1 parse_timestamp (split_first " " data.["created_at"]))
  && is_ok (call1 parse_timestamp (split_first " " data.["updated_at"]))
  && has data "info" && has data "thumbnail_url" && has data "team_name"
  && has data "team_display_name" && has data "id".

Definition wf_Team (http data : value) : bool :=
  each (fun x => user_ok http VNone x.["user_id"] x.["user_login"]) data.["users"]
  && wf_team_fields data.

Definition wf_ChannelTeams (http data : value) : bool :=
  user_ok http VNone data.["broadcaster_id"] data.["broadcaster_login"]
  && wf_team_fields data.

Definition wf (rt : record_type) (http ref1 ref2 data : value) : bool :=
  match rt with
  | RBitsLeaderboard => wf_BitsLeaderboard http data
  | RCheerEmoteTier => wf_CheerEmoteTier data
  | RCheerEmote => wf_CheerEmote data
  | RClip => wf_Clip http data
  | RHypeTrainContribution => wf_HypeTrainContribution http data
  | RHypeTrainEvent => wf_HypeTrainEvent http data
  | RBanEvent => wf_BanEvent http data ref1
  | RFollowEvent => wf_FollowEvent http data ref1 ref2
  | RSubscriptionEvent => wf_SubscriptionEvent http data ref1 ref2
  | RMarker => wf_Marker data
  | RVideoMarkers => wf_VideoMarkers data
  | RGame => wf_Game data
  | RModEvent => wf_ModEvent http data
  | RAutomodCheckResponse => wf_AutomodCheckResponse data
  | RExtension => wf_Extension data
  | RMaybeActiveExtension => wf_MaybeActiveExtension data
  | RActiveExtension => wf_ActiveExtension data
  | RVideo => wf_Video http data ref1
  | RTag => wf_Tag data
  | RWebhookSubscription => wf_WebhookSubscription data
  | RStream => wf_Stream http data
  | RChannelInfo => wf_ChannelInfo http data
  | RPrediction => wf_Prediction http data
  | RPredictor => wf_Predictor http data
  | RPredictionOutcome => wf_PredictionOutcome data
  | RSchedule => wf_Schedule http data
  | RScheduleSegment => wf_ScheduleSegment data
  | RScheduleCategory => wf_ScheduleCategory data
  | RScheduleVacation => wf_ScheduleVacation data
  | RTeam => wf_Team http data
  | RChannelTeams => wf_ChannelTeams http data
  end.

(** *** Optional attributes

    An attribute is optional when its source is read defensively
    ([data.get(k)], or the [k in data] test of [_parse_time]) or when it is
    assigned [... if data[...] else None]. *)
Inductive source : Type :=
| Defensive (k : string)
| Conditional (p : list string).

Fixpoint get_path (p : list string) (v : value) : result value :=
  match p with
  | [] => Ok v
  | k :: q => x <- getitem v k ;; get_path q x
  end.

(** The optional attributes of a record type, each with its source. *)
Definition optional (rt : record_type) : list (source * string) :=
  match rt with
  | RMarker => [(Defensive "URL", "url")]
  | RActiveExtension =>
      [(Defensive "id", "id"); (Defensive "version", "version"); (Defensive "name", "name");
       (Defensive "x", "x"); (Defensive "y", "y")]
  | RPrediction =>
      [(Defensive "created_at", "created_at"); (Defensive "ended_at", "ended_at");
       (Defensive "locked_at", "locked_at")]
  | RBanEvent => [(Conditional ["event_data"; "expires_at"], "expires_at")]
  | RPredictionOutcome => [(Conditional ["top_predictors"], "top_predictors")]
  | RScheduleSegment =>
      [(Conditional ["canceled_until"], "canceled_until"); (Conditional ["category"], "category")]
  | RSchedule => [(Conditional ["data"; "vacation"], "vacation")]
  | _ => []
  end.

(** The payload gives no value for the source: a defensively read key is
    missing or null, a conditionally used value is false (null, empty). *)
Definition omitted (s : source) (data : value) : bool :=
  match s with
  | Defensive k =>
      match dict_get data k with
      | Ok VNone => true
      | _ => false
      end
  | Conditional p => vacant (get_path p data)
  end.

(** *** Required keys

    The keys a constructor subscripts directly, as paths from the payload
    ([["event_data"; "id"]] for [data["event_data"]["id"]]); the paths below
    a nested mapping that is handed to another constructor are included.  The
    inline identity of a user is only read when the caller supplies no
    entity. *)

Definition unless (ref : value) (paths : list (list string)) : list (list string) :=
  if truthy ref then [] else paths.

Definition under (k : string) (paths : list (list string)) : list (list string) :=
  map (cons k) paths.

Definition top (ks : list string) : list (list string) := map (fun k => [k]) ks.

Definition indexed (rt : record_type) (ref1 ref2 : value) : list (list string) :=
  match rt with
  | RBitsLeaderboard =>
      top ["date_range"; "data"] ++ under "date_range" (top ["started_at"; "ended_at"])
  | RCheerEmoteTier =>
      top ["min_bits"; "id"; "colour"; "images"; "can_cheer"; "show_in_bits_card"]
  | RCheerEmote =>
      top ["prefix"; "tiers"; "type"; "order"; "last_updated"; "is_charitable"]
  | RClip =>
      top ["id"; "url"; "embed_url"; "broadcaster_id"; "broadcaster_name"; "creator_id";
           "creator_name"; "video_id"; "game_id"; "language"; "title"; "view_count";
           "created_at"; "thumbnail_url"]
  | RHypeTrainContribution => top ["total"; "type"; "user"]
  | RHypeTrainEvent =>
      top ["id"; "event_data"; "event_type"; "version"; "event_timestamp"; "expires_at"]
      ++ under "event_data"
           (top ["id"; "broadcaster_id"; "cooldown_end_time"; "started_at";
                 "last_contribution"; "level"; "top_contributions"; "total"; "goal"]
            ++ under "last_contribution" (top ["total"; "type"; "user"]))
  | RBanEvent =>
      top ["id"; "event_type"; "event_timestamp"; "version"; "event_data"]
      ++ under "event_data"
           (top ["reason"] ++ unless ref1 (top ["broadcaster_id"; "broadcaster_name"])
            ++ top ["user_id"; "user_name"; "moderator_id"; "moderator_name"; "expires_at"])
  | RFollowEvent =>
      unless ref1 (top ["from_id"; "from_name"]) ++ unless ref2 (top ["to_id"; "to_name"])
      ++ top ["followed_at"]
  | RSubscriptionEvent =>
      unless ref1 (top ["broadcaster_id"; "broadcaster_name"])
      ++ unless ref2 (top ["user_id"; "user_name"])
      ++ top ["tier"; "plan_name"; "is_gift"]
  | RMarker => top ["id"; "created_at"; "description"; "position_seconds"]
  | RVideoMarkers => top ["video_id"; "markers"]
  | RGame => top ["id"; "name"; "box_art_url"]
  | RModEvent =>
      top ["id"; "event_type"; "event_timestamp"; "version"; "event_data"]
      ++ under "event_data" (top ["user_id"; "user_name"])
  | RAutomodCheckResponse => top ["msg_id"; "is_permitted"]
  | RExtension => top ["id"; "version"; "active"]
  | RMaybeActiveExtension => top ["id"; "version"; "name"; "can_activate"; "type"]
  | RActiveExtension => top ["active"]
  | RVideo =>
      top ["id"] ++ unless ref1 (top ["user_id"; "user_name"])
      ++ top ["title"; "description"; "created_at"; "published_at"; "url"; "thumbnail_url";
              "viewable"; "view_count"; "language"; "type"; "duration"]
  | RTag => top ["tag_id"; "is_auto"; "localization_names"; "localization_descriptions"]
  | RWebhookSubscription => top ["callback"; "expired_at"; "topic"]
  | RStream =>
      top ["id"; "user_id"; "user_name"; "game_id"; "game_name"; "type"; "title";
           "viewer_count"; "started_at"; "language"; "thumbnail_url"; "tag_ids"; "is_mature"]
  | RChannelInfo =>
      top ["broadcaster_id"; "broadcaster_name"; "game_id"; "game_name"; "title";
           "broadcaster_language"; "delay"]
  | RPrediction =>
      top ["broadcaster_id"; "broadcaster_name"; "id"; "title"; "winning_outcome_id";
           "outcomes"; "prediction_window"; "status"]
  | RPredictor =>
      top ["channel_points_used"; "channel_points_won"; "user"]
      ++ under "user" (top ["id"; "name"])
  | RPredictionOutcome =>
      top ["id"; "title"; "channel_points"; "color"; "users"; "top_predictors"]
  | RSchedule =>
      top ["data"]
      ++ under "data"
           (top ["segments"; "broadcaster_id"; "broadcaster_login"; "vacation"]
            ++ under "vacation" (top ["start_time"; "end_time"]))
  | RScheduleSegment =>
      top ["id"; "start_time"; "end_time"; "title"; "canceled_until"; "category";
           "is_recurring"]
      ++ under "category" (top ["id"; "name"])
  | RScheduleCategory => top ["id"; "name"]
  | RScheduleVacation => top ["start_time"; "end_time"]
  | RTeam =>
      top ["users"; "background_image_url"; "banner"; "created_at"; "updated_at"; "info";
           "thumbnail_url"; "team_name"; "team_display_name"; "id"]
  | RChannelTeams =>
      top ["broadcaster_id"; "broadcaster_login"; "background_image_url"; "banner";
           "created_at"; "updated_at"; "info"; "thumbnail_url"; "team_name";
           "team_display_name"; "id"]
  end.

(** The payload without the key at the end of path [p]. *)
Fixpoint remove_path (p : list string) (v : value) : value :=
  match p, v with
  | k :: q, VDict d =>
      match q with
      | [] => VDict (remove_key k d)
      | _ => match lookup k d with
             | Some x => VDict (store k (remove_path q x) d)
             | None => v
             end
      end
  | _, _ => v
  end.

(** *** User references

    The attributes that hold a user the caller may supply: the attribute,
    which of the two entity parameters feeds it ([true] for the first), and
    the paths of the inline id and name the placeholder is built from
    otherwise. *)
Definition chosen (first : bool) (ref1 ref2 : value) : value :=
  if first then ref1 else ref2.

Definition references (rt : record_type) : list (string * bool * list string * list string) :=
  match rt with
  | RFollowEvent =>
      [("from_user", true, ["from_id"], ["from_name"]);
       ("to_user", false, ["to_id"], ["to_name"])]
  | RSubscriptionEvent =>
      [("broadcaster", true, ["broadcaster_id"], ["broadcaster_name"]);
       ("user", false, ["user_id"], ["user_name"])]
  | RBanEvent =>
      [("broadcaster", true, ["event_data"; "broadcaster_id"], ["event_data"; "broadcaster_name"])]
  | RVideo => [("user", true, ["user_id"], ["user_name"])]
  | _ => []
  end.

End Models.

(** ** An implementation of the imports

    Modelled from the spec: the helpers imported from [.utils], [.user] and
    [.enums], whose sources are not part of this development.  They are
    used to run the constructors on concrete payloads. *)

(** Modelled from the spec: [PartialUser(http, id, name)], a minimal
    placeholder built from the id and the name found in the payload, holding
    the shared handle; the identifier is coerced to an integer, the type
    [AutomodCheckMessage] documents for a user id. *)
Definition sample_PartialUser (http id name : value) : result value :=
  i <- py_int id ;;
  Ok (VObj "PartialUser" [("id", i); ("name", name); ("_http", http)]).

(** Modelled from the spec: [BitLeaderboardUser(http, data)], one ranked entry
    of a leaderboard. *)
Definition sample_BitLeaderboardUser (http data : value) : result value :=
  i <- call1 py_int data.["user_id"] ;;
  name <- data.["user_name"] ;;
  rank <- data.["rank"] ;;
  score <- data.["score"] ;;
  Ok (VObj "BitLeaderboardUser"
        [("id", i); ("name", name); ("_http", http); ("rank", rank); ("score", score)]).

(** Modelled from the spec: [parse_timestamp], which reads an ISO-8601
    timestamp with or without fractional seconds and with or without a "Z" or
    an offset. *)
Definition sample_parse_timestamp (v : value) : result value :=
  fromisoformat true v.

(** Modelled from the spec: the enumeration of moderator events. *)
Definition sample_ModEventEnum (v : value) : result value :=
  match v with
  | VStr "moderation.moderator.add" => Ok (VObj "ModEventEnum" [("name", VStr "moderator_add")])
  | VStr "moderation.moderator.remove" =>
      Ok (VObj "ModEventEnum" [("name", VStr "moderator_remove")])
  | _ => Raise ValueError
  end.

(** A stand-in for [float]: the number is kept as the text or integer it was
    read from. *)
Definition sample_float (v : value) : result value :=
  match v with
  | VInt _ | VBool _ => Ok (VObj "float" [("of", v)])
  | VStr s => match s with
              | EmptyString => Raise ValueError
              | _ => Ok (VObj "float" [("of", v)])
              end
  | _ => Raise TypeError
  end.

Definition sample_imports : Imports := {|
  parse_timestamp := sample_parse_timestamp;
  PartialUser := sample_PartialUser;
  BitLeaderboardUser := sample_BitLeaderboardUser;
  ModEventEnum := sample_ModEventEnum;
  py_float := sample_float;
  user_classes := ["PartialUser"; "User"; "BitLeaderboardUser"];
  py_repr := fun _ => "<object>";
  zulu := false
|}.

(** The same imports under CPython 3.11 or later. *)
Definition sample_imports_311 : Imports := {|
  parse_timestamp := sample_parse_timestamp;
  PartialUser := sample_PartialUser;
  BitLeaderboardUser := sample_BitLeaderboardUser;
  ModEventEnum := sample_ModEventEnum;
  py_float := sample_float;
  user_classes := ["PartialUser"; "User"; "BitLeaderboardUser"];
  py_repr := fun _ => "<object>";
  zulu := true
|}.

(** ** Reasoning about constructor bodies *)

(** The right-hand side of the last assignment to [a] in a body. *)
Fixpoint rhs_of (a : string) (body : list stmt) : option (result value) :=
  match body with
  | [] => None
  | (a', e) :: rest =>
      match rhs_of a rest with
      | Some x => Some x
      | None => if String.eqb a a' then Some e else None
      end
  end.

(** Two bodies with the same assignments whose right-hand sides agree up to
    one that raises [e] in the second body (when it evaluates in the first). *)
Fixpoint diverge (b1 b2 : list stmt) (e : exn) : Prop :=
  match b1, b2 with
  | (a1, e1) :: r1, (a2, e2) :: r2 =>
      a1 = a2 /\ ((forall v, e1 = Ok v -> e2 = Raise e) \/ (e2 = e1 /\ diverge r1 r2 e))
  | _, _ => False
  end.

(** The coordinates a record made by [Extension.new] is serialized with. *)
Definition coordinates (x y : value) : dict :=
  ((if is_none x then [] else [("x", x)]) ++ (if is_none y then [] else [("y", y)]))%list.

(** The mapping that numbers the elements of [l] from [i], each index as its
    decimal string. *)
Fixpoint keyed (i : Z) (l : list value) : dict :=
  match l with
  | [] => []
  | x :: rest => (str_of_Z i, x) :: keyed (i + 1) rest
  end.

(** ** Sample payloads *)

Definition sample_http : value := VObj "TwitchHTTP" [].

(** An already resolved user, as a caller would supply it. *)
Definition sample_user : value :=
  VObj "User" [("id", VInt 42); ("name", VStr "streamer"); ("_http", sample_http)].

Definition follow_payload : value :=
  VDict [("from_id", VStr "171003792"); ("from_name", VStr "viewer");
         ("to_id", VStr "23161357"); ("to_name", VStr "streamer");
         ("followed_at", VStr "2021-05-01T12:00:00Z")].

(** A follow payload without the identity of the follower. *)
Definition follow_payload_without_from : value :=
  VDict [("to_id", VStr "23161357"); ("to_name", VStr "streamer");
         ("followed_at", VStr "2021-05-01T12:00:00Z")].

Definition subscription_payload : value :=
  VDict [("broadcaster_id", VStr "23161357"); ("broadcaster_name", VStr "streamer");
         ("user_id", VStr "171003792"); ("user_name", VStr "viewer");
         ("tier", VStr "2000"); ("plan_name", VStr "Channel Subscription");
         ("is_gift", VBool false)].

Definition ban_event_data (expiry : list (string * value)) : value :=
  VDict ([("reason", VStr "spam");
          ("broadcaster_id", VStr "23161357"); ("broadcaster_name", VStr "streamer");
          ("user_id", VStr "171003792"); ("user_name", VStr "viewer");
          ("moderator_id", VStr "424596340"); ("moderator_name", VStr "mod")] ++ expiry)%list.

Definition ban_payload (expiry : list (string * value)) : value :=
  VDict [("id", VStr "1IPFqmlu9W2q4mXXjULyM8zX0rb");
         ("event_type", VStr "moderation.user.ban");
         ("event_timestamp", VStr "2019-03-13T15:55:14Z");
         ("version", VStr "1.0");
         ("event_data", ban_event_data expiry)].

Definition marker_payload : value :=
  VDict [("id", VStr "106b8d6243a4f883d25ad75e6cdffdc4");
         ("created_at", VStr "2018-08-20T20:10:03Z");
         ("description", VStr "hello, this is a marker!");
         ("position_seconds", VInt 244)].

Definition extension_payload : value :=
  VDict [("id", VStr "rh6jq1q334hqc2rr1qlzqbvwlfl3x0"); ("version", VStr "1.1.0");
         ("active", VBool true); ("x", VInt 10); ("y", VInt 20)].

Definition predictor_payload : value :=
  VDict [("channel_points_used", VInt 500); ("channel_points_won", VInt 0);
         ("user", VDict [("id", VStr "171003792"); ("name", VStr "viewer")])].

Definition outcome_payload (top_predictors : value) : value :=
  VDict [("id", VStr "021e9234-5893-49b4-982e-cfe9a0aaddd9"); ("title", VStr "Yes");
         ("channel_points", VInt 500); ("color", VStr "BLUE"); ("users", VInt 1);
         ("top_predictors", top_predictors)].

Definition segment_payload (id : string) (category : value) : value :=
  VDict [("id", VStr id);
         ("start_time", VStr "2021-07-01T18:00:00Z");
         ("end_time", VStr "2021-07-01T19:00:00Z");
         ("title", VStr "TwitchDev Monthly Update");
         ("canceled_until", VNone);
         ("category", category);
         ("is_recurring", VBool false)].

Definition schedule_payload : value :=
  VDict [("data",
          VDict [("segments",
                  VList [segment_payload "seg1"
                           (VDict [("id", VStr "509670"); ("name", VStr "Science & Technology")]);
                         segment_payload "seg2" VNone]);
                 ("broadcaster_id", VStr "141981764");
                 ("broadcaster_name", VStr "TwitchDev");
                 ("broadcaster_login", VStr "twitchdev");
                 ("vacation", VNone)])].

(** Pending extension updates, as [Extension.new] makes them. *)
Definition pending (active : bool) (version id : string) : value :=
  VObj "Extension"
    [("active", VBool active); ("version", VStr version); ("id", VStr id);
     ("_x", VNone); ("_y", VNone)].

Definition sample_panels : list value :=
  [pending true "1.0" "panel-a"; pending false "2.0" "panel-b"].

Definition sample_overlays : list value := [pending true "0.3" "overlay-a"].

(** ** Methods of the records *)

(** *** [str.format] with the keyword arguments [width] and [height]

    The templates modelled are made of literal text, the escapes "{{" and
    "}}", and replacement fields that are a plain keyword name in ASCII.
    The result is [None] for a template outside this fragment: a field with
    a conversion ("!"), a format specification (":"), an attribute or an
    index, a field whose name is empty or a number, which [format] looks up
    among the positional arguments, and a field whose name holds a character
    outside ASCII, which may be a digit of another script. *)

Definition brace (c : ascii) : bool := (Ascii.eqb c "{" || Ascii.eqb c "}")%bool.

(** The characters that end or structure a field name. *)
Definition field_syntax (c : ascii) : bool :=
  (brace c || Ascii.eqb c "!" || Ascii.eqb c ":" || Ascii.eqb c "." || Ascii.eqb c "["
   || Ascii.eqb c "]")%bool.

Definition positional (name : string) : bool :=
  forallb is_digit (list_ascii_of_string name).

(** The text a field named [name] is replaced with: [str] of the keyword
    argument of that name, [KeyError] when there is none. *)
Definition field_value (name : string) (width height : Z) : option (result string) :=
  if (negb (ascii_text name) || positional name)%bool then None
  else if String.eqb name "width" then Some (Ok (str_of_Z width))
  else if String.eqb name "height" then Some (Ok (str_of_Z height))
  else Some (Raise (KeyError name)).

(** [text] followed by the expansion of the rest. *)
Definition followed_by (text : string) (rest : option (result string))
  : option (result string) :=
  match rest with
  | Some (Ok t) => Some (Ok (text ++ t))
  | other => other
  end.

(** The template is read from left to right; [field] is the name read so
    far when the position is inside a replacement field. *)
Fixpoint format_from (s : string) (field : option string) (width height : Z)
  : option (result string) :=
  match s with
  | EmptyString =>
      match field with
      | None => Some (Ok "")
      | Some _ => Some (Raise ValueError)
      end
  | String c rest =>
      match field with
      | None =>
          if Ascii.eqb c "{" then
            match rest with
            | String "{" rest' => followed_by "{" (format_from rest' None width height)
            | _ => format_from rest (Some "") width height
            end
          else if Ascii.eqb c "}" then
            match rest with
            | String "}" rest' => followed_by "}" (format_from rest' None width height)
            | _ => Some (Raise ValueError)
            end
          else followed_by (String c "") (format_from rest None width height)
      | Some name =>
          if Ascii.eqb c "}" then
            match field_value name width height with
            | Some (Ok text) => followed_by text (format_from rest None width height)
            | other => other
            end
          else if field_syntax c then None
          else format_from rest (Some (name ++ String c "")) width height
      end
  end.

Definition py_format (template : string) (width height : Z) : option (result value) :=
  match format_from template None width height with
  | Some (Ok text) => Some (Ok (VStr text))
  | Some (Raise e) => Some (Raise e)
  | None => None
  end.

(** [Game.art_url(width, height)]: only [str] has [format] among the payload
    values. *)
Definition Game_art_url (self : value) (width height : Z) : option (result value) :=
  match getattr self "box_art_url" with
  | Ok (VStr template) => py_format template width height
  | Ok (VObj _ _) => None
  | Ok _ => Some (Raise (AttributeError "format"))
  | Raise e => Some (Raise e)
  end.

(** Text without braces. *)
Definition brace_free (s : string) : bool :=
  forallb (fun c => negb (brace c)) (list_ascii_of_string s).

(** A field name that is a plain keyword: ASCII text that holds none of the
    characters of the field syntax and is no number. *)
Definition keyword (name : string) : bool :=
  (ascii_text name
   && forallb (fun c => negb (field_syntax c)) (list_ascii_of_string name)
   && negb (positional name))%bool.

Section Methods.

Context {imports : Imports}.


(** ** The shape of a record *)

Definition class_name (rt : record_type) : string :=
  match rt with
  | RBitsLeaderboard => "BitsLeaderboard"
  | RCheerEmoteTier => "CheerEmoteTier"
  | RCheerEmote => "CheerEmote"
  | RClip => "Clip"
  | RHypeTrainContribution => "HypeTrainContribution"
  | RHypeTrainEvent => "HypeTrainEvent"
  | RBanEvent => "BanEvent"
  | RFollowEvent => "FollowEvent"
  | RSubscriptionEvent => "SubscriptionEvent"
  | RMarker => "Marker"
  | RVideoMarkers => "VideoMarkers"
  | RGame => "Game"
  | RModEvent => "ModEvent"
  | RAutomodCheckResponse => "AutomodCheckResponse"
  | RExtension => "Extension"
  | RMaybeActiveExtension => "MaybeActiveExtension"
  | RActiveExtension => "ActiveExtension"
  | RVideo => "Video"
  | RTag => "Tag"
  | RWebhookSubscription => "WebhookSubscription"
  | RStream => "Stream"
  | RChannelInfo => "ChannelInfo"
  | RPrediction => "Prediction"
  | RPredictor => "Predictor"
  | RPredictionOutcome => "PredictionOutcome"
  | RSchedule => "Schedule"
  | RScheduleSegment => "ScheduleSegment"
  | RScheduleCategory => "ScheduleCategory"
  | RScheduleVacation => "ScheduleVacation"
  | RTeam => "Team"
  | RChannelTeams => "ChannelTeams"
  end.

(** The attributes a constructor assigns, in the order of its statements. *)
Definition attributes (rt : record_type) : list string :=
  match rt with
  | RBitsLeaderboard => ["_http"; "started_at"; "ended_at"; "leaders"]
  | RCheerEmoteTier => ["min_bits"; "id"; "colour"; "images"; "can_cheer"; "show_in_bits_card"]
  | RCheerEmote =>
      ["_http"; "prefix"; "tiers"; "type"; "order"; "last_updated"; "charitable"]
  | RClip =>
      ["id"; "url"; "embed_url"; "broadcaster"; "creator"; "video_id"; "game_id"; "language";
       "title"; "views"; "created_at"; "thumbnail_url"]
  | RHypeTrainContribution => ["total"; "type"; "user"]
  | RHypeTrainEvent =>
      ["id"; "event_id"; "type"; "version"; "broadcaster"; "timestamp"; "cooldown_end_time";
       "expiry"; "started_at"; "last_contribution"; "level"; "top_contributions";
       "contributions_total"; "goal"]
  | RBanEvent =>
      ["id"; "type"; "timestamp"; "version"; "reason"; "broadcaster"; "user"; "moderator";
       "expires_at"]
  | RFollowEvent => ["from_user"; "to_user"; "followed_at"]
  | RSubscriptionEvent => ["broadcaster"; "user"; "tier"; "plan_name"; "gift"]
  | RMarker => ["id"; "created_at"; "description"; "position"; "url"]
  | RVideoMarkers => ["id"; "markers"]
  | RGame => ["id"; "name"; "box_art_url"]
  | RModEvent => ["id"; "type"; "timestamp"; "version"; "broadcaster"; "user"]
  | RAutomodCheckResponse => ["id"; "permitted"]
  | RExtension => ["id"; "version"; "active"; "_x"; "_y"]
  | RMaybeActiveExtension => ["id"; "version"; "name"; "can_activate"; "types"]
  | RActiveExtension => ["active"; "id"; "version"; "name"; "x"; "y"]
  | RVideo =>
      ["_http"; "id"; "user"; "title"; "description"; "created_at"; "published_at"; "url";
       "thumbnail_url"; "viewable"; "view_count"; "language"; "type"; "duration"]
  | RTag => ["id"; "auto"; "localization_names"; "localization_descriptions"]
  | RWebhookSubscription => ["callback"; "expires_at"; "topic"]
  | RStream =>
      ["id"; "user"; "game_id"; "game_name"; "type"; "title"; "viewer_count"; "started_at";
       "language"; "thumbnail_url"; "tag_ids"; "is_mature"]
  | RChannelInfo => ["user"; "game_id"; "game_name"; "title"; "language"; "delay"]
  | RPrediction =>
      ["user"; "prediction_id"; "title"; "winning_outcome_id"; "outcomes"; "prediction_window";
       "prediction_status"; "created_at"; "ended_at"; "locked_at"]
  | RPredictor => ["channel_points_used"; "channel_points_won"; "user"]
  | RPredictionOutcome =>
      ["outcome_id"; "title"; "channel_points"; "color"; "users"; "top_predictors"]
  | RSchedule => ["segments"; "user"; "vacation"]
  | RScheduleSegment =>
      ["id"; "start_time"; "end_time"; "title"; "canceled_until"; "category"; "is_recurring"]
  | RScheduleCategory => ["id"; "name"]
  | RScheduleVacation => ["start_time"; "end_time"]
  | RTeam =>
      ["users"; "background_image_url"; "banner"; "created_at"; "updated_at"; "info";
       "thumbnail_url"; "team_name"; "team_display_name"; "id"]
  | RChannelTeams =>
      ["broadcaster"; "background_image_url"; "banner"; "created_at"; "updated_at"; "info";
       "thumbnail_url"; "team_name"; "team_display_name"; "id"]
  end.

(** The names of a list are pairwise different. *)
Fixpoint distinct (l : list string) : bool :=
  match l with
  | [] => true
  | x :: rest => (negb (existsb (String.eqb x) rest) && distinct rest)%bool
  end.

(** The key of the payload a constructor subscripts first.  A user the
    caller supplies is not looked up in the payload. *)
Definition first_key (rt : record_type) (ref1 ref2 : value) : string :=
  match rt with
  | RBitsLeaderboard => "date_range"
  | RCheerEmoteTier => "min_bits"
  | RCheerEmote => "prefix"
  | RClip => "id"
  | RHypeTrainContribution => "total"
  | RHypeTrainEvent => "id"
  | RBanEvent => "id"
  | RFollowEvent =>
      if truthy ref1 then (if truthy ref2 then "followed_at" else "to_id") else "from_id"
  | RSubscriptionEvent =>
      if truthy ref1 then (if truthy ref2 then "tier" else "user_id") else "broadcaster_id"
  | RMarker => "id"
  | RVideoMarkers => "video_id"
  | RGame => "id"
  | RModEvent => "id"
  | RAutomodCheckResponse => "msg_id"
  | RExtension => "id"
  | RMaybeActiveExtension => "id"
  | RActiveExtension => "active"
  | RVideo => "id"
  | RTag => "tag_id"
  | RWebhookSubscription => "callback"
  | RStream => "id"
  | RChannelInfo => "broadcaster_id"
  | RPrediction => "broadcaster_id"
  | RPredictor => "channel_points_used"
  | RPredictionOutcome => "id"
  | RSchedule => "data"
  | RScheduleSegment => "id"
  | RScheduleCategory => "id"
  | RScheduleVacation => "start_time"
  | RTeam => "users"
  | RChannelTeams => "broadcaster_id"
  end.

(** The keys of the payload a constructor reads, by subscription or
    defensively; the keys of nested mappings are not listed. *)
Definition read_keys (rt : record_type) : list string :=
  match rt with
  | RBitsLeaderboard => ["date_range"; "data"]
  | RCheerEmoteTier => ["min_bits"; "id"; "colour"; "images"; "can_cheer"; "show_in_bits_card"]
  | RCheerEmote => ["prefix"; "tiers"; "type"; "order"; "last_updated"; "is_charitable"]
  | RClip =>
      ["id"; "url"; "embed_url"; "broadcaster_id"; "broadcaster_name"; "creator_id";
       "creator_name"; "video_id"; "game_id"; "language"; "title"; "view_count"; "created_at";
       "thumbnail_url"]
  | RHypeTrainContribution => ["total"; "type"; "user"]
  | RHypeTrainEvent =>
      ["id"; "event_data"; "event_type"; "version"; "event_timestamp"; "expires_at"]
  | RBanEvent => ["id"; "event_type"; "event_timestamp"; "version"; "event_data"]
  | RFollowEvent => ["from_id"; "from_name"; "to_id"; "to_name"; "followed_at"]
  | RSubscriptionEvent =>
      ["broadcaster_id"; "broadcaster_name"; "user_id"; "user_name"; "tier"; "plan_name";
       "is_gift"]
  | RMarker => ["id"; "created_at"; "description"; "position_seconds"; "URL"]
  | RVideoMarkers => ["video_id"; "markers"]
  | RGame => ["id"; "name"; "box_art_url"]
  | RModEvent => ["id"; "event_type"; "event_timestamp"; "version"; "event_data"]
  | RAutomodCheckResponse => ["msg_id"; "is_permitted"]
  | RExtension => ["id"; "version"; "active"]
  | RMaybeActiveExtension => ["id"; "version"; "name"; "can_activate"; "type"]
  | RActiveExtension => ["active"; "id"; "version"; "name"; "x"; "y"]
  | RVideo =>
      ["id"; "user_id"; "user_name"; "title"; "description"; "created_at"; "published_at";
       "url"; "thumbnail_url"; "viewable"; "view_count"; "language"; "type"; "duration"]
  | RTag => ["tag_id"; "is_auto"; "localization_names"; "localization_descriptions"]
  | RWebhookSubscription => ["callback"; "expired_at"; "topic"]
  | RStream =>
      ["id"; "user_id"; "user_name"; "game_id"; "game_name"; "type"; "title"; "viewer_count";
       "started_at"; "language"; "thumbnail_url"; "tag_ids"; "is_mature"]
  | RChannelInfo =>
      ["broadcaster_id"; "broadcaster_name"; "game_id"; "game_name"; "title";
       "broadcaster_language"; "delay"]
  | RPrediction =>
      ["broadcaster_id"; "broadcaster_name"; "id"; "title"; "winning_outcome_id"; "outcomes";
       "prediction_window"; "status"; "created_at"; "ended_at"; "locked_at"]
  | RPredictor => ["channel_points_used"; "channel_points_won"; "user"]
  | RPredictionOutcome =>
      ["id"; "title"; "channel_points"; "color"; "users"; "top_predictors"]
  | RSchedule => ["data"]
  | RScheduleSegment =>
      ["id"; "start_time"; "end_time"; "title"; "canceled_until"; "category"; "is_recurring"]
  | RScheduleCategory => ["id"; "name"]
  | RScheduleVacation => ["start_time"; "end_time"]
  | RTeam =>
      ["users"; "background_image_url"; "banner"; "created_at"; "updated_at"; "info";
       "thumbnail_url"; "team_name"; "team_display_name"; "id"]
  | RChannelTeams =>
      ["broadcaster_id"; "broadcaster_login"; "background_image_url"; "banner"; "created_at";
       "updated_at"; "info"; "thumbnail_url"; "team_name"; "team_display_name"; "id"]
  end.

(** ** Lists of nested records

    The attributes built by a comprehension over a list of the payload: the
    path of the list, the attribute, and the constructor applied to each
    element. *)
Definition list_attributes (rt : record_type) (http : value)
  : list (list string * string * (value -> result value)) :=
  match rt with
  | RBitsLeaderboard => [(["data"], "leaders", BitLeaderboardUser http)]
  | RCheerEmote => [(["tiers"], "tiers", CheerEmoteTier)]
  | RHypeTrainEvent =>
      [(["event_data"; "top_contributions"], "top_contributions", HypeTrainContribution http)]
  | RVideoMarkers => [(["markers"], "markers", Marker)]
  | RPrediction => [(["outcomes"], "outcomes", PredictionOutcome http)]
  | RSchedule => [(["data"; "segments"], "segments", ScheduleSegment)]
  | RTeam =>
      [(["users"], "users",
        fun x : value => call2 (PartialUser http) x.["user_id"] x.["user_login"])]
  | _ => []
  end.

(** The payload with the value at the end of path [p] replaced by [new]. *)
Fixpoint set_path (p : list string) (new : value) (v : value) : value :=
  match p, v with
  | k :: q, VDict d =>
      match q with
      | [] => VDict (store k new d)
      | _ => match lookup k d with
             | Some x => VDict (store k (set_path q new x) d)
             | None => v
             end
      end
  | _, _ => v
  end.

End Methods.

(** ** More sample payloads *)

Definition game_payload : value :=
  VDict [("id", VStr "33214"); ("name", VStr "Fortnite");
         ("box_art_url",
          VStr "https://static-cdn.jtvnw.net/ttv-boxart/33214-{width}x{height}.jpg")].

Definition team_payload : value :=
  VDict [("users",
          VList [VDict [("user_id", VStr "278217731"); ("user_name", VStr "Mastermndio");
                        ("user_login", VStr "mastermndio")]]);
         ("background_image_url", VNone);
         ("banner", VNone);
         ("created_at", VStr "2019-02-11 12:09:22");
         ("updated_at", VStr "2020-11-18 15:56:41");
         ("info", VStr "<p>An outgoing and enthusiastic group of friendly channels</p>");
         ("thumbnail_url", VStr "https://static-cdn.jtvnw.net/jtv_user_pictures/team-logo.png");
         ("team_name", VStr "weightedblanket");
         ("team_display_name", VStr "Weighted Blanket");
         ("id", VStr "6358")].

Definition tier_payload (min_bits : list (string * value)) (id : string) : value :=
  VDict (min_bits ++
         [("id", VStr id); ("colour", VStr "#979797"); ("images", VDict []);
          ("can_cheer", VBool true); ("show_in_bits_card", VBool true)])%list.

Definition cheer_emote_payload : value :=
  VDict [("prefix", VStr "Cheer");
         ("tiers", VList [tier_payload [("min_bits", VInt 1)] "1";
                          tier_payload [("min_bits", VInt 100)] "100"]);
         ("type", VStr "global_first_party");
         ("order", VInt 1);
         ("last_updated", VStr "2018-05-22T00:06:04Z");
         ("is_charitable", VBool false)].

Definition active_extension_payload : value :=
  VDict [("active", VBool true); ("id", VStr "rh6jq1q334hqc2rr1qlzqbvwlfl3x0");
         ("version", VStr "1.1.0"); ("name", VStr "TopClip"); ("x", VInt 0); ("y", VInt 0)].

Definition prediction_payload : value :=
  VDict [("id", VStr "d6676d5c-c86e-44d2-bfc4-100fb48f0656");
         ("broadcaster_id", VStr "55696719"); ("broadcaster_name", VStr "TwitchDev");
         ("title", VStr "Will there be any leaks today?");
         ("winning_outcome_id", VNone);
         ("outcomes", VList [outcome_payload VNone; outcome_payload (VList [])]);
         ("prediction_window", VInt 600);
         ("status", VStr "ACTIVE");
         ("created_at", VStr "2021-04-28T16:03:06.320848689Z");
         ("ended_at", VNone);
         ("locked_at", VNone)].


(** * Properties *)

(** ** The [fromisoformat] model on sample inputs *)

Example fromisoformat_seconds :
  fromisoformat_str false "2021-05-01T12:00:00"
  = Ok (VDatetime (mkdatetime 2021 5 1 12 0 0 0 None)).
Proof. reflexivity. Qed.

Example fromisoformat_micro_offset :
  fromisoformat_str false "2021-05-01T12:00:00.123456+01:30"
  = Ok (VDatetime (mkdatetime 2021 5 1 12 0 0 123456 (Some 5400000000))).
Proof. reflexivity. Qed.

Example fromisoformat_Z_old :
  fromisoformat_str false "2021-05-01T12:00:00Z" = Raise ValueError.
Proof. reflexivity. Qed.

Example fromisoformat_Z_new :
  fromisoformat_str true "2021-05-01T12:00:00Z"
  = Ok (VDatetime (mkdatetime 2021 5 1 12 0 0 0 (Some 0))).
Proof. reflexivity. Qed.

Example fromisoformat_nanoseconds :
  fromisoformat_str false "2021-04-28T17:11:22.595914172Z" = Raise ValueError.
Proof. reflexivity. Qed.

(** ** The rounded quotient on sample inputs *)

Example round_quotient_half_way :
  map (fun n => round_quotient n 1000) [499; 500; 501; 1500; 2500; -1500; 3500]
  = [Ok 0; Ok 0; Ok 1; Ok 2; Ok 2; Ok (-2); Ok 4].
Proof. vm_compute. reflexivity. Qed.

(** Beyond 2^53 the quotient is a float that has lost digits. *)
Example round_quotient_beyond_exact :
  round_quotient 10000000000000000003000 1000 = Ok 10000000000000000000.
Proof. vm_compute. reflexivity. Qed.

Example round_quotient_overflow : round_quotient (10 ^ 400) 1000 = Raise OverflowError.
Proof. vm_compute. reflexivity. Qed.

Example subscription_tier_overflow :
  @SubscriptionEvent sample_imports sample_http
    (VDict [("tier", VInt (10 ^ 400)); ("plan_name", VStr "Channel Subscription");
            ("is_gift", VBool false)]) sample_user sample_user
  = Raise OverflowError.
Proof. vm_compute. reflexivity. Qed.

(** ** Results and mappings *)

Lemma is_ok_inv {A : Type} (r : result A) : is_ok r = true -> exists a, r = Ok a.
Proof. destruct r; simpl; [eauto | discriminate]. Qed.

Lemma is_ok_fun (f : value -> result value) :
  forall x, is_ok (f x) = true -> exists y, f x = Ok y.
Proof. intros x. apply is_ok_inv. Qed.

Lemma lookup_store k k' v d :
  lookup k (store k' v d) = if String.eqb k k' then Some v else lookup k d.
Proof.
  induction d as [|[k0 v0] d IH]; simpl.
  - reflexivity.
  - destruct (String.eqb k' k0) eqn:E0; simpl.
    + apply String.eqb_eq in E0; subst k0.
      destruct (String.eqb k k'); reflexivity.
    + rewrite IH. destruct (String.eqb k k0) eqn:E1; [|reflexivity].
      apply String.eqb_eq in E1; subst k0.
      rewrite String.eqb_sym in E0. rewrite E0. reflexivity.
Qed.

Lemma lookup_remove_key k k' d :
  lookup k (remove_key k' d) = if String.eqb k k' then None else lookup k d.
Proof.
  induction d as [|[k0 v0] d IH]; simpl.
  - destruct (String.eqb k k'); reflexivity.
  - destruct (String.eqb k' k0) eqn:E0; simpl.
    + apply String.eqb_eq in E0; subst k0. rewrite IH.
      destruct (String.eqb k k'); reflexivity.
    + rewrite IH. destruct (String.eqb k k0) eqn:E1; [|reflexivity].
      apply String.eqb_eq in E1; subst k0.
      rewrite String.eqb_sym in E0. rewrite E0. reflexivity.
Qed.

Lemma store_fresh k v d : lookup k d = None -> store k v d = (d ++ [(k, v)])%list.
Proof.
  induction d as [|[k0 v0] d IH]; simpl; intros H.
  - reflexivity.
  - destruct (String.eqb k k0); [discriminate|]. rewrite (IH H). reflexivity.
Qed.

Lemma lookup_app_none k d1 d2 :
  lookup k d1 = None -> lookup k (d1 ++ d2)%list = lookup k d2.
Proof.
  induction d1 as [|[k0 v0] d IH]; simpl; intros H.
  - reflexivity.
  - destruct (String.eqb k k0); [discriminate | auto].
Qed.

Lemma item_inv e k v :
  e.[k] = Ok v -> exists d, e = Ok (VDict d) /\ lookup k d = Some v.
Proof.
  unfold item, getitem. destruct e as [[]|]; simpl; try discriminate.
  destruct (lookup k d) eqn:E; [|discriminate]. intros [= ->]. eauto.
Qed.

Lemma call2_inv f a b v :
  call2 f a b = Ok v -> exists x y, a = Ok x /\ b = Ok y /\ f x y = Ok v.
Proof.
  unfold call2. destruct a as [x|]; simpl; [|discriminate].
  destruct b as [y|]; simpl; [|discriminate]. eauto.
Qed.

Lemma call1_inv f a v : call1 f a = Ok v -> exists x, a = Ok x /\ f x = Ok v.
Proof. unfold call1. destruct a as [x|]; simpl; [eauto | discriminate]. Qed.

Lemma get_path_1 (data : value) k : get_path [k] data = data.[k].
Proof. unfold item. simpl. destruct (getitem data k); reflexivity. Qed.

Lemma get_path_2 (data : value) k1 k2 : get_path [k1; k2] data = data.[k1].[k2].
Proof.
  unfold item. simpl. destruct (getitem data k1) as [x|]; simpl; [|reflexivity].
  destruct (getitem x k2); reflexivity.
Qed.

(** ** Running a constructor body *)

Lemma exec_lookup slots body : forall self r a,
  exec slots body self = Ok r ->
  match rhs_of a body with
  | Some e => exists v, e = Ok v /\ lookup a r = Some v
  | None => lookup a r = lookup a self
  end.
Proof.
  induction body as [|[a' e] rest IH]; intros self r a H; simpl in *.
  - injection H as <-. reflexivity.
  - destruct e as [v|]; simpl in H; [|discriminate].
    destruct (existsb (String.eqb a') slots); [|discriminate].
    specialize (IH _ _ a H).
    destruct (rhs_of a rest); [exact IH|].
    rewrite lookup_store in IH.
    destruct (String.eqb a a'); [|exact IH].
    exists v. split; [reflexivity | exact IH].
Qed.

Lemma exec_cons slots a e v rest self :
  e = Ok v -> existsb (String.eqb a) slots = true ->
  exec slots ((a, e) :: rest) self = exec slots rest (store a v self).
Proof. intros -> H. simpl. rewrite H. reflexivity. Qed.

(* run the assignments whose values are known *)
Ltac exec_steps :=
  repeat (erewrite exec_cons; [| first [eassumption | reflexivity] | reflexivity]).

(** The value of an attribute of a constructed instance is the value of the
    last assignment to it. *)
Lemma construct_getattr cls slots body r a e v :
  construct cls slots body = Ok r -> rhs_of a body = Some e -> e = Ok v ->
  getattr r a = Ok v.
Proof.
  unfold construct. intros H Hr He.
  destruct (exec slots body []) as [self|] eqn:E; simpl in H; [|discriminate].
  injection H as <-. pose proof (exec_lookup _ _ _ _ a E) as L.
  rewrite Hr in L. destruct L as [w [L1 L2]]. simpl. rewrite L2. congruence.
Qed.

(** A body whose assignments all name slots and all evaluate runs to the
    end. *)
Lemma construct_ok cls slots body :
  Forall (fun s => existsb (String.eqb (fst s)) slots = true /\ exists v, snd s = Ok v) body ->
  exists r, construct cls slots body = Ok r.
Proof.
  unfold construct. intros H.
  assert (forall self, exists r, exec slots body self = Ok r) as X.
  { induction H as [|[a e] rest [Hs [v Hv]] _ IH]; intros self; simpl in *.
    - eauto.
    - subst e. simpl. rewrite Hs. apply IH. }
  destruct (X []) as [r Hr]. rewrite Hr. simpl. eauto.
Qed.

(** An assignment outside the slots stops the constructor, whatever the
    payload. *)
Lemma construct_not_a_slot cls slots a e rest :
  existsb (String.eqb a) slots = false ->
  forall r, construct cls slots ((a, e) :: rest) <> Ok r.
Proof.
  unfold construct. intros H r. simpl. destruct e; simpl; [|discriminate].
  rewrite H. discriminate.
Qed.

Lemma exec_diverge slots b1 : forall b2 e self r,
  exec slots b1 self = Ok r -> diverge b1 b2 e -> exec slots b2 self = Raise e.
Proof.
  induction b1 as [|[a1 e1] r1 IH]; intros [|[a2 e2] r2] e self r H D;
    simpl in D; try contradiction.
  destruct D as [<- D]. simpl in *.
  destruct e1 as [v|]; simpl in H; [|discriminate].
  destruct D as [D | [-> D]].
  - rewrite (D v eq_refl). reflexivity.
  - simpl. destruct (existsb (String.eqb a1) slots); [|discriminate]. eauto.
Qed.

Lemma construct_diverge cls slots b1 b2 e r :
  construct cls slots b1 = Ok r -> diverge b1 b2 e -> construct cls slots b2 = Raise e.
Proof.
  unfold construct. intros H D.
  destruct (exec slots b1 []) eqn:E; [|discriminate].
  rewrite (exec_diverge _ _ _ _ _ _ E D). reflexivity.
Qed.

(** ** Comprehensions and conditional expressions *)

Lemma mapM_ok {A B} (ok : A -> bool) (f : A -> result B) l :
  forallb ok l = true -> (forall x, ok x = true -> exists y, f x = Ok y) ->
  exists ys, mapM f l = Ok ys.
Proof.
  intros H Hf. induction l as [|x l IH]; simpl in *.
  - eauto.
  - apply andb_prop in H. destruct H as [H1 H2].
    destruct (Hf x H1) as [y ->]. destruct (IH H2) as [ys ->]. simpl. eauto.
Qed.

Lemma mapM_length {A B} (f : A -> result B) l : forall ys,
  mapM f l = Ok ys -> List.length ys = List.length l.
Proof.
  induction l as [|x l IH]; simpl; intros ys H.
  - injection H as <-. reflexivity.
  - destruct (f x); simpl in H; [|discriminate].
    destruct (mapM f l); simpl in H; [|discriminate].
    injection H as <-. simpl. f_equal. auto.
Qed.

(** The first element whose constructor raises stops the comprehension with
    that exception. *)
Lemma comprehension_propagates f pre x post e ys :
  mapM f pre = Ok ys -> f x = Raise e ->
  comprehension f (VList (pre ++ x :: post)) = Raise e.
Proof.
  intros Hpre Hx. unfold comprehension. simpl. revert ys Hpre.
  induction pre as [|y pre IH]; intros ys Hpre; simpl in *.
  - rewrite Hx. reflexivity.
  - destruct (f y); simpl in *; [|discriminate].
    destruct (mapM f pre) as [ys'|]; simpl in *; [|discriminate].
    specialize (IH ys' eq_refl).
    destruct (mapM f (pre ++ x :: post)); simpl in *; [discriminate IH|].
    injection IH as ->. reflexivity.
Qed.

Lemma each_comprehension ok f e :
  each ok e = true -> (forall x, ok x = true -> exists y, f x = Ok y) ->
  exists v, comprehension f e = Ok v.
Proof.
  unfold each, comprehension. intros H Hf.
  destruct e as [[]|]; try discriminate. simpl.
  destruct (mapM_ok ok f l H Hf) as [ys ->]. simpl. eauto.
Qed.

Lemma accepts_call1 ok f e :
  accepts ok e = true -> (forall x, ok x = true -> exists y, f x = Ok y) ->
  exists v, call1 f e = Ok v.
Proof.
  unfold accepts, call1. intros H Hf. destruct e as [x|]; [|discriminate]. simpl. auto.
Qed.

Lemma nullable_if_else ok f e :
  nullable ok e = true -> (forall x, ok x = true -> exists y, f x = Ok y) ->
  exists v, if_else (call1 f e) e VNone = Ok v.
Proof.
  unfold nullable, if_else, call1. intros H Hf. destruct e as [x|]; [|discriminate]. simpl.
  destruct (truthy x); [auto | eauto].
Qed.

Lemma vacant_if_else a e : vacant e = true -> if_else a e VNone = Ok VNone.
Proof.
  unfold vacant, if_else. destruct e as [x|]; [|discriminate]. simpl.
  destruct (truthy x); [discriminate | reflexivity].
Qed.

(** Once a value is true, the conditional expression is its first branch. *)
Lemma truthy_if_else a e v b : e = Ok v -> truthy v = true -> if_else a e b = a.
Proof. intros -> H. unfold if_else. simpl. rewrite H. reflexivity. Qed.

(** ** Rounding the quotient of a division *)

Lemma round_div_spec x y :
  0 < y ->
  2 * Z.abs (x - round_div x y * y) <= y
  /\ (2 * Z.abs (x - round_div x y * y) = y -> Z.even (round_div x y) = true).
Proof.
  intros Hy. unfold round_div.
  pose proof (Z.div_mod x y ltac:(lia)) as D.
  pose proof (Z.mod_pos_bound x y Hy) as B.
  destruct (2 * (x mod y) <? y) eqn:E1; [apply Z.ltb_lt in E1; split; nia|].
  apply Z.ltb_ge in E1.
  destruct (y <? 2 * (x mod y)) eqn:E2; [apply Z.ltb_lt in E2; split; nia|].
  apply Z.ltb_ge in E2.
  destruct (Z.even (x / y)) eqn:E3; [split; [nia | intros _; exact E3]|].
  split; [nia|]. intros _. rewrite Z.even_add, E3. reflexivity.
Qed.

Lemma round_div_unique x y t :
  0 < y ->
  2 * Z.abs (x - t * y) < y \/ (2 * Z.abs (x - t * y) = y /\ Z.even t = true) ->
  round_div x y = t.
Proof.
  intros Hy H. destruct (round_div_spec x y Hy) as [S1 S2].
  set (T := round_div x y) in *.
  assert (T = t \/ ((T = t + 1 \/ T = t - 1) /\ 2 * Z.abs (x - t * y) = y
                    /\ 2 * Z.abs (x - T * y) = y)) as [E|[E [Ht HT]]] by nia.
  - exact E.
  - destruct H as [H|[_ H]]; [lia|].
    specialize (S2 HT). exfalso.
    destruct E as [E|E]; rewrite E in S2.
    + rewrite Z.even_add, H in S2. discriminate.
    + rewrite Z.even_sub, H in S2. discriminate.
Qed.

Lemma round_div_opp x y : 0 < y -> round_div (- x) y = - round_div x y.
Proof.
  intros Hy. destruct (round_div_spec x y Hy) as [S1 S2].
  apply round_div_unique; [exact Hy|].
  replace (- x - - round_div x y * y) with (- (x - round_div x y * y)) by ring.
  rewrite Z.abs_opp.
  destruct (Z.eq_dec (2 * Z.abs (x - round_div x y * y)) y) as [E|E].
  - right. split; [exact E|]. rewrite Z.even_opp. exact (S2 E).
  - left. lia.
Qed.

(** Rounding a number of thousandths twice, first to a multiple of [1 / p]
    for an even [p] above 500, gives what rounding it once gives. *)
Lemma round_div_twice a p :
  500 < p -> Z.even p = true ->
  round_div (round_div (a * p) 1000) p = round_div a 1000.
Proof.
  intros Hp Ep.
  destruct (round_div_spec a 1000 ltac:(lia)) as [S1 S2].
  destruct (round_div_spec (a * p) 1000 ltac:(lia)) as [M1 _].
  set (T := round_div a 1000) in *.
  destruct (Z.eq_dec (2 * Z.abs (a - T * 1000)) 1000) as [E|E].
  - (* half-way: the first rounding is exact *)
    apply Z.even_spec in Ep. destruct Ep as [h Eh].
    assert (round_div (a * p) 1000 = T * p + (a - T * 1000) / 500 * h) as ->.
    { apply round_div_unique; [lia|]. left.
      assert (a - T * 1000 = 500 \/ a - T * 1000 = -500) as [X|X] by lia;
        rewrite X; [change (500 / 500) with 1 | change (-500 / 500) with (-1)]; nia. }
    apply round_div_unique; [lia|]. right. split; [|exact (S2 E)].
    assert (a - T * 1000 = 500 \/ a - T * 1000 = -500) as [X|X] by lia;
      rewrite X; [change (500 / 500) with 1 | change (-500 / 500) with (-1)]; nia.
  - set (m := round_div (a * p) 1000) in *.
    apply round_div_unique; [lia|]. left.
    assert (Z.abs (a - T * 1000) <= 499) as U by lia.
    nia.
Qed.

Lemma binade_small a : 0 < a < 2 ^ 53 -> binade a 1000 <= -9.
Proof.
  intros [H0 H1]. unfold binade.
  assert (Z.log2 a < 53) as L by (apply Z.log2_lt_pow2; [exact H0 | exact H1]).
  change (Z.log2 1000) with 9.
  destruct (below a 1000 (Z.log2 a - 9)); lia.
Qed.

Lemma round_quotient_exact n :
  Z.abs n < 2 ^ 53 -> round_quotient n 1000 = Ok (round_div n 1000).
Proof.
  intros H. unfold round_quotient.
  destruct (n =? 0) eqn:E0; [apply Z.eqb_eq in E0; subst; reflexivity|].
  apply Z.eqb_neq in E0.
  pose proof (binade_small (Z.abs n) ltac:(lia)) as B.
  set (e := binade (Z.abs n) 1000) in *.
  destruct (0 <=? e) eqn:E1; [apply Z.leb_le in E1; lia|].
  f_equal.
  assert (500 < 2 ^ (- e)) as P1.
  { apply Z.lt_le_trans with (2 ^ 9); [reflexivity|].
    apply Z.pow_le_mono_r; lia. }
  assert (Z.even (2 ^ (- e)) = true) as P2.
  { replace (- e) with (Z.succ (- e - 1)) by lia. rewrite Z.pow_succ_r by lia.
    rewrite Z.even_mul. reflexivity. }
  rewrite (round_div_twice _ _ P1 P2).
  destruct (Z.abs_eq_or_opp n) as [A|A].
  - rewrite A. replace (Z.sgn n) with 1 by (symmetry; apply Z.sgn_pos; lia). lia.
  - replace (Z.sgn n) with (-1) by (symmetry; apply Z.sgn_neg; lia).
    replace n with (- Z.abs n) at 2 by lia.
    rewrite round_div_opp by lia. lia.
Qed.

(** Below 2^53 the float nearest to [n / 1000] rounds as [n / 1000] does. *)
Lemma decode_tier_small (e : result value) v n :
  e = Ok v -> py_int v = Ok (VInt n) -> Z.abs n < 2 ^ 53 ->
  decode_tier e = Ok (VInt (round_div n 1000)).
Proof.
  intros -> Hn Hb. unfold decode_tier, call1, bind. rewrite Hn.
  rewrite (round_quotient_exact n Hb). reflexivity.
Qed.

(** ** Well-formed payloads are accepted *)

Ltac split_and :=
  repeat match goal with
  | H : (_ && _)%bool = true |- _ =>
      let W := fresh "W" in apply andb_prop in H; destruct H as [H W]
  end.

Section Accepted.

Context {imports : Imports}.

Lemma dict_get_has data k k' : has data k' = true -> exists v, dict_get data k = Ok v.
Proof.
  unfold has. intros H. apply is_ok_inv in H. destruct H as [v H].
  apply item_inv in H. destruct H as [d [[= ->] _]]. simpl.
  destruct (lookup k d); eauto.
Qed.

Lemma decode_tier_ok e : accepts tier_ok e = true -> exists v, decode_tier e = Ok v.
Proof.
  unfold accepts, tier_ok. destruct e as [x|]; [|discriminate].
  destruct (py_int x) as [[]|] eqn:E; try discriminate.
  intros H. apply Z.ltb_lt in H.
  eexists. exact (decode_tier_small _ x n eq_refl E H).
Qed.

(* A right-hand side evaluates, by the matching condition on the payload;
   [elem] proves that the constructor of a nested payload accepts it. *)
Ltac rhs_ok elem :=
  first
    [ eexists; reflexivity
    | apply is_ok_inv; assumption
    | match goal with
      | H : each ?ok ?e = true |- exists v, comprehension ?f ?e = Ok v =>
          apply (each_comprehension ok f e H);
          first [ solve [elem]
                | let Hx := fresh in intros ? Hx; apply is_ok_inv; exact Hx ]
      | H : accepts ?ok ?e = true |- exists v, call1 ?f ?e = Ok v =>
          apply (accepts_call1 ok f e H); solve [elem]
      | H : nullable ?ok ?e = true |- exists v, if_else (call1 ?f ?e) ?e _ = Ok v =>
          apply (nullable_if_else ok f e H); first [solve [elem] | exact (is_ok_fun f)]
      | H : vacant ?e = true |- exists v, if_else _ ?e _ = Ok v =>
          eexists; apply vacant_if_else; exact H
      | H : has ?d _ = true |- exists v, dict_get ?d _ = Ok v =>
          apply (dict_get_has _ _ _ H)
      | H : accepts tier_ok ?e = true |- exists v, decode_tier ?e = Ok v =>
          apply (decode_tier_ok _ H)
      end ].

Ltac build_ok elem :=
  split_and;
  apply construct_ok;
  repeat (apply Forall_cons; [split; [reflexivity | cbn [snd]; rhs_ok elem] |]);
  apply Forall_nil.

(* for a constructor that builds no nested record *)
Ltac flat := fail.

Lemma BitsLeaderboard_ok http data :
  wf_BitsLeaderboard http data = true -> exists r, BitsLeaderboard http data = Ok r.
Proof. intros H. unfold wf_BitsLeaderboard in H. build_ok flat. Qed.

Lemma CheerEmoteTier_ok data :
  wf_CheerEmoteTier data = true -> exists r, CheerEmoteTier data = Ok r.
Proof. intros H. unfold wf_CheerEmoteTier in H. build_ok flat. Qed.

Lemma CheerEmote_ok http data :
  wf_CheerEmote data = true -> exists r, CheerEmote http data = Ok r.
Proof. intros H. unfold wf_CheerEmote in H. build_ok ltac:(exact CheerEmoteTier_ok). Qed.

Lemma Clip_ok http data : wf_Clip http data = true -> exists r, Clip http data = Ok r.
Proof. intros H. unfold wf_Clip in H. build_ok flat. Qed.

Lemma HypeTrainContribution_ok http data :
  wf_HypeTrainContribution http data = true ->
  exists r, HypeTrainContribution http data = Ok r.
Proof. intros H. unfold wf_HypeTrainContribution in H. build_ok flat. Qed.

Lemma HypeTrainEvent_ok http data :
  wf_HypeTrainEvent http data = true -> exists r, HypeTrainEvent http data = Ok r.
Proof.
  intros H. unfold wf_HypeTrainEvent in H.
  build_ok ltac:(exact (HypeTrainContribution_ok http)).
Qed.

Lemma BanEvent_ok http data broadcaster :
  wf_BanEvent http data broadcaster = true -> exists r, BanEvent http data broadcaster = Ok r.
Proof. intros H. unfold wf_BanEvent in H. build_ok flat. Qed.

Lemma FollowEvent_ok http data from_ to :
  wf_FollowEvent http data from_ to = true -> exists r, FollowEvent http data from_ to = Ok r.
Proof. intros H. unfold wf_FollowEvent in H. build_ok flat. Qed.

Lemma SubscriptionEvent_ok http data broadcaster user :
  wf_SubscriptionEvent http data broadcaster user = true ->
  exists r, SubscriptionEvent http data broadcaster user = Ok r.
Proof. intros H. unfold wf_SubscriptionEvent in H. build_ok flat. Qed.

Lemma Marker_ok data : wf_Marker data = true -> exists r, Marker data = Ok r.
Proof. intros H. unfold wf_Marker in H. build_ok flat. Qed.

Lemma VideoMarkers_ok data : wf_VideoMarkers data = true -> exists r, VideoMarkers data = Ok r.
Proof. intros H. unfold wf_VideoMarkers in H. build_ok ltac:(exact Marker_ok). Qed.

Lemma Game_ok data : wf_Game data = true -> exists r, Game data = Ok r.
Proof. intros H. unfold wf_Game in H. build_ok flat. Qed.

Lemma ModEvent_ok http data broadcaster :
  wf_ModEvent http data = true -> exists r, ModEvent http data broadcaster = Ok r.
Proof. intros H. unfold wf_ModEvent in H. build_ok flat. Qed.

Lemma AutomodCheckResponse_ok data :
  wf_AutomodCheckResponse data = true -> exists r, AutomodCheckResponse data = Ok r.
Proof. intros H. unfold wf_AutomodCheckResponse in H. build_ok flat. Qed.

Lemma Extension_ok data : wf_Extension data = true -> exists r, Extension data = Ok r.
Proof. intros H. unfold wf_Extension in H. build_ok flat. Qed.

Lemma MaybeActiveExtension_ok data :
  wf_MaybeActiveExtension data = true -> exists r, MaybeActiveExtension data = Ok r.
Proof. intros H. unfold wf_MaybeActiveExtension in H. build_ok flat. Qed.

Lemma ActiveExtension_ok data :
  wf_ActiveExtension data = true -> exists r, ActiveExtension data = Ok r.
Proof. intros H. unfold wf_ActiveExtension in H. build_ok flat. Qed.

Lemma Video_ok http data user :
  wf_Video http data user = true -> exists r, Video http data user = Ok r.
Proof. intros H. unfold wf_Video in H. build_ok flat. Qed.

Lemma Tag_ok data : wf_Tag data = true -> exists r, Tag data = Ok r.
Proof. intros H. unfold wf_Tag in H. build_ok flat. Qed.

Lemma WebhookSubscription_ok data :
  wf_WebhookSubscription data = true -> exists r, WebhookSubscription data = Ok r.
Proof. intros H. unfold wf_WebhookSubscription in H. build_ok flat. Qed.

Lemma Stream_ok http data : wf_Stream http data = true -> exists r, Stream http data = Ok r.
Proof. intros H. unfold wf_Stream in H. build_ok flat. Qed.

Lemma ChannelInfo_ok http data :
  wf_ChannelInfo http data = true -> exists r, ChannelInfo http data = Ok r.
Proof. intros H. unfold wf_ChannelInfo in H. build_ok flat. Qed.

Lemma PredictionOutcome_ok http data :
  wf_PredictionOutcome data = true -> exists r, PredictionOutcome http data = Ok r.
Proof. intros H. unfold wf_PredictionOutcome in H. build_ok flat. Qed.

Lemma Prediction_ok http data :
  wf_Prediction http data = true -> exists r, Prediction http data = Ok r.
Proof.
  intros H. unfold wf_Prediction in H.
  build_ok ltac:(exact (PredictionOutcome_ok http)).
Qed.

Lemma ScheduleCategory_ok data :
  wf_ScheduleCategory data = true -> exists r, ScheduleCategory data = Ok r.
Proof. intros H. unfold wf_ScheduleCategory in H. build_ok flat. Qed.

Lemma ScheduleVacation_ok data :
  wf_ScheduleVacation data = true -> exists r, ScheduleVacation data = Ok r.
Proof. intros H. unfold wf_ScheduleVacation in H. build_ok flat. Qed.

Lemma ScheduleSegment_ok data :
  wf_ScheduleSegment data = true -> exists r, ScheduleSegment data = Ok r.
Proof. intros H. unfold wf_ScheduleSegment in H. build_ok ltac:(exact ScheduleCategory_ok). Qed.

Lemma Schedule_ok http data :
  wf_Schedule http data = true -> exists r, Schedule http data = Ok r.
Proof.
  intros H. unfold wf_Schedule in H.
  build_ok ltac:(first [exact ScheduleSegment_ok | exact ScheduleVacation_ok]).
Qed.

Lemma Team_ok http data : wf_Team http data = true -> exists r, Team http data = Ok r.
Proof. intros H. unfold wf_Team, wf_team_fields in H. build_ok flat. Qed.

Lemma ChannelTeams_ok http data :
  wf_ChannelTeams http data = true -> exists r, ChannelTeams http data = Ok r.
Proof. intros H. unfold wf_ChannelTeams, wf_team_fields in H. build_ok flat. Qed.

(** Every record type but [Predictor] is built from a well-formed payload. *)
Lemma build_ok_all rt http ref1 ref2 data :
  rt <> RPredictor -> wf rt http ref1 ref2 data = true ->
  exists r, build rt http ref1 ref2 data = Ok r.
Proof.
  intros Hrt H. destruct rt; simpl in *; try congruence;
    eauto using BitsLeaderboard_ok, CheerEmoteTier_ok, CheerEmote_ok, Clip_ok,
      HypeTrainContribution_ok, HypeTrainEvent_ok, BanEvent_ok, FollowEvent_ok,
      SubscriptionEvent_ok, Marker_ok, VideoMarkers_ok, Game_ok, ModEvent_ok,
      AutomodCheckResponse_ok, Extension_ok, MaybeActiveExtension_ok, ActiveExtension_ok,
      Video_ok, Tag_ok, WebhookSubscription_ok, Stream_ok, ChannelInfo_ok,
      PredictionOutcome_ok, Prediction_ok, ScheduleCategory_ok, ScheduleVacation_ok,
      ScheduleSegment_ok, Schedule_ok, Team_ok, ChannelTeams_ok.
Qed.

(** *** Optional attributes of a constructed record *)

Lemma parse_time_omitted data k : dict_get data k = Ok VNone -> _parse_time data k = Ok VNone.
Proof.
  destruct data; simpl; try discriminate. unfold has_key.
  destruct (lookup k d) as [[]|]; simpl; try discriminate; reflexivity.
Qed.

Lemma omitted_defensive k data :
  omitted (Defensive k) data = true -> dict_get data k = Ok VNone.
Proof. simpl. destruct (dict_get data k) as [[]|]; try discriminate. reflexivity. Qed.

Lemma optional_attributes rt http ref1 ref2 data r :
  build rt http ref1 ref2 data = Ok r ->
  forall s a, In (s, a) (optional rt) -> omitted s data = true -> getattr r a = Ok VNone.
Proof.
  intros H s a Hin Hom.
  destruct rt; simpl in Hin; try contradiction;
    repeat (destruct Hin as [[= <- <-]|Hin]; [|try contradiction]);
    simpl in H;
    (eapply construct_getattr; [exact H | reflexivity |]);
    first
      [ apply omitted_defensive; exact Hom
      | apply parse_time_omitted; apply omitted_defensive; exact Hom
      | cbn [omitted] in Hom; rewrite ?get_path_1, ?get_path_2 in Hom;
        apply vacant_if_else; exact Hom ].
Qed.

End Accepted.

(** ** A payload without one of its required keys *)

Section Missing.

Context {imports : Imports}.

(** [Predictor] assigns [channel_points_used] first, which is none of its
    slots: no payload gets through its constructor. *)
Lemma Predictor_raises http data r : Predictor http data <> Ok r.
Proof. unfold Predictor. apply construct_not_a_slot. reflexivity. Qed.

Lemma truthy_dict_with k d v : lookup k d = Some v -> truthy (VDict d) = true.
Proof. destruct d; [discriminate | reflexivity]. Qed.

Ltac neutral x :=
  lazymatch x with
  | context [match _ with _ => _ end] => fail
  | _ => idtac
  end.

Ltac use_facts :=
  repeat match goal with
  | H : lookup ?k ?d = Some _ |- context [lookup ?k ?d] => rewrite H
  | H : truthy ?x = _ |- context [truthy ?x] => rewrite H
  end.

Ltac norm :=
  cbv [item call1 call2 bind evaluated getitem dict_get if_else py_or decode_tier split_first
       fromisoformat comprehension _parse_time has_key];
  repeat (progress (rewrite ?lookup_remove_key, ?lookup_store; use_facts;
                    cbv [String.eqb Ascii.eqb Bool.eqb])).

Ltac norm_in H :=
  cbv [item call1 call2 bind evaluated getitem dict_get if_else py_or decode_tier split_first
       fromisoformat comprehension _parse_time has_key] in H;
  repeat match goal with
  | F : lookup ?k ?d = Some _ |- _ =>
      lazymatch type of H with context [lookup k d] => rewrite F in H end
  | F : truthy ?x = _ |- _ =>
      lazymatch type of H with context [truthy x] => rewrite F in H end
  end.

Ltac same_rhs := norm; reflexivity.

(* [nested] closes the goals where the changed mapping is handed on to another
   constructor *)
Ltac raise_rhs nested Hv :=
  norm_in Hv; norm; try reflexivity; try solve [nested Hv];
  repeat match goal with
  | |- context [match ?x with _ => _ end] =>
      neutral x; destruct x eqn:?; try discriminate Hv; try reflexivity
  end.

Ltac diverge_with nested :=
  repeat (split; [reflexivity|];
          first [ right; split; [ same_rhs | ]
                | left; let v := fresh "v" in let Hv := fresh "Hv" in
                        intros v Hv; solve [raise_rhs nested Hv] ]).

(* what the existence of the path says about the payload *)
Ltac path_facts Hp :=
  cbv [get_path getitem bind is_ok] in Hp;
  repeat match type of Hp with
  | context [match lookup ?k ?d with _ => _ end] =>
      destruct (lookup k d) eqn:?; [|discriminate Hp]
  | context [match ?x with _ => _ end] =>
      is_var x; destruct x; try discriminate Hp
  end;
  clear Hp.

Ltac missing_case nested H Hp :=
  path_facts Hp;
  cbn [remove_path last]; use_facts; cbn [remove_path];
  eapply construct_diverge; [exact H|]; clear H;
  diverge_with nested.

Ltac missing_cases nested Hin H Hp :=
  cbn in Hin;
  repeat (destruct Hin as [<-|Hin]; [solve [missing_case nested H Hp] |]);
  contradiction.

(* for a constructor that hands no mapping on *)
Ltac no_nesting Hv := fail.

Lemma CheerEmoteTier_missing data r p ref1 ref2 :
  In p (indexed RCheerEmoteTier ref1 ref2) -> CheerEmoteTier data = Ok r ->
  is_ok (get_path p data) = true ->
  CheerEmoteTier (remove_path p data) = Raise (KeyError (last p "")).
Proof. intros Hin H Hp. unfold CheerEmoteTier in *. missing_cases no_nesting Hin H Hp. Qed.

Lemma HypeTrainContribution_missing http data r p ref1 ref2 :
  In p (indexed RHypeTrainContribution ref1 ref2) -> HypeTrainContribution http data = Ok r ->
  is_ok (get_path p data) = true ->
  HypeTrainContribution http (remove_path p data) = Raise (KeyError (last p "")).
Proof.
  intros Hin H Hp. unfold HypeTrainContribution in *. missing_cases no_nesting Hin H Hp.
Qed.

Lemma HypeTrainContribution_missing_key http d r k y :
  In [k] (indexed RHypeTrainContribution VNone VNone) ->
  HypeTrainContribution http (VDict d) = Ok r -> lookup k d = Some y ->
  HypeTrainContribution http (VDict (remove_key k d)) = Raise (KeyError k).
Proof.
  intros Hin H Hk.
  apply (HypeTrainContribution_missing http (VDict d) r [k] VNone VNone Hin H).
  simpl. rewrite Hk. reflexivity.
Qed.

(* the changed mapping is handed to the constructor that [lem] is about *)
Ltac into_nested lem Hv := eapply lem; [cbn; tauto | exact Hv | eassumption].

Lemma HypeTrainEvent_missing http data r p ref1 ref2 :
  In p (indexed RHypeTrainEvent ref1 ref2) -> HypeTrainEvent http data = Ok r ->
  is_ok (get_path p data) = true ->
  HypeTrainEvent http (remove_path p data) = Raise (KeyError (last p "")).
Proof.
  intros Hin H Hp. unfold HypeTrainEvent in *.
  missing_cases ltac:(into_nested HypeTrainContribution_missing_key) Hin H Hp.
Qed.

Lemma Marker_missing data r p ref1 ref2 :
  In p (indexed RMarker ref1 ref2) -> Marker data = Ok r ->
  is_ok (get_path p data) = true ->
  Marker (remove_path p data) = Raise (KeyError (last p "")).
Proof.
  intros Hin H Hp. unfold Marker in *. missing_cases no_nesting Hin H Hp.
Qed.

Lemma Game_missing data r p ref1 ref2 :
  In p (indexed RGame ref1 ref2) -> Game data = Ok r ->
  is_ok (get_path p data) = true ->
  Game (remove_path p data) = Raise (KeyError (last p "")).
Proof.
  intros Hin H Hp. unfold Game in *. missing_cases no_nesting Hin H Hp.
Qed.

Lemma AutomodCheckResponse_missing data r p ref1 ref2 :
  In p (indexed RAutomodCheckResponse ref1 ref2) -> AutomodCheckResponse data = Ok r ->
  is_ok (get_path p data) = true ->
  AutomodCheckResponse (remove_path p data) = Raise (KeyError (last p "")).
Proof.
  intros Hin H Hp. unfold AutomodCheckResponse in *. missing_cases no_nesting Hin H Hp.
Qed.

Lemma Extension_missing data r p ref1 ref2 :
  In p (indexed RExtension ref1 ref2) -> Extension data = Ok r ->
  is_ok (get_path p data) = true ->
  Extension (remove_path p data) = Raise (KeyError (last p "")).
Proof.
  intros Hin H Hp. unfold Extension in *. missing_cases no_nesting Hin H Hp.
Qed.

Lemma MaybeActiveExtension_missing data r p ref1 ref2 :
  In p (indexed RMaybeActiveExtension ref1 ref2) -> MaybeActiveExtension data = Ok r ->
  is_ok (get_path p data) = true ->
  MaybeActiveExtension (remove_path p data) = Raise (KeyError (last p "")).
Proof.
  intros Hin H Hp. unfold MaybeActiveExtension in *. missing_cases no_nesting Hin H Hp.
Qed.

Lemma ActiveExtension_missing data r p ref1 ref2 :
  In p (indexed RActiveExtension ref1 ref2) -> ActiveExtension data = Ok r ->
  is_ok (get_path p data) = true ->
  ActiveExtension (remove_path p data) = Raise (KeyError (last p "")).
Proof.
  intros Hin H Hp. unfold ActiveExtension in *. missing_cases no_nesting Hin H Hp.
Qed.

Lemma Tag_missing data r p ref1 ref2 :
  In p (indexed RTag ref1 ref2) -> Tag data = Ok r ->
  is_ok (get_path p data) = true ->
  Tag (remove_path p data) = Raise (KeyError (last p "")).
Proof.
  intros Hin H Hp. unfold Tag in *. missing_cases no_nesting Hin H Hp.
Qed.

Lemma WebhookSubscription_missing data r p ref1 ref2 :
  In p (indexed RWebhookSubscription ref1 ref2) -> WebhookSubscription data = Ok r ->
  is_ok (get_path p data) = true ->
  WebhookSubscription (remove_path p data) = Raise (KeyError (last p "")).
Proof.
  intros Hin H Hp. unfold WebhookSubscription in *. missing_cases no_nesting Hin H Hp.
Qed.

Lemma ScheduleCategory_missing data r p ref1 ref2 :
  In p (indexed RScheduleCategory ref1 ref2) -> ScheduleCategory data = Ok r ->
  is_ok (get_path p data) = true ->
  ScheduleCategory (remove_path p data) = Raise (KeyError (last p "")).
Proof.
  intros Hin H Hp. unfold ScheduleCategory in *. missing_cases no_nesting Hin H Hp.
Qed.

Lemma ScheduleVacation_missing data r p ref1 ref2 :
  In p (indexed RScheduleVacation ref1 ref2) -> ScheduleVacation data = Ok r ->
  is_ok (get_path p data) = true ->
  ScheduleVacation (remove_path p data) = Raise (KeyError (last p "")).
Proof.
  intros Hin H Hp. unfold ScheduleVacation in *. missing_cases no_nesting Hin H Hp.
Qed.

Lemma VideoMarkers_missing data r p ref1 ref2 :
  In p (indexed RVideoMarkers ref1 ref2) -> VideoMarkers data = Ok r ->
  is_ok (get_path p data) = true ->
  VideoMarkers (remove_path p data) = Raise (KeyError (last p "")).
Proof.
  intros Hin H Hp. unfold VideoMarkers in *. missing_cases no_nesting Hin H Hp.
Qed.

Lemma BitsLeaderboard_missing http data r p ref1 ref2 :
  In p (indexed RBitsLeaderboard ref1 ref2) -> BitsLeaderboard http data = Ok r ->
  is_ok (get_path p data) = true ->
  BitsLeaderboard http (remove_path p data) = Raise (KeyError (last p "")).
Proof.
  intros Hin H Hp. unfold BitsLeaderboard in *. missing_cases no_nesting Hin H Hp.
Qed.

Lemma CheerEmote_missing http data r p ref1 ref2 :
  In p (indexed RCheerEmote ref1 ref2) -> CheerEmote http data = Ok r ->
  is_ok (get_path p data) = true ->
  CheerEmote http (remove_path p data) = Raise (KeyError (last p "")).
Proof.
  intros Hin H Hp. unfold CheerEmote in *. missing_cases no_nesting Hin H Hp.
Qed.

Lemma Clip_missing http data r p ref1 ref2 :
  In p (indexed RClip ref1 ref2) -> Clip http data = Ok r ->
  is_ok (get_path p data) = true ->
  Clip http (remove_path p data) = Raise (KeyError (last p "")).
Proof.
  intros Hin H Hp. unfold Clip in *. missing_cases no_nesting Hin H Hp.
Qed.

Lemma Stream_missing http data r p ref1 ref2 :
  In p (indexed RStream ref1 ref2) -> Stream http data = Ok r ->
  is_ok (get_path p data) = true ->
  Stream http (remove_path p data) = Raise (KeyError (last p "")).
Proof.
  intros Hin H Hp. unfold Stream in *. missing_cases no_nesting Hin H Hp.
Qed.

Lemma ChannelInfo_missing http data r p ref1 ref2 :
  In p (indexed RChannelInfo ref1 ref2) -> ChannelInfo http data = Ok r ->
  is_ok (get_path p data) = true ->
  ChannelInfo http (remove_path p data) = Raise (KeyError (last p "")).
Proof.
  intros Hin H Hp. unfold ChannelInfo in *. missing_cases no_nesting Hin H Hp.
Qed.

Lemma PredictionOutcome_missing http data r p ref1 ref2 :
  In p (indexed RPredictionOutcome ref1 ref2) -> PredictionOutcome http data = Ok r ->
  is_ok (get_path p data) = true ->
  PredictionOutcome http (remove_path p data) = Raise (KeyError (last p "")).
Proof.
  intros Hin H Hp. unfold PredictionOutcome in *. missing_cases no_nesting Hin H Hp.
Qed.

Lemma Prediction_missing http data r p ref1 ref2 :
  In p (indexed RPrediction ref1 ref2) -> Prediction http data = Ok r ->
  is_ok (get_path p data) = true ->
  Prediction http (remove_path p data) = Raise (KeyError (last p "")).
Proof.
  intros Hin H Hp. unfold Prediction in *. missing_cases no_nesting Hin H Hp.
Qed.

Lemma Team_missing http data r p ref1 ref2 :
  In p (indexed RTeam ref1 ref2) -> Team http data = Ok r ->
  is_ok (get_path p data) = true ->
  Team http (remove_path p data) = Raise (KeyError (last p "")).
Proof.
  intros Hin H Hp. unfold Team in *. missing_cases no_nesting Hin H Hp.
Qed.

Lemma ChannelTeams_missing http data r p ref1 ref2 :
  In p (indexed RChannelTeams ref1 ref2) -> ChannelTeams http data = Ok r ->
  is_ok (get_path p data) = true ->
  ChannelTeams http (remove_path p data) = Raise (KeyError (last p "")).
Proof.
  intros Hin H Hp. unfold ChannelTeams in *. missing_cases no_nesting Hin H Hp.
Qed.

Ltac with_refs Hin :=
  unfold indexed, unless in Hin;
  repeat match type of Hin with
  | context [truthy ?x] => let T := fresh "T" in destruct (truthy x) eqn:T
  end.

Lemma ModEvent_missing http data r p ref1 ref2 :
  In p (indexed RModEvent ref1 ref2) -> ModEvent http data ref1 = Ok r ->
  is_ok (get_path p data) = true ->
  ModEvent http (remove_path p data) ref1 = Raise (KeyError (last p "")).
Proof.
  intros Hin H Hp. unfold ModEvent in *. missing_cases no_nesting Hin H Hp.
Qed.

Lemma BanEvent_missing http data r p ref1 ref2 :
  In p (indexed RBanEvent ref1 ref2) -> BanEvent http data ref1 = Ok r ->
  is_ok (get_path p data) = true ->
  BanEvent http (remove_path p data) ref1 = Raise (KeyError (last p "")).
Proof.
  intros Hin H Hp. with_refs Hin; unfold BanEvent in *; missing_cases no_nesting Hin H Hp.
Qed.

Lemma FollowEvent_missing http data r p ref1 ref2 :
  In p (indexed RFollowEvent ref1 ref2) -> FollowEvent http data ref1 ref2 = Ok r ->
  is_ok (get_path p data) = true ->
  FollowEvent http (remove_path p data) ref1 ref2 = Raise (KeyError (last p "")).
Proof.
  intros Hin H Hp. with_refs Hin; unfold FollowEvent in *; missing_cases no_nesting Hin H Hp.
Qed.

Lemma SubscriptionEvent_missing http data r p ref1 ref2 :
  In p (indexed RSubscriptionEvent ref1 ref2) ->
  SubscriptionEvent http data ref1 ref2 = Ok r ->
  is_ok (get_path p data) = true ->
  SubscriptionEvent http (remove_path p data) ref1 ref2 = Raise (KeyError (last p "")).
Proof.
  intros Hin H Hp. with_refs Hin; unfold SubscriptionEvent in *;
    missing_cases no_nesting Hin H Hp.
Qed.

Lemma Video_missing http data r p ref1 ref2 :
  In p (indexed RVideo ref1 ref2) -> Video http data ref1 = Ok r ->
  is_ok (get_path p data) = true ->
  Video http (remove_path p data) ref1 = Raise (KeyError (last p "")).
Proof.
  intros Hin H Hp. with_refs Hin; unfold Video in *; missing_cases no_nesting Hin H Hp.
Qed.

(** A nested mapping that is only used when it is true stays true without
    one of its two keys. *)
Lemma ScheduleCategory_keys d r :
  ScheduleCategory (VDict d) = Ok r -> lookup "id" d <> None /\ lookup "name" d <> None.
Proof.
  unfold ScheduleCategory, construct. cbv [exec item bind evaluated getitem].
  destruct (lookup "id" d); [|discriminate].
  destruct (lookup "name" d); [|discriminate]. split; discriminate.
Qed.

Lemma ScheduleVacation_keys d r :
  ScheduleVacation (VDict d) = Ok r ->
  lookup "start_time" d <> None /\ lookup "end_time" d <> None.
Proof.
  unfold ScheduleVacation, construct. cbv [exec item bind evaluated getitem call1].
  destruct (lookup "start_time" d); [|discriminate].
  destruct (parse_timestamp v); [|discriminate].
  destruct (lookup "end_time" d); [|discriminate]. split; discriminate.
Qed.

Lemma truthy_without k k' d :
  lookup k' d <> None -> String.eqb k' k = false -> truthy (VDict (remove_key k d)) = true.
Proof.
  intros H E. destruct (lookup k' d) as [v|] eqn:L; [|congruence].
  apply (truthy_dict_with k' _ v). rewrite lookup_remove_key, E. exact L.
Qed.

Lemma ScheduleCategory_missing_key d r k y :
  In [k] (indexed RScheduleCategory VNone VNone) ->
  ScheduleCategory (VDict d) = Ok r -> lookup k d = Some y ->
  truthy (VDict (remove_key k d)) = true
  /\ ScheduleCategory (VDict (remove_key k d)) = Raise (KeyError k).
Proof.
  intros Hin H Hk. split.
  - destruct (ScheduleCategory_keys d r H) as [K1 K2].
    cbn in Hin. destruct Hin as [[= <-]|[[= <-]|[]]].
    + apply (truthy_without "id" "name"); [exact K2 | reflexivity].
    + apply (truthy_without "name" "id"); [exact K1 | reflexivity].
  - apply (ScheduleCategory_missing (VDict d) r [k] VNone VNone Hin H).
    simpl. rewrite Hk. reflexivity.
Qed.

Lemma ScheduleVacation_missing_key d r k y :
  In [k] (indexed RScheduleVacation VNone VNone) ->
  ScheduleVacation (VDict d) = Ok r -> lookup k d = Some y ->
  truthy (VDict (remove_key k d)) = true
  /\ ScheduleVacation (VDict (remove_key k d)) = Raise (KeyError k).
Proof.
  intros Hin H Hk. split.
  - destruct (ScheduleVacation_keys d r H) as [K1 K2].
    cbn in Hin. destruct Hin as [[= <-]|[[= <-]|[]]].
    + apply (truthy_without "start_time" "end_time"); [exact K2 | reflexivity].
    + apply (truthy_without "end_time" "start_time"); [exact K1 | reflexivity].
  - apply (ScheduleVacation_missing (VDict d) r [k] VNone VNone Hin H).
    simpl. rewrite Hk. reflexivity.
Qed.

(* the conditional expression over a nested mapping that lost a key *)
Ltac into_conditional lem Hv :=
  match goal with
  | F : lookup ?k ?cd = Some _ |- context [truthy (VDict (remove_key ?k ?cd))] =>
      rewrite (truthy_dict_with _ _ _ F) in Hv;
      let T := fresh in let R := fresh in
      destruct (lem cd _ k _ ltac:(cbn; tauto) Hv F) as [T R];
      rewrite T; exact R
  end.

Lemma ScheduleSegment_missing data r p ref1 ref2 :
  In p (indexed RScheduleSegment ref1 ref2) -> ScheduleSegment data = Ok r ->
  is_ok (get_path p data) = true ->
  ScheduleSegment (remove_path p data) = Raise (KeyError (last p "")).
Proof.
  intros Hin H Hp. unfold ScheduleSegment in *.
  missing_cases ltac:(into_conditional ScheduleCategory_missing_key) Hin H Hp.
Qed.

Lemma Schedule_missing http data r p ref1 ref2 :
  In p (indexed RSchedule ref1 ref2) -> Schedule http data = Ok r ->
  is_ok (get_path p data) = true ->
  Schedule http (remove_path p data) = Raise (KeyError (last p "")).
Proof.
  intros Hin H Hp. unfold Schedule in *.
  missing_cases ltac:(into_conditional ScheduleVacation_missing_key) Hin H Hp.
Qed.

(** Every record type: a payload the constructor accepts is refused, with the
    key named, once a key the constructor subscripts is taken out. *)
Lemma missing_key_all rt http ref1 ref2 data r p :
  In p (indexed rt ref1 ref2) -> build rt http ref1 ref2 data = Ok r ->
  is_ok (get_path p data) = true ->
  build rt http ref1 ref2 (remove_path p data) = Raise (KeyError (last p "")).
Proof.
  intros Hin H Hp. destruct rt; cbn [build] in *;
    try (exfalso; exact (Predictor_raises _ _ _ H));
    eauto using BitsLeaderboard_missing, CheerEmoteTier_missing, CheerEmote_missing,
      Clip_missing, HypeTrainContribution_missing, HypeTrainEvent_missing, BanEvent_missing,
      FollowEvent_missing, SubscriptionEvent_missing, Marker_missing, VideoMarkers_missing,
      Game_missing, ModEvent_missing, AutomodCheckResponse_missing, Extension_missing,
      MaybeActiveExtension_missing, ActiveExtension_missing, Video_missing, Tag_missing,
      WebhookSubscription_missing, Stream_missing, ChannelInfo_missing,
      PredictionOutcome_missing, Prediction_missing, ScheduleCategory_missing,
      ScheduleVacation_missing, ScheduleSegment_missing, Schedule_missing, Team_missing,
      ChannelTeams_missing.
Qed.

(** *** An element of a nested list that is refused *)

Lemma mapM_replaced {A B} (f : A -> result B) pre x post x' e : forall ys,
  mapM f (pre ++ x :: post) = Ok ys -> f x' = Raise e ->
  mapM f (pre ++ x' :: post) = Raise e.
Proof.
  induction pre as [|y pre IH]; intros ys H Hx; simpl in *.
  - rewrite Hx. reflexivity.
  - destruct (f y); simpl in *; [|discriminate].
    destruct (mapM f (pre ++ x :: post)) as [ys'|]; simpl in *; [|discriminate].
    rewrite (IH ys' eq_refl Hx). reflexivity.
Qed.

(* what the list at the end of the path says about the payload *)
Ltac list_facts Hp :=
  cbv [get_path getitem bind] in Hp;
  repeat match type of Hp with
  | context [match lookup ?k ?d with _ => _ end] =>
      destruct (lookup k d) eqn:?; [|discriminate Hp]
  | context [match ?x with _ => _ end] =>
      is_var x; destruct x; try discriminate Hp
  end;
  injection Hp as Hp; subst.

(* the comprehension over the list whose element was replaced *)
Ltac in_list Hv :=
  cbn beta iota in Hv; cbn [iter] in Hv |- *;
  match type of Hv with
  | context [mapM ?f (?pre ++ ?x :: ?post)%list] =>
      let M := fresh "M" in
      destruct (mapM f (pre ++ x :: post)%list) eqn:M; [|discriminate Hv];
      erewrite mapM_replaced;
      [ reflexivity
      | exact M
      | match goal with Hf : _ = Raise _ |- _ => exact Hf end ]
  end.

(** X5.  One element of a nested list replaced by a value its constructor
    refuses: the enclosing constructor raises that very exception, and no
    record with a shorter list is returned. *)
Theorem element_error_propagates rt http ref1 ref2 data r p a f pre x post x' e :
  In (p, a, f) (list_attributes rt http) ->
  build rt http ref1 ref2 data = Ok r ->
  get_path p data = Ok (VList (pre ++ x :: post)) ->
  f x' = Raise e ->
  build rt http ref1 ref2 (set_path p (VList (pre ++ x' :: post)) data) = Raise e.
Proof.
  intros Hin H Hp Hf.
  destruct rt; simpl in Hin; try contradiction;
    destruct Hin as [[= <- <- <-]|[]];
    cbn [build] in *;
    unfold BitsLeaderboard, CheerEmote, HypeTrainEvent, VideoMarkers, Prediction, Schedule,
      Team in *;
    list_facts Hp;
    cbn [set_path]; use_facts; cbn [set_path];
    (eapply construct_diverge; [exact H|]); clear H;
    diverge_with in_list.
Qed.

End Missing.

(** ** Timestamps of a prediction (C1) *)

Lemma split_on_prefix base frac :
  find "." base = None -> hd "" (split_on "." (base ++ "." ++ frac)) = base.
Proof.
  unfold find. generalize 0%nat.
  induction base as [|c base IH]; intros n H; simpl in *.
  - reflexivity.
  - destruct (Ascii.eqb c "."); [discriminate|].
    specialize (IH _ H).
    destruct (split_on "." (base ++ String "." frac)); simpl in *; subst; reflexivity.
Qed.

Section Timestamps.

Context {imports : Imports}.

Lemma parse_time_of_string d field s :
  lookup field d = Some (VStr s) ->
  _parse_time (VDict d) field = fromisoformat_str zulu (hd "" (split_on "." s)).
Proof.
  intros H. unfold _parse_time, has_key, split_first, item, getitem. simpl.
  rewrite H. reflexivity.
Qed.

(** C1 (as amended).  [Prediction._parse_time] yields [None] for a field
    that is absent or null; otherwise it hands the text before the first "."
    to [fromisoformat], so a timestamp with a fractional part parses as its
    prefix at second resolution does, whatever follows the fraction:
    "2021-05-01T12:00:00.123456Z" and "2021-05-01T12:00:00" give the same
    naive value.  A ban event whose [expires_at] is there and false (null,
    empty) gets [None] for its expiry. *)
Theorem parse_time_normalization d field :
  (lookup field d = None \/ lookup field d = Some VNone ->
   _parse_time (VDict d) field = Ok VNone)
  /\ (forall base frac,
        find "." base = None -> lookup field d = Some (VStr (base ++ "." ++ frac)) ->
        _parse_time (VDict d) field = fromisoformat_str zulu base)
  /\ (forall s,
        find "." s = None -> lookup field d = Some (VStr s) ->
        _parse_time (VDict d) field = fromisoformat_str zulu s)
  /\ _parse_time (VDict [(field, VStr "2021-05-01T12:00:00.123456Z")]) field
     = Ok (VDatetime (mkdatetime 2021 5 1 12 0 0 0 None))
  /\ _parse_time (VDict [(field, VStr "2021-05-01T12:00:00")]) field
     = Ok (VDatetime (mkdatetime 2021 5 1 12 0 0 0 None))
  /\ (forall http data broadcaster,
        wf_BanEvent http data broadcaster = true ->
        vacant data.["event_data"].["expires_at"] = true ->
        exists r, BanEvent http data broadcaster = Ok r /\ getattr r "expires_at" = Ok VNone).
Proof.
  repeat split.
  - intros [H|H]; unfold _parse_time, has_key; rewrite H; reflexivity.
  - intros base frac Hb H. rewrite (parse_time_of_string _ _ _ H).
    rewrite split_on_prefix by exact Hb. reflexivity.
  - intros s Hs H. rewrite (parse_time_of_string _ _ _ H). f_equal.
    clear H. revert Hs. unfold find. generalize 0%nat.
    induction s as [|c s IH]; intros n Hs; [reflexivity|].
    simpl in *. destruct (Ascii.eqb c "."); [discriminate|].
    specialize (IH _ Hs). destruct (split_on "." s); simpl in *; subst; reflexivity.
  - rewrite (parse_time_of_string _ field "2021-05-01T12:00:00.123456Z").
    + destruct zulu; reflexivity.
    + simpl. rewrite String.eqb_refl. reflexivity.
  - rewrite (parse_time_of_string _ field "2021-05-01T12:00:00").
    + destruct zulu; reflexivity.
    + simpl. rewrite String.eqb_refl. reflexivity.
  - intros http data broadcaster Hwf Hv.
    destruct (BanEvent_ok _ _ _ Hwf) as [r Hr]. exists r. split; [exact Hr|].
    eapply construct_getattr; [exact Hr | reflexivity |].
    apply vacant_if_else. exact Hv.
Qed.

End Timestamps.

(** C1 (counterexample).  Without a fractional part the zone marker stays in
    the text handed to [fromisoformat]: "2021-05-01T12:00:00Z" is refused
    before CPython 3.11 and read as an aware UTC value from 3.11 on, while
    "2021-05-01T12:00:00.123456Z" gives the naive value of its prefix.  And a
    ban event payload without the key [expires_at] is refused. *)
Lemma parse_time_keeps_zone_marker :
  (@_parse_time sample_imports
     (VDict [("locked_at", VStr "2021-05-01T12:00:00Z")]) "locked_at"
   = Raise ValueError
   /\ @_parse_time sample_imports
        (VDict [("locked_at", VStr "2021-05-01T12:00:00.123456Z")]) "locked_at"
      = Ok (VDatetime (mkdatetime 2021 5 1 12 0 0 0 None)))
  /\ (@_parse_time sample_imports_311
        (VDict [("locked_at", VStr "2021-05-01T12:00:00Z")]) "locked_at"
      = Ok (VDatetime (mkdatetime 2021 5 1 12 0 0 0 (Some 0)))
      /\ @_parse_time sample_imports_311
           (VDict [("locked_at", VStr "2021-05-01T12:00:00.123456Z")]) "locked_at"
         = Ok (VDatetime (mkdatetime 2021 5 1 12 0 0 0 None)))
  /\ @BanEvent sample_imports sample_http (ban_payload []) VNone
     = Raise (KeyError "expires_at").
Proof. repeat split; vm_compute; reflexivity. Qed.

(** The amended C1 on a prediction whose lock time is null and on a ban
    event whose expiry is null. *)
Lemma parse_time_normalization_witness :
  @_parse_time sample_imports (VDict [("locked_at", VNone)]) "locked_at" = Ok VNone
  /\ exists r,
       @BanEvent sample_imports sample_http (ban_payload [("expires_at", VNone)]) VNone = Ok r
       /\ getattr r "expires_at" = Ok VNone.
Proof.
  split.
  - apply (proj1 (@parse_time_normalization sample_imports [("locked_at", VNone)] "locked_at")).
    right. reflexivity.
  - apply (proj2 (proj2 (proj2 (proj2 (proj2
             (@parse_time_normalization sample_imports [] "locked_at")))))).
    + reflexivity.
    + reflexivity.
Defined.

(** ** Extension records and their serialization (C2) *)

(** C2 (counterexample).  The coordinates of the payload are not in the
    serialized record. *)
Lemma extension_coordinates_dropped :
  dict_get extension_payload "x" = Ok (VInt 10)
  /\ dict_get extension_payload "y" = Ok (VInt 20)
  /\ (e <- Extension extension_payload ;; Extension_to_dict e)
     = Ok (VDict [("active", VBool true); ("id", VStr "rh6jq1q334hqc2rr1qlzqbvwlfl3x0");
                  ("version", VStr "1.1.0")]).
Proof. repeat split. Qed.

(** C2 (as amended).  The record built from a payload serializes to the
    payload's [active], [id] and [version], unchanged, and to nothing else:
    the constructor does not read coordinates.  A record made by
    [Extension.new] serializes its coordinates, each when it is not [None]. *)
Theorem extension_roundtrip (data : value) i v a :
  data.["id"] = Ok i -> data.["version"] = Ok v -> data.["active"] = Ok a ->
  (exists e, Extension data = Ok e
             /\ Extension_to_dict e = Ok (VDict [("active", a); ("id", i); ("version", v)]))
  /\ (forall x y,
        exists e, Extension_new a v i x y = Ok e
                  /\ Extension_to_dict e
                     = Ok (VDict ([("active", a); ("id", i); ("version", v)] ++ coordinates x y))).
Proof.
  intros Hi Hv Ha. split.
  - unfold Extension, construct. exec_steps. eexists. split; reflexivity.
  - intros x y. unfold Extension_new, construct. exec_steps. eexists. split; [reflexivity|].
    unfold coordinates. destruct x, y; reflexivity.
Qed.

Lemma extension_roundtrip_witness :
  (exists e, Extension extension_payload = Ok e
             /\ Extension_to_dict e
                = Ok (VDict [("active", VBool true);
                             ("id", VStr "rh6jq1q334hqc2rr1qlzqbvwlfl3x0");
                             ("version", VStr "1.1.0")])).
Proof.
  apply (proj1 (extension_roundtrip extension_payload _ _ _ eq_refl eq_refl eq_refl)).
Defined.

(** ** User references (C3) *)

Section References.

Context {imports : Imports}.

Lemma py_or_object cls attrs e : py_or (VObj cls attrs) e = Ok (VObj cls attrs).
Proof. reflexivity. Qed.

(** The placeholder of a reference whose caller supplied nothing. *)
Lemma placeholder_parts http (data : value) idp namep e_id e_name :
  get_path idp data = e_id -> get_path namep data = e_name ->
  user_ok http VNone e_id e_name = true ->
  exists i n p,
    get_path idp data = Ok i /\ get_path namep data = Ok n /\ PartialUser http i n = Ok p
    /\ py_or VNone (call2 (PartialUser http) e_id e_name) = Ok p.
Proof.
  intros Hi Hn H. unfold user_ok in H. apply is_ok_inv in H. destruct H as [p Hp].
  pose proof Hp as Hc. change (call2 (PartialUser http) e_id e_name = Ok p) in Hc.
  apply call2_inv in Hc. destruct Hc as [i [n [E1 [E2 E3]]]].
  exists i, n, p. rewrite Hi, Hn. auto.
Qed.

(** C3.  For each user reference of [FollowEvent] ([from_user], [to_user]),
    [SubscriptionEvent] ([broadcaster], [user]), [BanEvent] ([broadcaster])
    and [Video] ([user]): on a well-formed payload the record is built; when
    the caller supplies a user object the attribute is that very object, and
    when it supplies [None] the attribute is [PartialUser(http, id, name)]
    for the id and the name found in the payload.  The constructor is a pure
    function of its arguments: the handle is only passed on to
    [PartialUser]. *)
Theorem reference_supplied_or_placeholder rt attr first idp namep http ref1 ref2 data :
  In (attr, first, idp, namep) (references rt) ->
  wf rt http ref1 ref2 data = true ->
  exists r,
    build rt http ref1 ref2 data = Ok r
    /\ ((exists cls attrs, chosen first ref1 ref2 = VObj cls attrs) ->
        getattr r attr = Ok (chosen first ref1 ref2))
    /\ (chosen first ref1 ref2 = VNone ->
        exists i n p,
          get_path idp data = Ok i /\ get_path namep data = Ok n
          /\ PartialUser http i n = Ok p /\ getattr r attr = Ok p).
Proof.
  intros Hin Hwf.
  destruct rt; simpl in Hin; try contradiction;
    repeat (destruct Hin as [[= <- <- <- <-]|Hin]; [|try contradiction]);
    cbn [wf build chosen] in *.
  - (* BanEvent.broadcaster *)
    destruct (BanEvent_ok _ _ _ Hwf) as [r Hr]. exists r. split; [exact Hr|].
    unfold wf_BanEvent in Hwf. split_and. split.
    + intros [cls [attrs ->]].
      eapply construct_getattr; [exact Hr | reflexivity | apply py_or_object].
    + intros ->.
      destruct (placeholder_parts http data ["event_data"; "broadcaster_id"]
                  ["event_data"; "broadcaster_name"] _ _
                  (get_path_2 _ _ _) (get_path_2 _ _ _) ltac:(assumption))
        as [i [n [p [E1 [E2 [E3 E4]]]]]].
      exists i, n, p. repeat split; try assumption.
      eapply construct_getattr; [exact Hr | reflexivity | exact E4].
  - (* FollowEvent.from_user *)
    destruct (FollowEvent_ok _ _ _ _ Hwf) as [r Hr]. exists r. split; [exact Hr|].
    unfold wf_FollowEvent in Hwf. split_and. split.
    + intros [cls [attrs ->]].
      eapply construct_getattr; [exact Hr | reflexivity | apply py_or_object].
    + intros ->.
      destruct (placeholder_parts http data ["from_id"] ["from_name"] _ _
                  (get_path_1 _ _) (get_path_1 _ _) ltac:(assumption))
        as [i [n [p [E1 [E2 [E3 E4]]]]]].
      exists i, n, p. repeat split; try assumption.
      eapply construct_getattr; [exact Hr | reflexivity | exact E4].
  - (* FollowEvent.to_user *)
    destruct (FollowEvent_ok _ _ _ _ Hwf) as [r Hr]. exists r. split; [exact Hr|].
    unfold wf_FollowEvent in Hwf. split_and. split.
    + intros [cls [attrs ->]].
      eapply construct_getattr; [exact Hr | reflexivity | apply py_or_object].
    + intros ->.
      destruct (placeholder_parts http data ["to_id"] ["to_name"] _ _
                  (get_path_1 _ _) (get_path_1 _ _) ltac:(assumption))
        as [i [n [p [E1 [E2 [E3 E4]]]]]].
      exists i, n, p. repeat split; try assumption.
      eapply construct_getattr; [exact Hr | reflexivity | exact E4].
  - (* SubscriptionEvent.broadcaster *)
    destruct (SubscriptionEvent_ok _ _ _ _ Hwf) as [r Hr]. exists r. split; [exact Hr|].
    unfold wf_SubscriptionEvent in Hwf. split_and. split.
    + intros [cls [attrs ->]].
      eapply construct_getattr; [exact Hr | reflexivity | apply py_or_object].
    + intros ->.
      destruct (placeholder_parts http data ["broadcaster_id"] ["broadcaster_name"] _ _
                  (get_path_1 _ _) (get_path_1 _ _) ltac:(assumption))
        as [i [n [p [E1 [E2 [E3 E4]]]]]].
      exists i, n, p. repeat split; try assumption.
      eapply construct_getattr; [exact Hr | reflexivity | exact E4].
  - (* SubscriptionEvent.user *)
    destruct (SubscriptionEvent_ok _ _ _ _ Hwf) as [r Hr]. exists r. split; [exact Hr|].
    unfold wf_SubscriptionEvent in Hwf. split_and. split.
    + intros [cls [attrs ->]].
      eapply construct_getattr; [exact Hr | reflexivity | apply py_or_object].
    + intros ->.
      destruct (placeholder_parts http data ["user_id"] ["user_name"] _ _
                  (get_path_1 _ _) (get_path_1 _ _) ltac:(assumption))
        as [i [n [p [E1 [E2 [E3 E4]]]]]].
      exists i, n, p. repeat split; try assumption.
      eapply construct_getattr; [exact Hr | reflexivity | exact E4].
  - (* Video.user *)
    destruct (Video_ok _ _ _ Hwf) as [r Hr]. exists r. split; [exact Hr|].
    unfold wf_Video in Hwf. split_and. split.
    + intros [cls [attrs ->]].
      eapply construct_getattr; [exact Hr | reflexivity | apply py_or_object].
    + intros ->.
      destruct (placeholder_parts http data ["user_id"] ["user_name"] _ _
                  (get_path_1 _ _) (get_path_1 _ _) ltac:(assumption))
        as [i [n [p [E1 [E2 [E3 E4]]]]]].
      exists i, n, p. repeat split; try assumption.
      eapply construct_getattr; [exact Hr | reflexivity | exact E4].
Qed.

End References.

(** C3 on a follow event whose follower the caller supplies and whose
    followed user it does not. *)
Lemma reference_supplied_or_placeholder_witness :
  (exists r,
     @FollowEvent sample_imports sample_http follow_payload sample_user VNone = Ok r
     /\ getattr r "from_user" = Ok sample_user)
  /\ (exists r p,
        @FollowEvent sample_imports sample_http follow_payload sample_user VNone = Ok r
        /\ sample_PartialUser sample_http (VStr "23161357") (VStr "streamer") = Ok p
        /\ getattr r "to_user" = Ok p).
Proof.
  split.
  - destruct (@reference_supplied_or_placeholder sample_imports RFollowEvent "from_user" true
                ["from_id"] ["from_name"] sample_http sample_user VNone follow_payload
                (or_introl eq_refl) eq_refl) as [r [Hr [Hs _]]].
    exists r. split; [exact Hr|]. apply Hs. eexists. eexists. reflexivity.
  - destruct (@reference_supplied_or_placeholder sample_imports RFollowEvent "to_user" false
                ["to_id"] ["to_name"] sample_http sample_user VNone follow_payload
                (or_intror (or_introl eq_refl)) eq_refl) as [r [Hr [_ Hn]]].
    destruct (Hn eq_refl) as [i [n [p [Hi [Hname [Hp Hg]]]]]].
    exists r, p. split; [exact Hr|]. split; [|exact Hg].
    injection Hi as <-. injection Hname as <-. exact Hp.
Defined.

(** ** Required and optional fields (C4, C5) *)

Section Fields.

Context {imports : Imports}.

(** C4 (as amended).  For every record type other than [Predictor], the
    constructor accepts every payload that holds each key it subscripts, with
    values its conversions accept (for the tier of a subscription, a number
    below 2^53 in magnitude); in the record, an attribute read
    defensively is [None] when its key is absent or null, and an attribute
    assigned conditionally is [None] when its key, which must be there, holds
    a false value (null, empty). *)
Theorem required_fields_suffice rt http ref1 ref2 data :
  rt <> RPredictor ->
  wf rt http ref1 ref2 data = true ->
  exists r,
    build rt http ref1 ref2 data = Ok r
    /\ forall s a, In (s, a) (optional rt) -> omitted s data = true -> getattr r a = Ok VNone.
Proof.
  intros Hrt Hwf. destruct (build_ok_all rt http ref1 ref2 data Hrt Hwf) as [r Hr].
  exists r. split; [exact Hr|]. exact (optional_attributes rt http ref1 ref2 data r Hr).
Qed.

(** C5 (as amended).  For every record type and every key its constructor
    subscripts (the inline identity of a user only when the caller supplies
    no entity): take that key out of a payload the constructor accepts, and
    the constructor raises [KeyError] with that key; no record is returned.
    ([Predictor] accepts no payload.) *)
Theorem missing_required_key rt http ref1 ref2 data r p :
  In p (indexed rt ref1 ref2) ->
  build rt http ref1 ref2 data = Ok r ->
  is_ok (get_path p data) = true ->
  build rt http ref1 ref2 (remove_path p data) = Raise (KeyError (last p "")).
Proof. exact (missing_key_all rt http ref1 ref2 data r p). Qed.

End Fields.

(** C4 (counterexample).  [expires_at], documented as optional, is
    subscripted directly: a ban event payload with every other field and no
    [expires_at] is refused.  (A predictor payload with all three of its
    fields is refused as well, by the slots of [Predictor].) *)
Lemma ban_event_needs_expires_at :
  @wf_BanEvent sample_imports sample_http (ban_payload [("expires_at", VNone)]) VNone = true
  /\ @BanEvent sample_imports sample_http (ban_payload []) VNone
     = Raise (KeyError "expires_at")
  /\ @Predictor sample_imports sample_http predictor_payload
     = Raise (AttributeError "channel_points_used").
Proof. repeat split; vm_compute; reflexivity. Qed.

(** The amended C4 on a marker payload without [URL]. *)
Lemma required_fields_suffice_witness :
  exists r,
    @Marker sample_imports marker_payload = Ok r
    /\ forall s a, In (s, a) (optional RMarker) -> omitted s marker_payload = true ->
                   getattr r a = Ok VNone.
Proof.
  apply (@required_fields_suffice sample_imports RMarker sample_http VNone VNone marker_payload).
  - discriminate.
  - reflexivity.
Defined.

(** C5 (counterexample).  With the follower supplied by the caller, a follow
    payload without [from_id] and [from_name] is accepted.  (A predictor
    payload without [channel_points_won] is refused with [AttributeError], by
    the slots of [Predictor].) *)
Lemma follow_event_without_from_id :
  @FollowEvent sample_imports sample_http follow_payload_without_from sample_user VNone
  = Ok (VObj "FollowEvent"
          [("from_user", sample_user);
           ("to_user",
            VObj "PartialUser"
              [("id", VInt 23161357); ("name", VStr "streamer"); ("_http", sample_http)]);
           ("followed_at", VDatetime (mkdatetime 2021 5 1 12 0 0 0 (Some 0)))])
  /\ @Predictor sample_imports sample_http (remove_path ["channel_points_won"] predictor_payload)
     = Raise (AttributeError "channel_points_used").
Proof. split; vm_compute; reflexivity. Qed.

(** The amended C5 on a follow payload, with no entity supplied, that loses
    [from_id]. *)
Lemma missing_required_key_witness :
  @FollowEvent sample_imports sample_http (remove_path ["from_id"] follow_payload) VNone VNone
  = Raise (KeyError "from_id").
Proof.
  destruct (@FollowEvent sample_imports sample_http follow_payload VNone VNone) as [r|e] eqn:E.
  - apply (@missing_required_key sample_imports RFollowEvent sample_http VNone VNone
             follow_payload r ["from_id"]).
    + simpl. auto.
    + exact E.
    + reflexivity.
  - vm_compute in E. discriminate E.
Defined.

(** ** Subscription tiers (C6) *)

Section Tiers.

Context {imports : Imports}.

(** C6.  On a well-formed subscription payload, whose tier is a number below
    2^53 in magnitude, the record is built and its [tier] is the payload's
    tier, read as an integer, divided by 1000 and rounded: the integer [t]
    nearest to a thousandth of the number, the even one when the number lies
    half-way between two; so a whole number of thousands gives that number,
    1000 gives 1, 2000 gives 2 and 3000 gives 3. *)
Theorem subscription_tier_decoding http (data : value) broadcaster user v n :
  wf_SubscriptionEvent http data broadcaster user = true ->
  data.["tier"] = Ok v -> py_int v = Ok (VInt n) ->
  Z.abs n < 2 ^ 53 ->
  exists r t,
    SubscriptionEvent http data broadcaster user = Ok r
    /\ getattr r "tier" = Ok (VInt t)
    /\ 2 * Z.abs (n - 1000 * t) <= 1000
    /\ (2 * Z.abs (n - 1000 * t) = 1000 -> Z.even t = true)
    /\ (forall k, n = 1000 * k -> t = k)
    /\ (n = 1000 -> t = 1) /\ (n = 2000 -> t = 2) /\ (n = 3000 -> t = 3).
Proof.
  intros Hwf Hv Hn Hb. destruct (SubscriptionEvent_ok _ _ _ _ Hwf) as [r Hr].
  exists r, (round_div n 1000).
  destruct (round_div_spec n 1000 ltac:(lia)) as [S1 S2].
  assert (forall k, n = 1000 * k -> round_div n 1000 = k) as K.
  { intros k ->. apply round_div_unique; lia. }
  repeat split.
  - exact Hr.
  - eapply construct_getattr; [exact Hr | reflexivity |].
    exact (decode_tier_small _ v n Hv Hn Hb).
  - lia.
  - intros E. apply S2. lia.
  - exact K.
  - intros E. apply K. lia.
  - intros E. apply K. lia.
  - intros E. apply K. lia.
Qed.

End Tiers.

(** C6 on a subscription whose tier is the text "2000". *)
Lemma subscription_tier_decoding_witness :
  exists r t,
    @SubscriptionEvent sample_imports sample_http subscription_payload VNone VNone = Ok r
    /\ getattr r "tier" = Ok (VInt t)
    /\ t = 2.
Proof.
  destruct (@subscription_tier_decoding sample_imports sample_http subscription_payload
              VNone VNone (VStr "2000") 2000 eq_refl eq_refl eq_refl eq_refl)
    as [r [t [Hr [Ht [_ [_ [_ [_ [H2 _]]]]]]]]].
  exists r, t. repeat split; [exact Hr | exact Ht | exact (H2 eq_refl)].
Defined.

(** ** The extension builder (C7) *)

Lemma str_of_Z_inj a b : str_of_Z a = str_of_Z b -> a = b.
Proof.
  unfold str_of_Z. intros H. apply DecimalZ.to_int_inj.
  assert (Some (Z.to_int a) = Some (Z.to_int b)) as E.
  { rewrite <- (NilEmpty.isi (Z.to_int a)), <- (NilEmpty.isi (Z.to_int b)), H. reflexivity. }
  injection E as E. exact E.
Qed.

Section Builder.

Context {imports : Imports}.

Lemma keyed_by_index_spec ys : forall ds i acc,
  mapM method_to_dict ys = Ok ds ->
  (forall j, i <= j -> lookup (str_of_Z j) acc = None) ->
  keyed_by_index i ys acc = Ok (acc ++ keyed i ds)%list.
Proof.
  induction ys as [|y ys IH]; intros ds i acc H Hacc; simpl in *.
  - injection H as <-. simpl. rewrite app_nil_r. reflexivity.
  - destruct (method_to_dict y) as [d|]; simpl in *; [|discriminate].
    destruct (mapM method_to_dict ys) as [ds'|]; simpl in *; [|discriminate].
    injection H as <-.
    rewrite (store_fresh _ _ _ (Hacc i (Z.le_refl i))).
    rewrite (IH ds' (i + 1) (acc ++ [(str_of_Z i, d)])%list eq_refl).
    + rewrite <- app_assoc. reflexivity.
    + intros j Hj. rewrite lookup_app_none by (apply Hacc; lia).
      simpl. destruct (String.eqb (str_of_Z j) (str_of_Z i)) eqn:E; [|reflexivity].
      apply String.eqb_eq, str_of_Z_inj in E. lia.
Qed.

Lemma enumerate_to_dict_spec ys ds :
  mapM method_to_dict ys = Ok ds ->
  enumerate_to_dict (py_or (VList ys) (VList [])) = Ok (VDict (keyed 0 ds)).
Proof.
  intros H. unfold enumerate_to_dict.
  assert (py_or (VList ys) (VList []) = Ok (VList ys)) as ->.
  { destruct ys; reflexivity. }
  simpl. rewrite (keyed_by_index_spec ys ds 0 [] H) by reflexivity. reflexivity.
Qed.

(** C7.  A builder over panels, overlays and components that all serialize
    flattens to the three mappings [panel], [overlay] and [component], each
    sequence keyed by the decimal string of each element's position, in
    order; with two panels, one overlay and no component the panel mapping
    has the keys "0" and "1", the overlay mapping the key "0", and the
    component mapping is empty. *)
Theorem extension_builder_flattening ps os cs dps dos dcs :
  mapM method_to_dict ps = Ok dps ->
  mapM method_to_dict os = Ok dos ->
  mapM method_to_dict cs = Ok dcs ->
  exists b,
    ExtensionBuilder (VList ps) (VList os) (VList cs) = Ok b
    /\ ExtensionBuilder_to_dict b
       = Ok (VDict [("panel", VDict (keyed 0 dps)); ("overlay", VDict (keyed 0 dos));
                    ("component", VDict (keyed 0 dcs))])
    /\ (forall p0 p1 o0,
          dps = [p0; p1] -> dos = [o0] -> dcs = [] ->
          ExtensionBuilder_to_dict b
          = Ok (VDict [("panel", VDict [("0", p0); ("1", p1)]);
                       ("overlay", VDict [("0", o0)]);
                       ("component", VDict [])])).
Proof.
  intros Hp Ho Hc.
  destruct (is_ok_inv (py_or (VList ps) (VList []))) as [vp Ep]; [destruct ps; reflexivity|].
  destruct (is_ok_inv (py_or (VList os) (VList []))) as [vo Eo]; [destruct os; reflexivity|].
  destruct (is_ok_inv (py_or (VList cs) (VList []))) as [vc Ec]; [destruct cs; reflexivity|].
  assert (ExtensionBuilder_to_dict
            (VObj "ExtensionBuilder" [("panels", vp); ("overlays", vo); ("components", vc)])
          = Ok (VDict [("panel", VDict (keyed 0 dps)); ("overlay", VDict (keyed 0 dos));
                       ("component", VDict (keyed 0 dcs))])) as Hd.
  { unfold ExtensionBuilder_to_dict. cbn [getattr lookup String.eqb Ascii.eqb Bool.eqb].
    change (Ok vp) with (evaluated vp). unfold evaluated.
    rewrite <- Ep, <- Eo, <- Ec.
    rewrite (enumerate_to_dict_spec ps dps Hp), (enumerate_to_dict_spec os dos Ho),
      (enumerate_to_dict_spec cs dcs Hc). reflexivity. }
  eexists. split; [|split].
  - unfold ExtensionBuilder, construct. exec_steps. reflexivity.
  - exact Hd.
  - intros p0 p1 o0 -> -> ->. exact Hd.
Qed.

End Builder.

Lemma extension_builder_flattening_witness :
  exists b,
    ExtensionBuilder (VList sample_panels) (VList sample_overlays) (VList []) = Ok b
    /\ @ExtensionBuilder_to_dict sample_imports b
       = Ok (VDict
               [("panel",
                 VDict [("0", VDict [("active", VBool true); ("id", VStr "panel-a");
                                     ("version", VStr "1.0")]);
                        ("1", VDict [("active", VBool false); ("id", VStr "panel-b");
                                     ("version", VStr "2.0")])]);
                ("overlay",
                 VDict [("0", VDict [("active", VBool true); ("id", VStr "overlay-a");
                                     ("version", VStr "0.3")])]);
                ("component", VDict [])]).
Proof.
  destruct (@extension_builder_flattening sample_imports sample_panels sample_overlays []
              _ _ _ eq_refl eq_refl eq_refl) as [b [Hb [_ Hd]]].
  exists b. split; [exact Hb|]. exact (Hd _ _ _ eq_refl eq_refl eq_refl).
Defined.

(** ** Schedules (C8) *)

Section Schedules.

Context {imports : Imports}.

(** C8.  On a well-formed schedule payload with two segments, the first
    with a category that has an id and a name and the second with a null
    category, the schedule is built; its segments are the records of the two
    payload segments in the payload's order; the first has a category record
    with the payload's id and name, the second has [None]. *)
Theorem schedule_nested_categories http (data s1 s2 c : value) cid cname :
  wf_Schedule http data = true ->
  data.["data"].["segments"] = Ok (VList [s1; s2]) ->
  s1.["category"] = Ok c -> c.["id"] = Ok cid -> c.["name"] = Ok cname ->
  s2.["category"] = Ok VNone ->
  exists sched g1 g2,
    Schedule http data = Ok sched
    /\ getattr sched "segments" = Ok (VList [g1; g2])
    /\ ScheduleSegment s1 = Ok g1 /\ ScheduleSegment s2 = Ok g2
    /\ getattr g1 "category" = Ok (VObj "ScheduleCategory" [("id", cid); ("name", cname)])
    /\ getattr g2 "category" = Ok VNone.
Proof.
  intros Hwf Hseg Hc Hid Hname Hnull.
  destruct (Schedule_ok _ _ Hwf) as [sched Hs].
  unfold wf_Schedule in Hwf. split_and. rewrite Hseg in Hwf. simpl in Hwf. split_and.
  destruct (ScheduleSegment_ok s1) as [g1 Hg1]; [assumption|].
  destruct (ScheduleSegment_ok s2) as [g2 Hg2]; [assumption|].
  exists sched, g1, g2. repeat split; try assumption.
  - eapply construct_getattr; [exact Hs | reflexivity |].
    rewrite Hseg. unfold comprehension. simpl. rewrite Hg1, Hg2. reflexivity.
  - eapply construct_getattr; [exact Hg1 | reflexivity |].
    destruct (item_inv _ _ _ Hid) as [d [[= ->] Hd]].
    rewrite (truthy_if_else _ _ (VDict d) _ Hc (truthy_dict_with _ _ _ Hd)).
    rewrite Hc. unfold call1. simpl. unfold ScheduleCategory, construct. exec_steps.
    reflexivity.
  - eapply construct_getattr; [exact Hg2 | reflexivity |].
    apply vacant_if_else. rewrite Hnull. reflexivity.
Qed.

End Schedules.

Lemma schedule_nested_categories_witness :
  exists sched g1 g2,
    @Schedule sample_imports sample_http schedule_payload = Ok sched
    /\ getattr sched "segments" = Ok (VList [g1; g2])
    /\ @ScheduleSegment sample_imports
         (segment_payload "seg1"
            (VDict [("id", VStr "509670"); ("name", VStr "Science & Technology")])) = Ok g1
    /\ @ScheduleSegment sample_imports (segment_payload "seg2" VNone) = Ok g2
    /\ getattr g1 "category"
       = Ok (VObj "ScheduleCategory"
               [("id", VStr "509670"); ("name", VStr "Science & Technology")])
    /\ getattr g2 "category" = Ok VNone.
Proof.
  apply (@schedule_nested_categories sample_imports sample_http schedule_payload
           _ _ (VDict [("id", VStr "509670"); ("name", VStr "Science & Technology")]));
    reflexivity.
Defined.

(** ** Automod messages (C9) *)

Section Automod.

Context {imports : Imports}.


End Automod.


(** ** Top predictors of an outcome (C10) *)

Section Predictors.

Context {imports : Imports}.

(** Whatever is iterated, a comprehension raises when its element constructor
    always does, unless there is nothing to iterate. *)
Lemma comprehension_of_failing f c :
  (forall x r, f x <> Ok r) -> truthy c = true -> forall r, comprehension f c <> Ok r.
Proof.
  intros Hf Ht r. unfold comprehension. simpl.
  destruct c; simpl in *; try discriminate.
  - destruct s as [|a s]; [discriminate|]. simpl.
    destruct (f (VStr (String a ""))) eqn:E; [exfalso; exact (Hf _ _ E) | discriminate].
  - destruct l as [|x l]; [discriminate|]. simpl.
    destruct (f x) eqn:E; [exfalso; exact (Hf _ _ E) | discriminate].
  - destruct d as [|[k v] d]; [discriminate|]. simpl.
    destruct (f (VStr k)) eqn:E; [exfalso; exact (Hf _ _ E) | discriminate].
Qed.

(** An outcome whose list of top predictors is not empty is never built:
    the list is handed to [Predictor], and [Predictor] accepts nothing. *)
Lemma outcome_with_predictors_raises http (data c : value) :
  data.["top_predictors"] = Ok c -> truthy c = true ->
  forall r, PredictionOutcome http data <> Ok r.
Proof.
  intros Hc Ht r H. unfold PredictionOutcome, construct in H.
  destruct (exec PredictionOutcome_slots _ []) as [self|] eqn:E; [|discriminate].
  pose proof (exec_lookup _ _ _ _ "top_predictors" E) as L. cbn [rhs_of String.eqb
    Ascii.eqb Bool.eqb] in L.
  destruct L as [v [Hv _]].
  rewrite (truthy_if_else _ _ c _ Hc Ht) in Hv.
  rewrite Hc in Hv.
  exact (comprehension_of_failing (Predictor http) c (Predictor_raises http) Ht v Hv).
Qed.

(** The part of C10 the code keeps: a built outcome has [None] for its top
    predictors. *)
Lemma outcome_top_predictors_none http data r :
  PredictionOutcome http data = Ok r -> getattr r "top_predictors" = Ok VNone.
Proof.
  intros H.
  destruct (data.["top_predictors"]) as [c|e] eqn:Hc.
  - destruct (truthy c) eqn:Ht.
    + exfalso. exact (outcome_with_predictors_raises http data c Hc Ht r H).
    + eapply construct_getattr; [exact H | reflexivity |].
      apply vacant_if_else. rewrite Hc. simpl. rewrite Ht. reflexivity.
  - exfalso. unfold PredictionOutcome, construct in H.
    destruct (exec PredictionOutcome_slots _ []) as [self|] eqn:E; [|discriminate].
    pose proof (exec_lookup _ _ _ _ "top_predictors" E) as L.
    cbn [rhs_of String.eqb Ascii.eqb Bool.eqb] in L. destruct L as [v [Hv _]].
    unfold if_else in Hv. rewrite Hc in Hv. discriminate Hv.
Qed.

End Predictors.

(** C10 (the defect).  A well-formed predictor payload is refused by
    [Predictor], since [channel_points_used] is none of the class's slots,
    and so is an outcome payload with one top predictor; with a null or an
    empty list the outcome is built and its [top_predictors] is [None]. *)
Lemma outcome_with_one_predictor :
  @wf_Predictor sample_imports sample_http predictor_payload = true
  /\ @Predictor sample_imports sample_http predictor_payload
     = Raise (AttributeError "channel_points_used")
  /\ @PredictionOutcome sample_imports sample_http (outcome_payload (VList [predictor_payload]))
     = Raise (AttributeError "channel_points_used")
  /\ (r <- @PredictionOutcome sample_imports sample_http (outcome_payload (VList [])) ;;
      getattr r "top_predictors") = Ok VNone
  /\ (r <- @PredictionOutcome sample_imports sample_http (outcome_payload VNone) ;;
      getattr r "top_predictors") = Ok VNone.
Proof. repeat split; vm_compute; reflexivity. Qed.

(** ** The shape of a constructed record *)

Lemma lookup_none_keys a d : lookup a d = None <-> existsb (String.eqb a) (keys d) = false.
Proof.
  induction d as [|[k v] d IH]; simpl.
  - tauto.
  - destruct (String.eqb a k); simpl; [split; discriminate | exact IH].
Qed.

Lemma distinct_app_fresh l a rest :
  distinct (l ++ a :: rest) = true -> existsb (String.eqb a) l = false.
Proof.
  induction l as [|x l IH]; simpl; intros H.
  - reflexivity.
  - apply andb_prop in H. destruct H as [H1 H2].
    rewrite (IH H2), orb_false_r.
    apply negb_true_iff in H1. rewrite existsb_app in H1.
    apply orb_false_elim in H1. destruct H1 as [_ H1]. simpl in H1.
    apply orb_false_elim in H1. destruct H1 as [H1 _].
    rewrite String.eqb_sym. exact H1.
Qed.

(** Assignments to pairwise different attributes add them in order. *)
Lemma exec_keys slots body : forall self r,
  exec slots body self = Ok r -> distinct (keys self ++ map fst body) = true ->
  keys r = (keys self ++ map fst body)%list.
Proof.
  induction body as [|[a e] rest IH]; intros self r H D; simpl in *.
  - injection H as <-. rewrite app_nil_r. reflexivity.
  - destruct e as [v|]; simpl in H; [|discriminate].
    destruct (existsb (String.eqb a) slots); [|discriminate].
    pose proof (distinct_app_fresh _ _ _ D) as F. apply lookup_none_keys in F.
    rewrite (store_fresh _ _ _ F) in H.
    assert (keys (self ++ [(a, v)])%list = (keys self ++ [a])%list) as K.
    { unfold keys. rewrite map_app. reflexivity. }
    rewrite (IH _ _ H); rewrite K, <- app_assoc; [reflexivity | exact D].
Qed.

Lemma construct_keys cls slots body r :
  construct cls slots body = Ok r -> distinct (map fst body) = true ->
  exists attrs, r = VObj cls attrs /\ keys attrs = map fst body.
Proof.
  unfold construct. intros H D.
  destruct (exec slots body []) as [self|] eqn:E; simpl in H; [|discriminate].
  injection H as <-. exists self. split; [reflexivity|].
  exact (exec_keys _ _ _ _ E D).
Qed.

Lemma keys_getattr cls attrs a :
  In a (keys attrs) -> exists v, getattr (VObj cls attrs) a = Ok v.
Proof.
  intros H. simpl. destruct (lookup a attrs) eqn:L; [eauto|].
  apply lookup_none_keys in L. exfalso.
  assert (existsb (String.eqb a) (keys attrs) = true) as X; [|congruence].
  apply existsb_exists. exists a. split; [exact H | apply String.eqb_refl].
Qed.

Section Shape.

Context {imports : Imports}.

(** X1.  A constructed record is an instance of its class that holds
    exactly the attributes the constructor assigns, in the order of its
    statements, and each of them can be read: no record is left partly
    built. *)
Theorem record_attributes rt http ref1 ref2 data r :
  build rt http ref1 ref2 data = Ok r ->
  exists attrs,
    r = VObj (class_name rt) attrs /\ keys attrs = attributes rt
    /\ forall a, In a (attributes rt) -> exists v, getattr r a = Ok v.
Proof.
  intros H.
  assert (exists attrs, r = VObj (class_name rt) attrs /\ keys attrs = attributes rt) as X.
  { destruct rt; cbn [build] in H;
      exact (construct_keys _ _ _ _ H eq_refl). }
  destruct X as [attrs [-> K]]. exists attrs. repeat split; [exact K|].
  intros a Ha. apply keys_getattr. rewrite K. exact Ha.
Qed.

End Shape.

(** X1 on a marker payload. *)
Lemma record_attributes_witness :
  exists r attrs,
    @Marker sample_imports marker_payload = Ok r
    /\ r = VObj "Marker" attrs
    /\ keys attrs = ["id"; "created_at"; "description"; "position"; "url"].
Proof.
  destruct (@Marker sample_imports marker_payload) as [r|e] eqn:E.
  - destruct (@record_attributes sample_imports RMarker sample_http VNone VNone
                marker_payload r E) as [attrs [H1 [H2 _]]].
    exists r, attrs. auto.
  - vm_compute in E. discriminate E.
Defined.

(** ** Payloads that are refused at the first key *)

Section Refused.

Context {imports : Imports}.

(** X2.  Every constructor refuses a payload that is not a mapping with
    [TypeError]: the first subscription of the payload fails, whatever the
    caller supplies besides. *)
Theorem non_mapping_payload_refused rt http ref1 ref2 data :
  (forall d, data <> VDict d) -> build rt http ref1 ref2 data = Raise TypeError.
Proof.
  intros H.
  destruct data; try (exfalso; exact (H _ eq_refl)); clear H;
    destruct rt; cbn [build];
    unfold BanEvent, FollowEvent, SubscriptionEvent, Video, py_or;
    repeat match goal with
    | |- context [truthy ?x] => is_var x; destruct (truthy x)
    end;
    reflexivity.
Qed.

(** X3.  A mapping without the key the constructor reads first is refused
    with [KeyError] for that key, whatever else it holds; the empty mapping
    in particular. *)
Theorem first_key_missing rt http ref1 ref2 d :
  lookup (first_key rt ref1 ref2) d = None ->
  build rt http ref1 ref2 (VDict d) = Raise (KeyError (first_key rt ref1 ref2)).
Proof.
  destruct rt; cbn [build first_key];
    unfold BanEvent, FollowEvent, SubscriptionEvent, Video, py_or;
    repeat match goal with
    | |- context [truthy ?x] => is_var x; destruct (truthy x)
    end;
    intros H;
    unfold BitsLeaderboard, CheerEmoteTier, CheerEmote, Clip, HypeTrainContribution,
      HypeTrainEvent, Marker, VideoMarkers, Game, ModEvent, AutomodCheckResponse, Extension,
      MaybeActiveExtension, ActiveExtension, Tag, WebhookSubscription, Stream, ChannelInfo,
      Prediction, Predictor, PredictionOutcome, Schedule, ScheduleSegment, ScheduleCategory,
      ScheduleVacation, Team, ChannelTeams, construct;
    cbn [exec existsb String.eqb Ascii.eqb Bool.eqb orb];
    cbv [item call1 call2 bind evaluated getitem fromisoformat comprehension decode_tier];
    rewrite H; reflexivity.
Qed.

End Refused.

(** X2 on a follow event whose payload is a list. *)
Lemma non_mapping_payload_refused_witness :
  @FollowEvent sample_imports sample_http (VList [follow_payload]) sample_user VNone
  = Raise TypeError.
Proof.
  apply (@non_mapping_payload_refused sample_imports RFollowEvent sample_http sample_user VNone
           (VList [follow_payload])).
  discriminate.
Defined.

(** X3 on the empty mapping handed to [Clip]. *)
Lemma first_key_missing_witness :
  @Clip sample_imports sample_http (VDict []) = Raise (KeyError "id").
Proof.
  apply (@first_key_missing sample_imports RClip sample_http VNone VNone []). reflexivity.
Defined.

(** ** Lists of nested records *)

Lemma mapM_Forall2 {A B} (f : A -> result B) l : forall ys,
  mapM f l = Ok ys -> Forall2 (fun x y => f x = Ok y) l ys.
Proof.
  induction l as [|x l IH]; simpl; intros ys H.
  - injection H as <-. constructor.
  - destruct (f x) as [y|] eqn:E; simpl in H; [|discriminate].
    destruct (mapM f l) as [ys'|]; simpl in H; [|discriminate].
    injection H as <-. constructor; auto.
Qed.

Lemma comprehension_list f xs v :
  comprehension f (Ok (VList xs)) = Ok v -> exists ys, v = VList ys /\ mapM f xs = Ok ys.
Proof.
  unfold comprehension. simpl. destruct (mapM f xs) as [ys|]; simpl; [|discriminate].
  intros [= <-]. eauto.
Qed.

Section Lists.

Context {imports : Imports}.

(** X4.  Where a constructor builds a list of nested records from a list of
    the payload, the attribute holds one record per payload element, in the
    payload's order, each the result of the element's constructor. *)
Theorem list_attribute_in_order rt http ref1 ref2 data r p a f xs :
  In (p, a, f) (list_attributes rt http) ->
  build rt http ref1 ref2 data = Ok r ->
  get_path p data = Ok (VList xs) ->
  exists ys,
    getattr r a = Ok (VList ys)
    /\ Forall2 (fun x y => f x = Ok y) xs ys
    /\ List.length ys = List.length xs.
Proof.
  intros Hin H Hp.
  assert (exists v, comprehension f (Ok (VList xs)) = Ok v /\ getattr r a = Ok v) as X.
  { destruct rt; simpl in Hin; try contradiction;
      destruct Hin as [[= <- <- <-]|[]];
      rewrite ?get_path_1, ?get_path_2 in Hp; cbn [build] in H;
      unfold BitsLeaderboard, CheerEmote, HypeTrainEvent, VideoMarkers, Prediction, Schedule,
        Team, construct in H;
      match type of H with
      | bind (exec ?slots ?body []) _ = _ =>
          destruct (exec slots body []) as [self|] eqn:E; simpl in H; [|discriminate];
          injection H as <-
      end;
      match goal with
      | |- exists v, _ /\ getattr _ ?a = _ =>
          pose proof (exec_lookup _ _ _ _ a E) as L;
          cbn [rhs_of String.eqb Ascii.eqb Bool.eqb] in L;
          destruct L as [v [L1 L2]]; exists v; rewrite Hp in L1;
          split; [exact L1 | simpl; rewrite L2; reflexivity]
      end. }
  destruct X as [v [Hv Hg]].
  destruct (comprehension_list _ _ _ Hv) as [ys [-> Hm]].
  exists ys.
  repeat split; [exact Hg | exact (mapM_Forall2 _ _ _ Hm) | exact (mapM_length _ _ _ Hm)].
Qed.

End Lists.

(** X4 on the two tiers of a cheer emote. *)
Lemma list_attribute_in_order_witness :
  exists r ys,
    @CheerEmote sample_imports sample_http cheer_emote_payload = Ok r
    /\ getattr r "tiers" = Ok (VList ys)
    /\ Forall2 (fun x y => CheerEmoteTier x = Ok y)
         [tier_payload [("min_bits", VInt 1)] "1"; tier_payload [("min_bits", VInt 100)] "100"]
         ys.
Proof.
  destruct (@CheerEmote sample_imports sample_http cheer_emote_payload) as [r|e] eqn:E.
  - destruct (@list_attribute_in_order sample_imports RCheerEmote sample_http VNone VNone
                cheer_emote_payload r ["tiers"] "tiers" CheerEmoteTier _
                (or_introl eq_refl) E eq_refl) as [ys [H1 [H2 _]]].
    exists r, ys. auto.
  - vm_compute in E. discriminate E.
Defined.

(** X5 on a cheer emote whose second tier has lost [min_bits]. *)
Lemma element_error_propagates_witness :
  @CheerEmote sample_imports sample_http
    (set_path ["tiers"]
       (VList [tier_payload [("min_bits", VInt 1)] "1"; tier_payload [] "100"])
       cheer_emote_payload)
  = Raise (KeyError "min_bits").
Proof.
  destruct (@CheerEmote sample_imports sample_http cheer_emote_payload) as [r|e] eqn:E.
  - apply (@element_error_propagates sample_imports RCheerEmote sample_http VNone VNone
             cheer_emote_payload r ["tiers"] "tiers" CheerEmoteTier
             [tier_payload [("min_bits", VInt 1)] "1"]
             (tier_payload [("min_bits", VInt 100)] "100") []
             (tier_payload [] "100") (KeyError "min_bits")
             (or_introl eq_refl) E eq_refl eq_refl).
  - vm_compute in E. discriminate E.
Defined.

(** ** Predictions *)

Section Predictions.

Context {imports : Imports}.

(** X6.  [Predictor] returns no record, whatever the payload: a payload
    that is not a mapping raises [TypeError], a mapping without
    [channel_points_used] raises [KeyError], and every other mapping raises
    [AttributeError] at the first assignment, [channel_points_used] being
    none of the slots of the class. *)
Theorem predictor_never_constructs http data :
  Predictor http data
  = Raise match data with
          | VDict d =>
              if has_key "channel_points_used" d
              then AttributeError "channel_points_used"
              else KeyError "channel_points_used"
          | _ => TypeError
          end.
Proof.
  destruct data; try reflexivity.
  unfold Predictor, construct, has_key. cbn [exec]. cbv [item bind evaluated getitem].
  destruct (lookup "channel_points_used" d); reflexivity.
Qed.

Lemma Forall2_codomain {A B} (P : A -> B -> Prop) (Q : B -> Prop) xs ys :
  (forall x y, P x y -> Q y) -> Forall2 P xs ys -> Forall Q ys.
Proof. intros H F. induction F; constructor; eauto. Qed.

(** X7.  Every outcome of a constructed prediction has [None] for its top
    predictors: a prediction whose payload lists a top predictor under one
    of its outcomes is not built. *)
Theorem prediction_outcomes_without_predictors http data r :
  Prediction http data = Ok r ->
  exists ys,
    getattr r "outcomes" = Ok (VList ys)
    /\ Forall (fun y => getattr y "top_predictors" = Ok VNone) ys
    /\ forall xs, data.["outcomes"] = Ok (VList xs) ->
                  Forall (fun x : value => vacant x.["top_predictors"] = true) xs.
Proof.
  intros H. pose proof H as H0. unfold Prediction, construct in H.
  destruct (exec Prediction_slots _ []) as [self|] eqn:E; simpl in H; [|discriminate].
  injection H as <-.
  pose proof (exec_lookup _ _ _ _ "outcomes" E) as L.
  cbn [rhs_of String.eqb Ascii.eqb Bool.eqb] in L. destruct L as [v [Hv L]].
  unfold comprehension in Hv.
  destruct (data.["outcomes"]) as [c|] eqn:Hc; simpl in Hv; [|discriminate].
  destruct (iter c) as [xs|] eqn:Hi; simpl in Hv; [|discriminate].
  destruct (mapM (PredictionOutcome http) xs) as [ys|] eqn:Hm; simpl in Hv; [|discriminate].
  injection Hv as <-. exists ys.
  pose proof (mapM_Forall2 _ _ _ Hm) as F.
  split; [simpl; rewrite L; reflexivity|]. split.
  - apply (Forall2_codomain _ _ xs ys (fun x y => outcome_top_predictors_none http x y) F).
  - intros xs' [= ->]. simpl in Hi. injection Hi as <-.
    clear - F. induction F as [|x y xs ys Hx _ IH]; constructor; [|exact IH].
    destruct (x.["top_predictors"]) as [c|e] eqn:Hc.
    + simpl. destruct (truthy c) eqn:Ht; [|reflexivity].
      exfalso. exact (outcome_with_predictors_raises http x c Hc Ht y Hx).
    + exfalso. unfold PredictionOutcome, construct in Hx.
      destruct (exec PredictionOutcome_slots _ []) as [self|] eqn:E; [|discriminate].
      pose proof (exec_lookup _ _ _ _ "top_predictors" E) as L.
      cbn [rhs_of String.eqb Ascii.eqb Bool.eqb] in L. destruct L as [v [Hv _]].
      unfold if_else in Hv. rewrite Hc in Hv. discriminate Hv.
Qed.

End Predictions.

(** X7 on a prediction with two outcomes. *)
Lemma prediction_outcomes_without_predictors_witness :
  exists r ys,
    @Prediction sample_imports sample_http prediction_payload = Ok r
    /\ getattr r "outcomes" = Ok (VList ys)
    /\ Forall (fun y => getattr y "top_predictors" = Ok VNone) ys.
Proof.
  destruct (@Prediction sample_imports sample_http prediction_payload) as [r|e] eqn:E.
  - destruct (@prediction_outcomes_without_predictors sample_imports sample_http
                prediction_payload r E) as [ys [H1 [H2 _]]].
    exists r, ys. auto.
  - vm_compute in E. discriminate E.
Defined.

(** ** Extensions: what is read back and what cannot be serialized *)

Section Extensions.

Context {imports : Imports}.

(** X8.  The mapping that a record made by [Extension.new] serializes to is
    accepted by [ActiveExtension], which reads back the same [active], [id]
    and [version] and the same coordinates, a coordinate that was [None]
    included; the name is [None]. *)
Theorem serialized_extension_read_back active version id x y :
  exists e d r,
    Extension_new active version id x y = Ok e
    /\ Extension_to_dict e = Ok d
    /\ ActiveExtension d = Ok r
    /\ getattr r "active" = Ok active /\ getattr r "id" = Ok id
    /\ getattr r "version" = Ok version
    /\ getattr r "x" = Ok x /\ getattr r "y" = Ok y /\ getattr r "name" = Ok VNone.
Proof.
  unfold Extension_new, construct. exec_steps.
  eexists. eexists. eexists. split; [reflexivity|].
  split; [reflexivity|].
  destruct x, y; repeat split; reflexivity.
Qed.

(** X9.  [_to_dict], which the two subclasses of [Extension] inherit, reads
    attributes their constructors never assign: on an [ActiveExtension] it
    raises [AttributeError] for [_x], on a [MaybeActiveExtension] for
    [active]; a builder given an [ActiveExtension] as its first panel raises
    the same when it is flattened. *)
Theorem inherited_to_dict_raises data e :
  (ActiveExtension data = Ok e ->
   method_to_dict e = Raise (AttributeError "_x")
   /\ forall panels overlays components b,
        ExtensionBuilder (VList (e :: panels)) overlays components = Ok b ->
        ExtensionBuilder_to_dict b = Raise (AttributeError "_x"))
  /\ (MaybeActiveExtension data = Ok e ->
      method_to_dict e = Raise (AttributeError "active")).
Proof.
  split; intros H.
  - assert (method_to_dict e = Raise (AttributeError "_x")) as X.
    { unfold ActiveExtension, construct in H.
      destruct (exec ActiveExtension_slots _ []) as [self|] eqn:E; simpl in H; [|discriminate].
      injection H as <-.
      pose proof (exec_lookup _ _ _ _ "active" E) as [a [_ La]].
      pose proof (exec_lookup _ _ _ _ "id" E) as [i [_ Li]].
      pose proof (exec_lookup _ _ _ _ "version" E) as [v [_ Lv]].
      pose proof (exec_lookup _ _ _ _ "_x" E) as Lx.
      cbn [rhs_of String.eqb Ascii.eqb Bool.eqb lookup] in Lx.
      unfold method_to_dict, Extension_to_dict, getattr. simpl existsb. cbv iota.
      rewrite La, Li, Lv, Lx. reflexivity. }
    split; [exact X|].
    intros panels overlays components b Hb.
    unfold ExtensionBuilder, construct, py_or in Hb. cbn [truthy exec bind evaluated] in Hb.
    destruct (truthy overlays), (truthy components); simpl in Hb; injection Hb as <-;
      unfold ExtensionBuilder_to_dict, enumerate_to_dict;
      cbn [getattr lookup String.eqb Ascii.eqb Bool.eqb bind iter keyed_by_index];
      rewrite X; reflexivity.
  - unfold MaybeActiveExtension, construct in H.
    destruct (exec MaybeActiveExtension_slots _ []) as [self|] eqn:E; simpl in H; [|discriminate].
    injection H as <-.
    pose proof (exec_lookup _ _ _ _ "active" E) as La.
    cbn [rhs_of String.eqb Ascii.eqb Bool.eqb lookup] in La.
    unfold method_to_dict, Extension_to_dict, getattr. simpl existsb. cbv iota.
    rewrite La. reflexivity.
Qed.

End Extensions.

(** X9 on the payload of an active extension. *)
Lemma inherited_to_dict_raises_witness :
  exists e,
    ActiveExtension active_extension_payload = Ok e
    /\ @method_to_dict sample_imports e = Raise (AttributeError "_x").
Proof.
  destruct (ActiveExtension active_extension_payload) as [e|x] eqn:E.
  - exists e. split; [reflexivity|].
    exact (proj1 (proj1 (@inherited_to_dict_raises sample_imports
                           active_extension_payload e) E)).
  - vm_compute in E. discriminate E.
Defined.

(** ** Dates of a team *)

Lemma split_on_before sep base rest :
  find sep base = None -> hd "" (split_on sep (base ++ String sep rest)) = base.
Proof.
  unfold find. generalize 0%nat.
  induction base as [|c base IH]; intros n H; simpl in *.
  - rewrite Ascii.eqb_refl. reflexivity.
  - destruct (Ascii.eqb c sep); [discriminate|].
    specialize (IH _ H).
    destruct (split_on sep (base ++ String sep rest)); simpl in *; subst; reflexivity.
Qed.

Lemma split_on_whole sep s : find sep s = None -> hd "" (split_on sep s) = s.
Proof.
  unfold find. generalize 0%nat.
  induction s as [|c s IH]; intros n H; simpl in *.
  - reflexivity.
  - destruct (Ascii.eqb c sep); [discriminate|].
    specialize (IH _ H). destruct (split_on sep s); simpl in *; subst; reflexivity.
Qed.

Section Teams.

Context {imports : Imports}.

(** X10.  [Team] and [ChannelTeams] hand [parse_timestamp] the text of
    [created_at] and of [updated_at] up to the first space only: the
    attribute is the timestamp of the date part, whatever follows the space,
    and of the whole text when it holds no space. *)
Theorem team_timestamp_date_part rt http ref1 ref2 (data : value) r a date :
  rt = RTeam \/ rt = RChannelTeams ->
  a = "created_at" \/ a = "updated_at" ->
  build rt http ref1 ref2 data = Ok r ->
  find " " date = None ->
  (exists rest, data.[a] = Ok (VStr (date ++ " " ++ rest))) \/ data.[a] = Ok (VStr date) ->
  exists t, parse_timestamp (VStr date) = Ok t /\ getattr r a = Ok t.
Proof.
  intros Hrt Ha H Hd Hs.
  assert (split_first " " data.[a] = Ok (VStr date)) as S.
  { destruct Hs as [[rest Hs]|Hs]; rewrite Hs; unfold split_first; simpl.
    - rewrite (split_on_before " " date rest Hd). reflexivity.
    - rewrite (split_on_whole " " date Hd). reflexivity. }
  assert (exists t, call1 parse_timestamp (split_first " " data.[a]) = Ok t
                    /\ getattr r a = Ok t) as X.
  { destruct Hrt as [-> | ->], Ha as [-> | ->]; cbn [build] in H;
      unfold Team, ChannelTeams, construct in H;
      match type of H with
      | bind (exec ?slots ?body []) _ = _ =>
          destruct (exec slots body []) as [self|] eqn:E; simpl in H; [|discriminate];
          injection H as <-
      end;
      match goal with
      | |- exists t, _ /\ getattr _ ?a = _ =>
          pose proof (exec_lookup _ _ _ _ a E) as L;
          cbn [rhs_of String.eqb Ascii.eqb Bool.eqb] in L;
          destruct L as [v [L1 L2]]; exists v;
          split; [exact L1 | simpl; rewrite L2; reflexivity]
      end. }
  destruct X as [t [Ht Hg]]. exists t. split; [|exact Hg].
  rewrite S in Ht. exact Ht.
Qed.

End Teams.

(** X10 on a team created at "2019-02-11 12:09:22". *)
Lemma team_timestamp_date_part_witness :
  exists r,
    @Team sample_imports sample_http team_payload = Ok r
    /\ getattr r "created_at" = Ok (VDatetime (mkdatetime 2019 2 11 0 0 0 0 None)).
Proof.
  destruct (@Team sample_imports sample_http team_payload) as [r|e] eqn:E.
  - exists r. split; [reflexivity|].
    destruct (@team_timestamp_date_part sample_imports RTeam sample_http VNone VNone
                team_payload r "created_at" "2019-02-11"
                (or_introl eq_refl) (or_introl eq_refl) E eq_refl
                (or_introl (ex_intro _ "12:09:22" eq_refl))) as [t [Ht Hg]].
    rewrite Hg. rewrite <- Ht. reflexivity.
  - vm_compute in E. discriminate E.
Defined.

(** ** Subscription tiers that are no multiple of 1000 *)

Section Rounding.

Context {imports : Imports}.

(** X11.  The tier of a subscription event is the multiple of 1000 nearest
    to the payload's number, and the even one of the two when the number
    lies half-way between them (1500 gives 2, and so does 2500). *)
Theorem tier_rounds_to_nearest http (data : value) broadcaster user r v n :
  SubscriptionEvent http data broadcaster user = Ok r ->
  data.["tier"] = Ok v -> py_int v = Ok (VInt n) ->
  Z.abs n < 2 ^ 53 ->
  exists t,
    getattr r "tier" = Ok (VInt t)
    /\ 2 * Z.abs (n - 1000 * t) <= 1000
    /\ (2 * Z.abs (n - 1000 * t) = 1000 -> Z.even t = true).
Proof.
  intros H Hv Hn Hb. exists (round_div n 1000). split.
  - eapply construct_getattr; [exact H | reflexivity |].
    exact (decode_tier_small _ v n Hv Hn Hb).
  - unfold round_div.
    pose proof (Z.div_mod n 1000 ltac:(lia)) as D.
    pose proof (Z.mod_pos_bound n 1000 ltac:(lia)) as B.
    destruct (2 * (n mod 1000) <? 1000) eqn:E1; [apply Z.ltb_lt in E1; lia|].
    apply Z.ltb_ge in E1.
    destruct (1000 <? 2 * (n mod 1000)) eqn:E2; [apply Z.ltb_lt in E2; lia|].
    apply Z.ltb_ge in E2.
    destruct (Z.even (n / 1000)) eqn:E3; [split; [lia | intros _; exact E3]|].
    split; [lia|]. intros _. rewrite Z.even_add, E3. reflexivity.
Qed.

End Rounding.

(** X11 on a subscription whose tier is 2500. *)
Lemma tier_rounds_to_nearest_witness :
  exists r t,
    @SubscriptionEvent sample_imports sample_http
      (VDict [("tier", VInt 2500); ("plan_name", VStr "Channel Subscription");
              ("is_gift", VBool false)]) sample_user sample_user = Ok r
    /\ getattr r "tier" = Ok (VInt t)
    /\ 2 * Z.abs (2500 - 1000 * t) <= 1000
    /\ (2 * Z.abs (2500 - 1000 * t) = 1000 -> Z.even t = true).
Proof.
  destruct (@SubscriptionEvent sample_imports sample_http
              (VDict [("tier", VInt 2500); ("plan_name", VStr "Channel Subscription");
                      ("is_gift", VBool false)]) sample_user sample_user) as [r|e] eqn:E.
  - destruct (@tier_rounds_to_nearest sample_imports sample_http _ sample_user sample_user r
                (VInt 2500) 2500 E eq_refl eq_refl eq_refl) as [t Ht].
    exists r, t. split; [reflexivity | exact Ht].
  - vm_compute in E. discriminate E.
Defined.

(** ** Identifiers: [int] of a decimal string, and back *)

(** The digits of [u], read from the left onto the value of [d']. *)
Lemma digits_from_uint u : forall acc b d',
  (u = Decimal.Nil -> b = true) ->
  acc = Z.of_N (Unsigned.of_lu d') ->
  digits_from (NilEmpty.string_of_uint u) acc b
  = Some (Z.of_N (Unsigned.of_lu (Decimal.revapp u d'))).
Proof.
  induction u; intros acc b d' Hb Hacc;
    try (simpl; rewrite (Hb eq_refl); subst; reflexivity);
    cbn [NilEmpty.string_of_uint digits_from Decimal.revapp];
    change (is_digit _) with true; cbv iota;
    (apply IHu; [reflexivity|]);
    subst acc; cbn [Unsigned.of_lu]; unfold digit_value; simpl Z.of_nat; lia.
Qed.

Lemma int_of_positive p :
  digits_from (NilEmpty.string_of_uint (Pos.to_uint p)) 0 false = Some (Zpos p).
Proof.
  rewrite (digits_from_uint _ 0 false Decimal.Nil).
  - change (Decimal.revapp (Pos.to_uint p) Decimal.Nil) with (Decimal.rev (Pos.to_uint p)).
    rewrite <- Unsigned.of_uint_alt, Unsigned.of_to. reflexivity.
  - intros H. exfalso. exact (Unsigned.to_uint_nonnil p H).
  - reflexivity.
Qed.

(** A number in decimal notation starts with a digit or with "-", and
    holds no white space. *)
Lemma uint_no_space u :
  forallb (fun c => negb (is_space c) && negb (Ascii.eqb c "-") && negb (Ascii.eqb c "+"))%bool
    (list_ascii_of_string (NilEmpty.string_of_uint u)) = true.
Proof. induction u; simpl; auto. Qed.

Lemma rstrip_no_space s :
  forallb (fun c => negb (is_space c)) (list_ascii_of_string s) = true -> rstrip s = s.
Proof.
  induction s as [|c s IH]; simpl; intros H; [reflexivity|].
  apply andb_prop in H. destruct H as [H1 H2]. rewrite (IH H2).
  apply negb_true_iff in H1. rewrite H1. destruct s; reflexivity.
Qed.

Lemma strip_uint u :
  rstrip (lstrip (NilEmpty.string_of_uint u)) = NilEmpty.string_of_uint u.
Proof.
  pose proof (uint_no_space u) as H.
  assert (forallb (fun c => negb (is_space c))
            (list_ascii_of_string (NilEmpty.string_of_uint u)) = true) as H'.
  { eapply forallb_forall. intros c Hc.
    pose proof (proj1 (forallb_forall _ _) H c Hc) as X.
    apply andb_prop in X. destruct X as [X _]. apply andb_prop in X. tauto. }
  assert (lstrip (NilEmpty.string_of_uint u) = NilEmpty.string_of_uint u) as L.
  { destruct (NilEmpty.string_of_uint u) as [|c s]; [reflexivity|].
    simpl in *. apply andb_prop in H'. destruct H' as [X _].
    apply negb_true_iff in X. rewrite X. reflexivity. }
  rewrite L. apply rstrip_no_space. exact H'.
Qed.

(** [int(str(n))] is [n], unless [str(n)] has more digits than [int]
    reads. *)
Lemma int_of_str_of_Z n :
  int_of_str (str_of_Z n)
  = if Nat.ltb max_str_digits (digit_count (str_of_Z n)) then None else Some n.
Proof.
  unfold int_of_str. destruct (Nat.ltb _ _); [reflexivity|].
  unfold str_of_Z. destruct n as [|p|p]; cbn [Z.to_int NilEmpty.string_of_int].
  - reflexivity.
  - rewrite strip_uint.
    pose proof (uint_no_space (Pos.to_uint p)) as H.
    pose proof (int_of_positive p) as D.
    destruct (NilEmpty.string_of_uint (Pos.to_uint p)) as [|c s] eqn:E; [exact D|].
    simpl in H. apply andb_prop in H. destruct H as [H _].
    apply andb_prop in H. destruct H as [H H3]. apply andb_prop in H. destruct H as [_ H2].
    apply negb_true_iff in H2, H3.
    destruct c as [[] [] [] [] [] [] [] []]; try exact D; discriminate.
  - assert (lstrip (String "-" (NilEmpty.string_of_uint (Pos.to_uint p)))
            = String "-" (NilEmpty.string_of_uint (Pos.to_uint p))) as L by reflexivity.
    rewrite L.
    assert (rstrip (String "-" (NilEmpty.string_of_uint (Pos.to_uint p)))
            = String "-" (NilEmpty.string_of_uint (Pos.to_uint p))) as R.
    { apply rstrip_no_space. simpl.
      pose proof (uint_no_space (Pos.to_uint p)) as H.
      eapply forallb_forall. intros c Hc.
      pose proof (proj1 (forallb_forall _ _) H c Hc) as X.
      apply andb_prop in X. destruct X as [X _]. apply andb_prop in X. tauto. }
    rewrite R. rewrite int_of_positive. reflexivity.
Qed.

Lemma digit_count_length s : (digit_count s <= String.length s)%nat.
Proof.
  unfold digit_count. induction s as [|c s IH]; simpl; [lia|].
  destruct (is_digit c); simpl; lia.
Qed.

Lemma int_of_short_str_of_Z n :
  (String.length (str_of_Z n) <= max_str_digits)%nat -> int_of_str (str_of_Z n) = Some n.
Proof.
  intros H. rewrite int_of_str_of_Z.
  pose proof (digit_count_length (str_of_Z n)) as D.
  destruct (Nat.ltb _ _) eqn:E; [apply Nat.ltb_lt in E; lia | reflexivity].
Qed.


(** X12.  [Game] reads its id with [int], before any other key: the decimal
    text of an integer, of no more than 4300 characters, gives that integer;
    an ASCII text of that length that is no number raises [ValueError]; and a
    null id raises [TypeError]. *)
Theorem game_id_coercion (data : value) :
  (forall n,
     data.["id"] = Ok (VStr (str_of_Z n)) ->
     (String.length (str_of_Z n) <= max_str_digits)%nat ->
     has data "name" = true -> has data "box_art_url" = true ->
     exists g, Game data = Ok g /\ getattr g "id" = Ok (VInt n))
  /\ (forall s,
        data.["id"] = Ok (VStr s) ->
        ascii_text s = true -> (String.length s <= max_str_digits)%nat ->
        int_of_str s = None ->
        Game data = Raise ValueError)
  /\ (data.["id"] = Ok VNone -> Game data = Raise TypeError).
Proof.
  repeat split.
  - intros n Hid Hlen Hn Hb.
    apply is_ok_inv in Hn. destruct Hn as [name Hn].
    apply is_ok_inv in Hb. destruct Hb as [art Hb].
    assert (call1 py_int data.["id"] = Ok (VInt n)) as Hi.
    { rewrite Hid. unfold call1, bind, py_int.
      rewrite (int_of_short_str_of_Z n Hlen). reflexivity. }
    unfold Game, construct. exec_steps. eexists. split; reflexivity.
  - intros s Hid _ _ Hs. unfold Game, construct. cbn [exec]. rewrite Hid.
    unfold call1, bind, py_int. rewrite Hs. reflexivity.
  - intros Hid. unfold Game, construct. cbn [exec]. rewrite Hid. reflexivity.
Qed.

(** X12 on the game whose id is the text of 33214. *)
Lemma game_id_coercion_witness :
  exists g, Game game_payload = Ok g /\ getattr g "id" = Ok (VInt 33214).
Proof.
  apply (proj1 (game_id_coercion game_payload) 33214); try reflexivity.
  apply Nat.leb_le. reflexivity.
Defined.

Section Deleting.

Context {imports : Imports}.


End Deleting.


(** ** The box art of a game *)

Lemma string_app_assoc (a b c : string) : (a ++ b) ++ c = a ++ (b ++ c).
Proof. induction a as [|x a IH]; simpl; [reflexivity | rewrite IH; reflexivity]. Qed.

Lemma string_app_nil_r (a : string) : a ++ "" = a.
Proof. induction a as [|x a IH]; simpl; [reflexivity | rewrite IH; reflexivity]. Qed.

Lemma followed_by_app a b r : followed_by a (followed_by b r) = followed_by (a ++ b) r.
Proof.
  destruct r as [[t|]|]; simpl; try reflexivity.
  rewrite string_app_assoc. reflexivity.
Qed.

(** Literal text is copied. *)
Lemma format_literal pre s width height :
  brace_free pre = true ->
  format_from (pre ++ s) None width height
  = followed_by pre (format_from s None width height).
Proof.
  unfold brace_free, brace. induction pre as [|c pre IH]; simpl; intros H.
  - destruct (format_from s None width height) as [[]|]; reflexivity.
  - apply andb_prop in H. destruct H as [H1 H2].
    apply negb_true_iff, orb_false_elim in H1. destruct H1 as [B1 B2].
    rewrite B1, B2, (IH H2).
    rewrite followed_by_app. reflexivity.
Qed.

(** A field is read up to its closing brace. *)
Lemma format_field name : forall acc rest width height,
  forallb (fun c => negb (field_syntax c)) (list_ascii_of_string name) = true ->
  format_from (name ++ String "}" rest) (Some acc) width height
  = match field_value (acc ++ name) width height with
    | Some (Ok text) => followed_by text (format_from rest None width height)
    | other => other
    end.
Proof.
  induction name as [|c name IH]; intros acc rest width height H.
  - simpl. rewrite string_app_nil_r. reflexivity.
  - simpl in H. apply andb_prop in H. destruct H as [H1 H2].
    apply negb_true_iff in H1.
    assert (Ascii.eqb c "}" = false) as B.
    { unfold field_syntax, brace in H1. repeat (apply orb_false_elim in H1; destruct H1 as [H1 ?]).
      assumption. }
    cbn [append format_from]. rewrite B, H1, (IH _ _ _ _ H2).
    rewrite string_app_assoc. reflexivity.
Qed.

Lemma format_plain s width height :
  brace_free s = true -> format_from s None width height = Some (Ok s).
Proof.
  intros H. rewrite <- (string_app_nil_r s) at 1. rewrite (format_literal _ _ _ _ H).
  simpl. rewrite string_app_nil_r. reflexivity.
Qed.



Lemma keyword_parts name :
  keyword name = true ->
  forallb (fun c => negb (field_syntax c)) (list_ascii_of_string name) = true
  /\ (negb (ascii_text name) || positional name)%bool = false.
Proof.
  unfold keyword. intros H. apply andb_prop in H. destruct H as [H H2].
  apply andb_prop in H. destruct H as [H0 H1].
  split; [exact H1|]. apply negb_true_iff in H2. rewrite H0, H2. reflexivity.
Qed.

(** A field whose name is a keyword other than the two that are passed. *)
Lemma format_unknown name rest width height :
  keyword name = true -> name <> "width" -> name <> "height" ->
  format_from (String "{" (name ++ String "}" rest)) None width height
  = Some (Raise (KeyError name)).
Proof.
  intros K Hw Hh. destruct (keyword_parts name K) as [K1 K2].
  assert (format_from (String "{" (name ++ String "}" rest)) None width height
          = format_from (name ++ String "}" rest) (Some "") width height) as ->.
  { destruct name as [|c name]; [reflexivity|].
    simpl in K1. apply andb_prop in K1. destruct K1 as [K1 _].
    apply negb_true_iff in K1. unfold field_syntax, brace in K1.
    repeat (apply orb_false_elim in K1; destruct K1 as [K1 ?]).
    cbn [append format_from]. rewrite Ascii.eqb_refl.
    destruct c as [[] [] [] [] [] [] [] []]; try reflexivity; discriminate. }
  rewrite (format_field name "" rest width height K1). simpl append.
  unfold field_value. rewrite K2.
  apply String.eqb_neq in Hw, Hh. rewrite Hw, Hh. reflexivity.
Qed.



(** X15.  On other templates: one without braces is returned as it is; a
    doubled brace gives a single one and opens no field, so "{{width}}" is
    not expanded; a field with another keyword, a name in ASCII that holds
    none of the characters of the field syntax and is no number, raises
    [KeyError] for it; a closing brace on its own raises [ValueError]; and a
    box art that is null raises [AttributeError]. *)
Theorem art_url_other_templates (data : value) g width height :
  Game data = Ok g ->
  (forall template,
     data.["box_art_url"] = Ok (VStr template) -> brace_free template = true ->
     Game_art_url g width height = Some (Ok (VStr template)))
  /\ (forall pre post,
        data.["box_art_url"] = Ok (VStr (pre ++ "{{width}}" ++ post)) ->
        brace_free pre = true -> brace_free post = true ->
        Game_art_url g width height = Some (Ok (VStr (pre ++ "{width}" ++ post))))
  /\ (forall pre name rest,
        data.["box_art_url"] = Ok (VStr (pre ++ "{" ++ name ++ "}" ++ rest)) ->
        brace_free pre = true -> keyword name = true ->
        name <> "width" -> name <> "height" ->
        Game_art_url g width height = Some (Raise (KeyError name)))
  /\ (forall pre post,
        data.["box_art_url"] = Ok (VStr (pre ++ "}" ++ post)) ->
        brace_free pre = true -> brace_free post = true ->
        Game_art_url g width height = Some (Raise ValueError))
  /\ (data.["box_art_url"] = Ok VNone ->
      Game_art_url g width height = Some (Raise (AttributeError "format"))).
Proof.
  intros H.
  assert (forall v, data.["box_art_url"] = Ok v -> getattr g "box_art_url" = Ok v) as G.
  { intros v Hv. eapply construct_getattr; [exact H | reflexivity | exact Hv]. }
  repeat split.
  - intros template Hu Ht. unfold Game_art_url, py_format.
    rewrite (G _ Hu), (format_plain _ _ _ Ht). reflexivity.
  - intros pre post Hu Hpre Hpost. unfold Game_art_url, py_format.
    rewrite (G _ Hu), (format_literal _ _ _ _ Hpre).
    change (format_from ("{{width}}" ++ post) None width height)
      with (followed_by "{" (format_from ("width" ++ "}}" ++ post) None width height)).
    rewrite (format_literal "width" _ _ _ eq_refl).
    change (format_from ("}}" ++ post) None width height)
      with (followed_by "}" (format_from post None width height)).
    rewrite (format_plain _ _ _ Hpost). reflexivity.
  - intros pre name rest Hu Hpre Hk Hw Hh. unfold Game_art_url, py_format.
    rewrite (G _ Hu), (format_literal _ _ _ _ Hpre).
    change ("{" ++ name ++ "}" ++ rest) with (String "{" (name ++ String "}" rest)).
    rewrite (format_unknown _ _ _ _ Hk Hw Hh). reflexivity.
  - intros pre post Hu Hpre Hpost. unfold Game_art_url, py_format.
    rewrite (G _ Hu), (format_literal _ _ _ _ Hpre).
    assert (format_from ("}" ++ post) None width height = Some (Raise ValueError)) as ->.
    { destruct post as [|c post]; [reflexivity|].
      unfold brace_free in Hpost. simpl in Hpost. apply andb_prop in Hpost.
      destruct Hpost as [B _]. apply negb_true_iff in B. unfold brace in B.
      apply orb_false_elim in B. destruct B as [_ B].
      cbn [append format_from]. rewrite Ascii.eqb_refl.
      change (Ascii.eqb "}" "{") with false. cbv iota.
      destruct c as [[] [] [] [] [] [] [] []]; try reflexivity; discriminate. }
    reflexivity.
  - intros Hu. unfold Game_art_url. rewrite (G _ Hu). reflexivity.
Qed.

(** X15 on a box art whose template names a field [size]. *)
Lemma art_url_other_templates_witness :
  exists g,
    Game (VDict [("id", VInt 1); ("name", VStr "Chess");
                 ("box_art_url", VStr "https://example.com/art-{size}.jpg")]) = Ok g
    /\ Game_art_url g 285 380 = Some (Raise (KeyError "size")).
Proof.
  destruct (Game (VDict [("id", VInt 1); ("name", VStr "Chess");
                         ("box_art_url", VStr "https://example.com/art-{size}.jpg")]))
    as [g|e] eqn:E.
  - exists g. split; [reflexivity|].
    apply (proj1 (proj2 (proj2 (art_url_other_templates _ g 285 380 E)))
             "https://example.com/art-" "size" ".jpg"); try reflexivity; discriminate.
  - vm_compute in E. discriminate E.
Defined.

(** ** What a record depends on *)

Section Dependence.

Context {imports : Imports}.

(** X16.  A record depends on the payload through the keys its constructor
    reads only: two mappings that agree on these keys give the same result,
    record or exception, whatever their other keys and the order of their
    keys; a key the constructor does not read can be added, changed or taken
    out. *)
Theorem record_depends_on_read_keys rt http ref1 ref2 d1 d2 :
  (forall k, In k (read_keys rt) -> lookup k d1 = lookup k d2) ->
  build rt http ref1 ref2 (VDict d1) = build rt http ref1 ref2 (VDict d2)
  /\ forall k v,
       ~ In k (read_keys rt) ->
       build rt http ref1 ref2 (VDict (store k v d1)) = build rt http ref1 ref2 (VDict d2)
       /\ build rt http ref1 ref2 (VDict (remove_key k d1)) = build rt http ref1 ref2 (VDict d2).
Proof.
  assert (forall a b,
            (forall k, In k (read_keys rt) -> lookup k a = lookup k b) ->
            build rt http ref1 ref2 (VDict a) = build rt http ref1 ref2 (VDict b)) as X.
  { intros a b H.
    destruct rt; cbn [build];
      unfold BitsLeaderboard, CheerEmoteTier, CheerEmote, Clip, HypeTrainContribution,
        HypeTrainEvent, BanEvent, FollowEvent, SubscriptionEvent, Marker, VideoMarkers, Game,
        ModEvent, AutomodCheckResponse, Extension, MaybeActiveExtension, ActiveExtension,
        Video, Tag, WebhookSubscription, Stream, ChannelInfo, Prediction, Predictor,
        PredictionOutcome, Schedule, ScheduleSegment, ScheduleCategory, ScheduleVacation,
        Team, ChannelTeams;
      cbv [item evaluated bind getitem dict_get _parse_time has_key];
      repeat match goal with
      | |- context [lookup ?k a] => rewrite (H k ltac:(cbn; tauto))
      end;
      reflexivity. }
  intros H. split; [exact (X _ _ H)|].
  intros k v Hk. split; apply X; intros k' Hk';
    rewrite ?lookup_store, ?lookup_remove_key;
    (destruct (String.eqb k' k) eqn:E;
     [apply String.eqb_eq in E; subst k'; contradiction | exact (H _ Hk')]).
Qed.

End Dependence.

(** X16 on a follow payload with one more key. *)
Lemma record_depends_on_read_keys_witness :
  @FollowEvent sample_imports sample_http
    (VDict [("total", VInt 12); ("followed_at", VStr "2021-05-01T12:00:00Z");
            ("to_name", VStr "streamer"); ("to_id", VStr "23161357");
            ("from_name", VStr "viewer"); ("from_id", VStr "171003792")]) VNone VNone
  = @FollowEvent sample_imports sample_http follow_payload VNone VNone.
Proof.
  apply (@record_depends_on_read_keys sample_imports RFollowEvent sample_http VNone VNone).
  intros k Hk. cbn in Hk.
  repeat (destruct Hk as [<-|Hk]; [reflexivity|]). contradiction.
Defined.

(** ** Timestamps that end in "Z", before CPython 3.11 *)

Lemma get_split i : forall s c, String.get i s = Some c -> exists a b, s = a ++ String c b.
Proof.
  induction i as [|i IH]; intros [|x s] c H; simpl in H; try discriminate.
  - injection H as ->. exists "", s. reflexivity.
  - destruct (IH s c H) as [a [b ->]]. exists (String x a), b. reflexivity.
Qed.

Lemma string_length_app (a b : string) :
  String.length (a ++ b) = (String.length a + String.length b)%nat.
Proof. induction a as [|x a IH]; simpl; [reflexivity | rewrite IH; reflexivity]. Qed.

Lemma get_after (u : string) c b : String.get (String.length u) (u ++ String c b) = Some c.
Proof. induction u as [|x u IH]; simpl; [reflexivity | exact IH]. Qed.

Lemma get_beyond s : forall p, (String.length s <= p)%nat -> String.get p s = None.
Proof.
  induction s as [|x s IH]; intros p H; [reflexivity|].
  destruct p as [|p]; simpl in *; [lia | apply IH; lia].
Qed.

Lemma digits_from_Z x : forall y acc b, digits_from (x ++ String "Z" y) acc b = None.
Proof.
  induction x as [|c x IH]; intros y acc b; simpl.
  - reflexivity.
  - destruct (is_digit c); [apply IH|].
    destruct (Ascii.eqb c "_" && b)%bool; [apply IH | reflexivity].
Qed.

Lemma lstrip_Z a b : exists a', lstrip (a ++ String "Z" b) = a' ++ String "Z" b.
Proof.
  induction a as [|c a IH]; simpl.
  - exists "". reflexivity.
  - destruct (is_space c); [exact IH | exists (String c a); reflexivity].
Qed.

Lemma rstrip_Z a b : exists b', rstrip (a ++ String "Z" b) = a ++ String "Z" b'.
Proof.
  induction a as [|c a IH].
  - simpl. destruct (rstrip b) as [|x r]; [exists "" | exists (String x r)]; reflexivity.
  - destruct IH as [b' IH]. exists b'. cbn [append rstrip]. rewrite IH.
    destruct a; reflexivity.
Qed.

(** [int] refuses a text that holds a "Z". *)
Lemma int_of_str_Z a b : int_of_str (a ++ String "Z" b) = None.
Proof.
  unfold int_of_str. destruct (Nat.ltb _ _); [reflexivity|].
  destruct (lstrip_Z a b) as [a' ->]. destruct (rstrip_Z a' b) as [b' ->].
  destruct a' as [|c a']; [reflexivity|].
  cbn [append].
  destruct c as [[] [] [] [] [] [] [] []];
    first [ apply (digits_from_Z (String _ a'))
          | rewrite (digits_from_Z a'); reflexivity ].
Qed.

Lemma int_of_str_no_Z s v i : int_of_str s = Some v -> String.get i s <> Some "Z"%char.
Proof.
  intros H G. destruct (get_split _ _ _ G) as [a [b ->]].
  rewrite int_of_str_Z in H. discriminate.
Qed.

Lemma int_at_no_Z s pos len v i :
  int_at s pos len = Some v -> (pos <= i < pos + len)%nat -> String.get i s <> Some "Z"%char.
Proof.
  unfold int_at. intros H Hi G.
  apply (int_of_str_no_Z _ _ (i - pos) H).
  rewrite String.substring_correct1 by lia.
  replace (i - pos + pos)%nat with i by lia. exact G.
Qed.

(** The hours, minutes and seconds that are read hold no "Z". *)
Lemma parse_hh_mm_ss_no_Z s comp : forall pos comps pos',
  parse_hh_mm_ss s pos comp = Some (comps, pos') ->
  forall i, (pos <= i < pos')%nat -> String.get i s <> Some "Z"%char.
Proof.
  induction comp as [|comp IH]; intros pos comps pos' H i Hi; simpl in H.
  - injection H as _ <-. lia.
  - destruct (Nat.ltb (String.length s - pos) 2); [discriminate|].
    destruct (int_at s pos 2) as [v|] eqn:Hv; [|discriminate].
    pose proof (fun j => int_at_no_Z s pos 2 v j Hv) as N.
    destruct (String.get (pos + 2) s) as [next|] eqn:Hn.
    + destruct comp as [|comp'].
      * injection H as _ <-. apply N. lia.
      * destruct (negb (Ascii.eqb next ":")) eqn:Hc; [discriminate|].
        destruct (parse_hh_mm_ss s (S (pos + 2)) (S comp')) as [[vs p]|] eqn:Hr; [|discriminate].
        injection H as _ <-.
        destruct (Nat.lt_ge_cases i (pos + 2)) as [L|L]; [apply N; lia|].
        destruct (Nat.eq_dec i (pos + 2)) as [->|D].
        -- rewrite Hn. apply negb_false_iff, Ascii.eqb_eq in Hc. subst next. discriminate.
        -- apply (IH _ _ _ Hr). lia.
    + destruct comp; injection H as _ <-; apply N; lia.
Qed.

(** A time of day, or an offset, that ends in "Z" is refused. *)
Lemma parse_hh_mm_ss_ff_Z u : parse_hh_mm_ss_ff (u ++ "Z") = None.
Proof.
  unfold parse_hh_mm_ss_ff.
  assert (String.get (String.length u) (u ++ "Z") = Some "Z"%char) as G.
  { apply get_after. }
  assert (String.length (u ++ "Z") = S (String.length u)) as L.
  { rewrite string_length_app. simpl. lia. }
  destruct (parse_hh_mm_ss (u ++ "Z") 0 3) as [[comps pos]|] eqn:P; [|reflexivity].
  pose proof (parse_hh_mm_ss_no_Z _ _ _ _ _ P (String.length u)) as N.
  assert (pos <= String.length u)%nat as B.
  { destruct (Nat.le_gt_cases pos (String.length u)) as [X|X]; [exact X|].
    exfalso. apply N; [lia | exact G]. }
  rewrite L. replace (Nat.ltb pos (S (String.length u))) with true
    by (symmetry; apply Nat.ltb_lt; lia).
  destruct (negb (char_is (u ++ "Z") pos ".")); [reflexivity|].
  cbv zeta.
  destruct (negb _) eqn:R; [reflexivity|].
  destruct (int_at (u ++ "Z") (S pos) (S (String.length u) - S pos)) as [f|] eqn:F;
    [|reflexivity].
  exfalso. apply (int_at_no_Z _ _ _ _ (String.length u) F); [|exact G].
  apply negb_false_iff, orb_true_iff in R.
  destruct R as [R|R]; apply Nat.eqb_eq in R; lia.
Qed.

Lemma find_from_get c s : forall from p,
  find_from c s from = Some p -> (from <= p)%nat /\ String.get (p - from) s = Some c.
Proof.
  induction s as [|x s IH]; intros from p H; simpl in H; [discriminate|].
  destruct (Ascii.eqb x c) eqn:E.
  - injection H as <-. apply Ascii.eqb_eq in E. subst x.
    rewrite Nat.sub_diag. split; [lia | reflexivity].
  - destruct (IH _ _ H) as [L G]. split; [lia|].
    replace (p - from)%nat with (S (p - S from)) by lia. exact G.
Qed.

Lemma substring_to_end n : forall s,
  (n <= String.length s)%nat ->
  substring n (String.length (s ++ "Z") - n) (s ++ "Z")
  = substring n (String.length s - n) s ++ "Z".
Proof.
  induction n as [|n IH]; intros s H.
  - rewrite !Nat.sub_0_r. clear H. induction s as [|x s IHs]; [reflexivity|].
    simpl. f_equal. exact IHs.
  - destruct s as [|x s]; [simpl in H; lia|]. simpl in *. apply IH. lia.
Qed.

(** Before 3.11: the time of day of a timestamp is refused when it ends in
    "Z". *)
Lemma parse_isoformat_time_Z t : parse_isoformat_time false (t ++ "Z") = None.
Proof.
  unfold parse_isoformat_time.
  destruct (Nat.ltb (String.length (t ++ "Z")) 2); [reflexivity|].
  cbv zeta.
  assert (String.get (String.length t) (t ++ "Z") = Some "Z"%char) as G.
  { apply get_after. }
  destruct (first_some (find "-" (t ++ "Z")) (first_some (find "+" (t ++ "Z")) None))
    as [p|] eqn:T.
  - destruct (parse_hh_mm_ss_ff (substring 0 p (t ++ "Z"))) as [[[[hh mm] ss] us]|];
      [|reflexivity].
    cbn [andb].
    assert (p < String.length t)%nat as B.
    { assert (exists c, c <> "Z"%char /\ String.get p (t ++ "Z") = Some c) as [c [Hc Gp]].
      { unfold first_some, find in T.
        destruct (find_from "-" (t ++ "Z") 0) as [q|] eqn:F1.
        - injection T as <-. destruct (find_from_get _ _ _ _ F1) as [_ X].
          rewrite Nat.sub_0_r in X. exists "-"%char. split; [discriminate | exact X].
        - destruct (find_from "+" (t ++ "Z") 0) as [q|] eqn:F2; [|discriminate].
          injection T as <-. destruct (find_from_get _ _ _ _ F2) as [_ X].
          rewrite Nat.sub_0_r in X. exists "+"%char. split; [discriminate | exact X]. }
      destruct (Nat.lt_trichotomy p (String.length t)) as [X|[X|X]]; [exact X | |].
      - subst p. rewrite G in Gp. injection Gp as <-. congruence.
      - exfalso.
        assert (String.get p (t ++ "Z") = None) as Y.
        { apply get_beyond. rewrite string_length_app. simpl. lia. }
        congruence. }
    rewrite (substring_to_end (S p) t B).
    destruct (negb _); [reflexivity|].
    rewrite parse_hh_mm_ss_ff_Z. reflexivity.
  - rewrite parse_hh_mm_ss_ff_Z. reflexivity.
Qed.

Lemma fromisoformat_str_Z body :
  (11 <= String.length body)%nat -> fromisoformat_str false (body ++ "Z") = Raise ValueError.
Proof.
  intros H. unfold fromisoformat_str. cbv zeta.
  destruct (parse_isoformat_date _) as [[[y m] d]|]; [|reflexivity].
  rewrite (substring_to_end 11 body H).
  assert (Nat.eqb (String.length (substring 11 (String.length body - 11) body ++ "Z")) 0
          = false) as ->.
  { rewrite string_length_app. apply Nat.eqb_neq. simpl. lia. }
  rewrite parse_isoformat_time_Z. reflexivity.
Qed.

Section Zulu.

Context {imports : Imports}.

(** X17.  [BitsLeaderboard] hands its two timestamps to [fromisoformat] as
    they are.  Before CPython 3.11, a payload whose [started_at] has a time
    of day and ends in "Z", the notation of UTC, is refused with
    [ValueError]; so is one whose [ended_at] does, when [started_at] is
    read. *)
Theorem bits_leaderboard_refuses_zulu http (data : value) body :
  zulu = false ->
  (11 <= String.length body)%nat ->
  (data.["date_range"].["started_at"] = Ok (VStr (body ++ "Z")) ->
   BitsLeaderboard http data = Raise ValueError)
  /\ (forall t,
        fromisoformat zulu data.["date_range"].["started_at"] = Ok t ->
        data.["date_range"].["ended_at"] = Ok (VStr (body ++ "Z")) ->
        BitsLeaderboard http data = Raise ValueError).
Proof.
  intros Hz Hb. split.
  - intros Hs. unfold BitsLeaderboard, construct. cbn [exec bind evaluated].
    rewrite Hs, Hz. unfold fromisoformat. cbn [bind]. rewrite (fromisoformat_str_Z _ Hb).
    reflexivity.
  - intros t Ht He. unfold BitsLeaderboard, construct. exec_steps.
    cbn [exec]. rewrite He, Hz. unfold fromisoformat. cbn [bind].
    rewrite (fromisoformat_str_Z _ Hb). reflexivity.
Qed.

End Zulu.

(** X17 on the first day of a leaderboard period. *)
Lemma bits_leaderboard_refuses_zulu_witness :
  @BitsLeaderboard sample_imports sample_http
    (VDict [("date_range",
             VDict [("started_at", VStr "2018-02-05T08:00:00Z");
                    ("ended_at", VStr "2018-02-12T08:00:00Z")]);
            ("data", VList [])])
  = Raise ValueError.
Proof.
  apply (proj1 (@bits_leaderboard_refuses_zulu sample_imports sample_http _
                  "2018-02-05T08:00:00" eq_refl ltac:(simpl; lia))).
  reflexivity.
Defined.
